(** * Telegram translator bot: preference store, request builder,
      response formatter and length guard

    A shallow embedding of [telegram_translator_bot.py].  Python [str]
    values are sequences of Unicode code points, [float] values are
    binary64 numbers, the two global dictionaries are finite maps keyed by
    the caller identity, and the handlers are written in a state-and-
    exception monad over the bot's world (both stores, the clock and the
    log of everything handed to the chat transport or to the completion
    service). *)

From Stdlib Require Import ZArith NArith QArith Qabs Floats Ascii String List Bool Lia.
From stdpp Require Import base decidable option list gmap pretty.
Import ListNotations.

Set Warnings "-inexact-float".

(** ** Python strings *)

Module PyStr.

(** One Unicode code point. *)
Definition char := N.
(** A Python [str]: [len] is [length], [+] is [++]. *)
Definition str := list char.

(** Decoding of a UTF-8 byte sequence, so that literals can be written
    as they stand in the source file.  [need] counts the continuation
    bytes still expected, [acc] holds the bits read so far. *)
Fixpoint utf8_go (bs : list N) (need : nat) (acc : N) : str :=
  match bs with
  | [] => []
  | b :: bs' =>
      match need with
      | O =>
          if (b <? 128)%N then b :: utf8_go bs' 0 0%N
          else if (b <? 224)%N then utf8_go bs' 1 (b - 192)%N
          else if (b <? 240)%N then utf8_go bs' 2 (b - 224)%N
          else utf8_go bs' 3 (b - 240)%N
      | S O => (acc * 64 + (b - 128))%N :: utf8_go bs' 0 0%N
      | S n => utf8_go bs' n (acc * 64 + (b - 128))%N
      end
  end.

Definition utf8 (s : string) : str :=
  utf8_go (map N_of_ascii (list_ascii_of_string s)) 0 0%N.

(** The only escape sequence of the source's literals is backslash-n. *)
Fixpoint unescape (s : str) : str :=
  match s with
  | 92%N :: 110%N :: s' => 10%N :: unescape s'
  | c :: s' => c :: unescape s'
  | [] => []
  end.

(** [lit "..."] is the Python literal ["..."]. *)
Definition lit (s : string) : str := unescape (utf8 s).

(** [str(n)] and the [{n}] of an f-string, for an [int]. *)
Definition str_of_int (n : Z) : str := utf8 (pretty n).

(** [s.startswith(p)]. *)
Fixpoint startswith (p s : str) : bool :=
  match p, s with
  | [], _ => true
  | _ :: _, [] => false
  | a :: p', b :: s' => (a =? b)%N && startswith p' s'
  end.

(** [s.replace(old, new)]: the non-overlapping occurrences of [old],
    leftmost first.  [skip] counts the characters of a matched
    occurrence that are still to be dropped. *)
Fixpoint replace_go (old new : str) (skip : nat) (s : str) : str :=
  match s with
  | [] => []
  | c :: s' =>
      match skip with
      | S k => replace_go old new k s'
      | O =>
          if startswith old s
          then new ++ replace_go old new (length old - 1) s'
          else c :: replace_go old new 0 s'
      end
  end.

Definition replace (s old new : str) : str :=
  match old with
  | [] => new ++ concat (map (fun c => c :: new) s)
  | _ :: _ => replace_go old new 0 s
  end.

(** [p in s] for two strings: [p] occurs somewhere in [s]. *)
Fixpoint occurs (p s : str) : bool :=
  startswith p s
  || match s with
     | [] => false
     | _ :: s' => occurs p s'
     end.

(** [sep.join(parts)]. *)
Fixpoint join (sep : str) (parts : list str) : str :=
  match parts with
  | [] => []
  | [p] => p
  | p :: ps => p ++ sep ++ join sep ps
  end.

(** [c.isspace()]. *)
Definition isspace (c : char) : bool :=
  ((9 <=? c) && (c <=? 13) || (28 <=? c) && (c <=? 32)
   || (c =? 133) || (c =? 160) || (c =? 5760)
   || (8192 <=? c) && (c <=? 8202)
   || (c =? 8232) || (c =? 8233) || (c =? 8239) || (c =? 8287)
   || (c =? 12288))%N.

(** [s.split()]: the maximal runs of non-whitespace characters.  [cur]
    is the run being read, reversed. *)
Fixpoint split_go (s : str) (cur : str) : list str :=
  match s with
  | [] => match cur with [] => [] | _ :: _ => [rev cur] end
  | c :: s' =>
      if isspace c
      then match cur with
           | [] => split_go s' []
           | _ :: _ => rev cur :: split_go s' []
           end
      else split_go s' (c :: cur)
  end.

Definition split (s : str) : list str := split_go s [].

End PyStr.
Import PyStr.

(** ** Python floats *)

Module PyFloat.

(** [round(x, 1)] on a binary64: the exact value of [x] is rounded to a
    multiple of one tenth, ties to the even multiple, and the result is
    the binary64 nearest to that decimal.  Not-a-number, the infinities,
    the zeros and integral values are returned as they are. *)
Definition half_even (num den : Z) : Z :=
  let q := (num / den)%Z in
  let r := (num mod den)%Z in
  match (2 * r ?= den)%Z with
  | Lt => q
  | Gt => (q + 1)%Z
  | Eq => if Z.even q then q else (q + 1)%Z
  end.

Definition of_Z (k : Z) : float :=
  match k with
  | Z0 => PrimFloat.zero
  | Zpos p => SF2Prim (S754_finite false p 0)
  | Zneg p => SF2Prim (S754_finite true p 0)
  end.

Definition round1 (x : float) : float :=
  match Prim2SF x with
  | S754_finite s m e =>
      if (0 <=? e)%Z then x
      else
        let k := half_even (Zpos m * 10) (2 ^ (- e)) in
        let r := (of_Z k / of_Z 10)%float in
        if s then (- r)%float else r
  | _ => x
  end.

End PyFloat.

(** ** Rounding to one decimal place, as the specification words it *)

Module Decimal.

(** The exact value of a binary64, as a rational: a finite float with
    mantissa [m] and exponent [e] is [m * 2^e], negated when the sign is
    set. *)
Definition exact (x : float) : Q :=
  match Prim2SF x with
  | S754_finite s m e =>
      let v :=
        match e with
        | Zneg p => Zpos m # 2 ^ p
        | _ => inject_Z (Zpos m * 2 ^ e)
        end in
      if s then (- v)%Q else v
  | _ => 0%Q
  end.

(** [k] tenths is [x] rounded to one decimal place: no multiple of one
    tenth is nearer to the exact value of [x], and when [x] lies midway
    between two of them [k] is the even one. *)
Definition rounds_to_tenths (x : float) (k : Z) : Prop :=
  (Qabs (10 * exact x - inject_Z k) <= 1 # 2)%Q
  /\ ((Qabs (10 * exact x - inject_Z k) == 1 # 2)%Q -> Z.even k = true).

(** The binary64 that the decimal [k/10] reads as, for [k] from 1 to 10. *)
Definition tenths : list (Z * float) :=
  [ (1%Z, 0.1%float); (2%Z, 0.2%float); (3%Z, 0.3%float); (4%Z, 0.4%float);
    (5%Z, 0.5%float); (6%Z, 0.6%float); (7%Z, 0.7%float); (8%Z, 0.8%float);
    (9%Z, 0.9%float); (10%Z, 1.0%float) ].

End Decimal.

(** ** Data model *)

(** [Config]: the optional settings read from the environment. *)
Record Config := {
  MAX_MESSAGE_LENGTH : Z;
  DEFAULT_LANGUAGE : str;
  ENABLE_STATS : bool
}.

(** The values [Config] takes when the environment sets none of them. *)
Definition Config_defaults : Config :=
  {| MAX_MESSAGE_LENGTH := 4000;
     DEFAULT_LANGUAGE := lit "vi";
     ENABLE_STATS := true |}.

(** A dictionary literal of the source: keys in the order written. *)
Definition dict (V : Type) := list (str * V).

Fixpoint dict_get {V : Type} (d : dict V) (k : str) : option V :=
  match d with
  | [] => None
  | (k', v) :: d' => if decide (k = k') then Some v else dict_get d' k
  end.

(** One entry of [TRANSLATION_STYLES]. *)
Module Style.
Record t := {
  name : str;
  description : str;
  system_prompt : str;
  temperature : float
}.
End Style.

(** One value of [user_preferences]. *)
Record Prefs := {
  style : str;
  temperature : float;
  format_preserve : bool;
  add_notes : bool;
  target_language : str;
  show_original : bool
}.

Definition DEFAULT_PREFERENCES : Prefs :=
  {| style := lit "professional";
     temperature := 0.3;
     format_preserve := true;
     add_notes := false;
     target_language := lit "vi";
     show_original := false |}.

(** Assignments [prefs[key] = v]. *)
Definition set_style (v : str) (p : Prefs) : Prefs :=
  {| style := v; temperature := temperature p;
     format_preserve := format_preserve p; add_notes := add_notes p;
     target_language := target_language p; show_original := show_original p |}.
Definition set_temperature (v : float) (p : Prefs) : Prefs :=
  {| style := style p; temperature := v;
     format_preserve := format_preserve p; add_notes := add_notes p;
     target_language := target_language p; show_original := show_original p |}.
Definition set_format_preserve (v : bool) (p : Prefs) : Prefs :=
  {| style := style p; temperature := temperature p;
     format_preserve := v; add_notes := add_notes p;
     target_language := target_language p; show_original := show_original p |}.
Definition set_add_notes (v : bool) (p : Prefs) : Prefs :=
  {| style := style p; temperature := temperature p;
     format_preserve := format_preserve p; add_notes := v;
     target_language := target_language p; show_original := show_original p |}.
Definition set_target_language (v : str) (p : Prefs) : Prefs :=
  {| style := style p; temperature := temperature p;
     format_preserve := format_preserve p; add_notes := add_notes p;
     target_language := v; show_original := show_original p |}.
Definition set_show_original (v : bool) (p : Prefs) : Prefs :=
  {| style := style p; temperature := temperature p;
     format_preserve := format_preserve p; add_notes := add_notes p;
     target_language := target_language p; show_original := v |}.

(** One value of [user_statistics]. *)
Record Stats := {
  translations : Z;
  commands : Z;
  first_use : str;
  last_use : str
}.

Definition TRANSLATION_STYLES : dict Style.t :=
  [ (lit "professional",
     {| Style.name := lit "💼 Chuyên nghiệp";
        Style.description := lit "Phong cách trang trọng, chính xác về thuật ngữ";
        Style.system_prompt := lit "Bạn là một dịch giả chuyên nghiệp với kinh nghiệm cao. Dịch văn bản với phong cách trang trọng, chính xác về mặt thuật ngữ chuyên môn.";
        Style.temperature := 0.3 |});
    (lit "casual",
     {| Style.name := lit "😊 Thân thiện";
        Style.description := lit "Phong cách tự nhiên, dễ hiểu";
        Style.system_prompt := lit "Bạn là một dịch giả thân thiện. Dịch văn bản với phong cách tự nhiên, dễ hiểu, gần gũi với người đọc.";
        Style.temperature := 0.5 |});
    (lit "academic",
     {| Style.name := lit "🎓 Học thuật";
        Style.description := lit "Chính xác cao, giữ thuật ngữ chuyên ngành";
        Style.system_prompt := lit "Bạn là một dịch giả học thuật chuyên sâu. Dịch văn bản với độ chính xác cao, giữ nguyên thuật ngữ chuyên ngành khi cần thiết, kèm giải thích.";
        Style.temperature := 0.2 |});
    (lit "creative",
     {| Style.name := lit "🎨 Sáng tạo";
        Style.description := lit "Linh hoạt, giữ thần văn bản";
        Style.system_prompt := lit "Bạn là một dịch giả sáng tạo. Dịch văn bản một cách linh hoạt, sáng tạo nhưng vẫn giữ được tinh thần và ý nghĩa của văn bản gốc.";
        Style.temperature := 0.7 |});
    (lit "technical",
     {| Style.name := lit "⚙️ Kỹ thuật";
        Style.description := lit "Chuyên cho tài liệu kỹ thuật, IT";
        Style.system_prompt := lit "Bạn là một dịch giả chuyên về kỹ thuật và công nghệ. Dịch chính xác các thuật ngữ kỹ thuật, giữ nguyên code, commands và technical terms khi cần.";
        Style.temperature := 0.2 |}) ].

Definition SUPPORTED_LANGUAGES : dict str :=
  [ (lit "vi", lit "🇻🇳 Tiếng Việt");
    (lit "en", lit "🇬🇧 English");
    (lit "zh", lit "🇨🇳 中文");
    (lit "ja", lit "🇯🇵 日本語");
    (lit "ko", lit "🇰🇷 한국어");
    (lit "fr", lit "🇫🇷 Français");
    (lit "de", lit "🇩🇪 Deutsch");
    (lit "es", lit "🇪🇸 Español");
    (lit "ru", lit "🇷🇺 Русский");
    (lit "th", lit "🇹🇭 ไทย") ].

(** ** The transport and the completion service *)

(** The arguments of [zai_client.chat.completions.create]. *)
Record CompletionRequest := {
  model : str;
  system_content : str;
  user_content : str;
  request_temperature : float;
  max_tokens : Z
}.

(** An inline keyboard: rows of buttons, each a label and its
    [callback_data]. *)
Definition keyboard := list (list (str * str)).

(** What a handler hands to the outside, in the order it does so. *)
Inductive effect :=
| reply_text (text : str) (reply_markup : option keyboard)
| edit_message_text (text : str)
| answer (text : option str)
| send_chat_action
| delete_processing_msg
| completions_create (request : CompletionRequest).

(** The part of a Telegram update the handlers read.  [message] is absent
    on a button press, [callback_query] on a text message. *)
Record Update := {
  effective_user_id : Z;
  message_text : option str;
  callback_query_data : option str
}.

(** [context.args]. *)
Record Context := { args : list str }.

(** The exceptions the handlers can let escape. *)
Inductive exn :=
| KeyError (key : str)
| IndexError
| AttributeError.

Inductive outcome (A : Type) :=
| Return (a : A)
| Raise (e : exn).
Arguments Return {A} a.
Arguments Raise {A} e.

(** The bot's mutable world. *)
Record World := {
  user_preferences : gmap Z Prefs;
  user_statistics : gmap Z Stats;
  ticks : nat;
  sent : list effect
}.

(** What the program takes from outside itself: its configuration, the
    clock ([now n] is what the [n]-th reading of
    [datetime.now().isoformat()] returns), the built-ins [float(s)]
    ([None] stands for [ValueError]) and [str(x)] on floats, and the
    completion client ([None] before initialisation; a call returns the
    message content or raises, [inr] carrying [str(e)]). *)
Record Env := {
  config : Config;
  now : nat -> str;
  float_of_str : str -> option float;
  str_of_float : float -> str;
  zai_client : option (CompletionRequest -> str + str)
}.

(** ** The handler monad: state, and exceptions that keep the state *)

Definition M (A : Type) : Type := World -> outcome A * World.

Global Instance M_ret : MRet M := fun A a w => (Return a, w).
Global Instance M_bind : MBind M := fun A B f m w =>
  match m w with
  | (Return a, w') => f a w'
  | (Raise e, w') => (Raise e, w')
  end.

Definition raise {A : Type} (e : exn) : M A := fun w => (Raise e, w).

Definition emit (e : effect) : M unit := fun w =>
  (Return tt,
   {| user_preferences := user_preferences w;
      user_statistics := user_statistics w;
      ticks := ticks w;
      sent := sent w ++ [e] |}).

Definition with_preferences (f : gmap Z Prefs -> gmap Z Prefs) : M unit :=
  fun w =>
  (Return tt,
   {| user_preferences := f (user_preferences w);
      user_statistics := user_statistics w;
      ticks := ticks w;
      sent := sent w |}).

Definition with_statistics (f : gmap Z Stats -> gmap Z Stats) : M unit :=
  fun w =>
  (Return tt,
   {| user_preferences := user_preferences w;
      user_statistics := f (user_statistics w);
      ticks := ticks w;
      sent := sent w |}).

(** [d[k]] on a dictionary literal. *)
Definition getitem {V : Type} (d : dict V) (k : str) : M V :=
  match dict_get d k with
  | Some v => mret v
  | None => raise (KeyError k)
  end.

(** [l[0]]. *)
Definition first {A : Type} (l : list A) : M A :=
  match l with
  | x :: _ => mret x
  | [] => raise IndexError
  end.

(** ** The handlers *)

Section Handlers.

Context (E : Env).

(** [datetime.now().isoformat()]. *)
Definition datetime_now : M str := fun w =>
  (Return (now E (ticks w)),
   {| user_preferences := user_preferences w;
      user_statistics := user_statistics w;
      ticks := S (ticks w);
      sent := sent w |}).

(** [update.message.reply_text(text, reply_markup=...)]: on an update
    that carries no message, [update.message] is [None]. *)
Definition message_reply_text
    (update : Update) (text : str) (reply_markup : option keyboard) : M unit :=
  match message_text update with
  | Some _ => emit (reply_text text reply_markup)
  | None => raise AttributeError
  end.

(** [update.callback_query], for a method call or an attribute read. *)
Definition query_data (update : Update) : M str :=
  match callback_query_data update with
  | Some d => mret d
  | None => raise AttributeError
  end.

Definition get_user_prefs (user_id : Z) : M Prefs := fun w =>
  match user_preferences w !! user_id with
  | Some prefs => (Return prefs, w)
  | None =>
      (Return DEFAULT_PREFERENCES,
       {| user_preferences := <[user_id := DEFAULT_PREFERENCES]> (user_preferences w);
          user_statistics := user_statistics w;
          ticks := ticks w;
          sent := sent w |})
  end.

(** [prefs[key] = v] on the dictionary [get_user_prefs(user_id)]
    returned: the object stored under [user_id] changes. *)
Definition prefs_setitem (user_id : Z) (set : Prefs -> Prefs) : M unit :=
  with_preferences (alter set user_id).

Definition bump_translations (s : Stats) : Stats :=
  {| translations := translations s + 1; commands := commands s;
     first_use := first_use s; last_use := last_use s |}.
Definition bump_commands (s : Stats) : Stats :=
  {| translations := translations s; commands := commands s + 1;
     first_use := first_use s; last_use := last_use s |}.
Definition set_last_use (t : str) (s : Stats) : Stats :=
  {| translations := translations s; commands := commands s;
     first_use := first_use s; last_use := t |}.

(** [user_id in user_statistics]. *)
Definition in_user_statistics (user_id : Z) : M bool := fun w =>
  (Return (bool_decide (is_Some (user_statistics w !! user_id))), w).

Definition update_user_stats (user_id : Z) (action : str) : M unit :=
  if negb (ENABLE_STATS (config E)) then mret tt
  else
    known ← in_user_statistics user_id;
    (if known : bool then mret tt
     else
       t1 ← datetime_now;
       t2 ← datetime_now;
       with_statistics
         (insert user_id
            {| translations := 0; commands := 0;
               first_use := t1; last_use := t2 |}));;
    (if decide (action = lit "translation")
     then with_statistics (alter bump_translations user_id)
     else if decide (action = lit "command")
     then with_statistics (alter bump_commands user_id)
     else mret tt);;
    t ← datetime_now;
    with_statistics (alter (set_last_use t) user_id).

Definition help_text : str :=
  lit "📚 *HƯỚNG DẪN SỬ DỤNG CHI TIẾT*\n\n"
  ++ lit "🔹 *Tính năng chính:*\n"
  ++ lit "• Dịch đa ngôn ngữ với AI tiên tiến\n"
  ++ lit "• Giữ nguyên format (bold, italic, code...)\n"
  ++ lit "• 5 phong cách dịch chuyên biệt\n"
  ++ lit "• Tùy chỉnh độ sáng tạo (temperature)\n"
  ++ lit "• Thống kê sử dụng cá nhân\n\n"
  ++ lit "🔹 *Các lệnh:*\n"
  ++ lit "`/start` - Khởi động bot\n"
  ++ lit "`/style` - Chọn phong cách dịch\n"
  ++ lit "`/language` - Chọn ngôn ngữ đích\n"
  ++ lit "`/settings` - Cài đặt cá nhân\n"
  ++ lit "`/temp [0.1-1.0]` - Điều chỉnh độ sáng tạo\n"
  ++ lit "`/stats` - Xem thống kê\n"
  ++ lit "`/reset` - Đặt lại cài đặt mặc định\n"
  ++ lit "`/about` - Thông tin bot\n\n"
  ++ lit "🔹 *Phong cách dịch:*\n"
  ++ lit "💼 Chuyên nghiệp - Trang trọng, chính xác\n"
  ++ lit "😊 Thân thiện - Tự nhiên, dễ hiểu\n"
  ++ lit "🎓 Học thuật - Chính xác cao\n"
  ++ lit "🎨 Sáng tạo - Linh hoạt, hay\n"
  ++ lit "⚙️ Kỹ thuật - Cho tài liệu IT\n\n"
  ++ lit "💡 *Mẹo:*\n"
  ++ lit "• Có thể gửi văn bản dài (max 4000 ký tự)\n"
  ++ lit "• Hỗ trợ Markdown format\n"
  ++ lit "• Chọn phong cách phù hợp nội dung\n\n"
  ++ lit "🔗 *Liên kết:*\n"
  ++ lit "[Z.AI Platform](https://z.ai) | [Telegram Bot API](https://core.telegram.org/bots)".

Definition help_command (update : Update) (context : Context) : M unit :=
  update_user_stats (effective_user_id update) (lit "command");;
  message_reply_text update help_text None.

Definition reset_command (update : Update) (context : Context) : M unit :=
  let user_id := effective_user_id update in
  update_user_stats user_id (lit "command");;
  with_preferences (insert user_id DEFAULT_PREFERENCES);;
  message_reply_text update
    (lit "🔄 *Đã đặt lại cài đặt mặc định!*\n\n"
     ++ lit "Tất cả tùy chỉnh của bạn đã được khôi phục về mặc định.")
    None.

Definition check_mark (b : bool) : str := if b then lit "✅" else lit "".

Definition language_command (update : Update) (context : Context) : M unit :=
  let user_id := effective_user_id update in
  update_user_stats user_id (lit "command");;
  prefs ← get_user_prefs user_id;
  let current_lang := target_language prefs in
  let keyboard :=
    map (fun '(lang_code, lang_name) =>
           [ (check_mark (bool_decide (lang_code = current_lang))
                ++ lit " " ++ lang_name,
              lit "lang_" ++ lang_code) ])
        SUPPORTED_LANGUAGES in
  message_reply_text update
    (lit "🌍 *Chọn ngôn ngữ đích cho bản dịch:*\n\n"
     ++ lit "_Ngôn ngữ này sẽ được sử dụng cho tất cả bản dịch_")
    (Some keyboard).

Definition style_command (update : Update) (context : Context) : M unit :=
  let user_id := effective_user_id update in
  update_user_stats user_id (lit "command");;
  prefs ← get_user_prefs user_id;
  let current_style := style prefs in
  let keyboard :=
    map (fun '(style_key, style_info) =>
           [ (check_mark (bool_decide (style_key = current_style))
                ++ lit " " ++ Style.name style_info,
              lit "style_" ++ style_key) ])
        TRANSLATION_STYLES
    ++ [ [ (lit "ℹ️ Chi tiết phong cách", lit "style_info") ] ] in
  message_reply_text update
    (lit "🎨 *Chọn phong cách dịch:*\n\n"
     ++ lit "_Mỗi phong cách có cách diễn đạt riêng phù hợp với từng loại nội dung_")
    (Some keyboard).

Definition yes_no (b : bool) : str := if b then lit "✅ Có" else lit "❌ Không".
Definition on_off (b : bool) : str := if b then lit "Bật" else lit "Tắt".

Definition settings_command (update : Update) (context : Context) : M unit :=
  let user_id := effective_user_id update in
  update_user_stats user_id (lit "command");;
  prefs ← get_user_prefs user_id;
  style_info ← getitem TRANSLATION_STYLES (style prefs);
  let style_name := Style.name style_info in
  let lang_name :=
    default (lit "Unknown") (dict_get SUPPORTED_LANGUAGES (target_language prefs)) in
  let settings_text :=
    lit "⚙️ *CÀI ĐẶT HIỆN TẠI*\n"
    ++ lit "━━━━━━━━━━━━━━━━━━━━\n\n"
    ++ lit "🎨 *Phong cách:* " ++ style_name ++ lit "\n"
    ++ lit "🌍 *Ngôn ngữ đích:* " ++ lang_name ++ lit "\n"
    ++ lit "🌡️ *Độ sáng tạo:* " ++ str_of_float E (temperature prefs) ++ lit "\n"
    ++ lit "📝 *Giữ format:* " ++ yes_no (format_preserve prefs) ++ lit "\n"
    ++ lit "📌 *Thêm ghi chú:* " ++ yes_no (add_notes prefs) ++ lit "\n"
    ++ lit "👁️ *Hiện bản gốc:* " ++ yes_no (show_original prefs) ++ lit "\n\n"
    ++ lit "_Dùng các nút bên dưới để thay đổi_" in
  let keyboard :=
    [ [ (lit "📝 Format: " ++ on_off (format_preserve prefs), lit "toggle_format");
        (lit "📌 Ghi chú: " ++ on_off (add_notes prefs), lit "toggle_notes") ];
      [ (lit "👁️ Bản gốc: " ++ on_off (show_original prefs), lit "toggle_original") ];
      [ (lit "🎨 Đổi phong cách", lit "menu_style");
        (lit "🌍 Đổi ngôn ngữ", lit "menu_language") ];
      [ (lit "🔄 Đặt lại mặc định", lit "reset_settings") ] ] in
  message_reply_text update settings_text (Some keyboard).

(** The test [0.1 <= temp <= 1.0]. *)
Definition temp_in_range (temp : float) : bool :=
  ((0.1 <=? temp) && (temp <=? 1.0))%float.

Definition temp_command (update : Update) (context : Context) : M unit :=
  let user_id := effective_user_id update in
  update_user_stats user_id (lit "command");;
  match args context with
  | [] =>
      prefs ← get_user_prefs user_id;
      let current_temp := temperature prefs in
      message_reply_text update
        (lit "🌡️ *ĐIỀU CHỈNH ĐỘ SÁNG TẠO*\n\n"
         ++ lit "📊 *Cách dùng:* `/temp <giá trị>`\n"
         ++ lit "📏 *Phạm vi:* 0.1 - 1.0\n\n"
         ++ lit "🎯 *Hướng dẫn:*\n"
         ++ lit "• `0.1-0.3` - Dịch sát nghĩa, ít sáng tạo\n"
         ++ lit "• `0.4-0.6` - Cân bằng tốt\n"
         ++ lit "• `0.7-1.0` - Sáng tạo, linh hoạt cao\n\n"
         ++ lit "📍 *Giá trị hiện tại:* `" ++ str_of_float E current_temp ++ lit "`\n\n"
         ++ lit "_Ví dụ: /temp 0.5_")
        None
  | arg0 :: _ =>
      match float_of_str E arg0 with
      | Some temp =>
          if temp_in_range temp then
            _ ← get_user_prefs user_id;
            prefs_setitem user_id (set_temperature (PyFloat.round1 temp));;
            message_reply_text update
              (lit "✅ Đã điều chỉnh độ sáng tạo: *" ++ str_of_float E temp ++ lit "*\n\n"
               ++ lit "_Áp dụng cho các bản dịch tiếp theo_")
              None
          else
            message_reply_text update (lit "⚠️ Giá trị phải từ 0.1 đến 1.0") None
      | None =>
          message_reply_text update (lit "⚠️ Vui lòng nhập số hợp lệ (0.1 - 1.0)") None
      end
  end.

Definition style_info_text : str :=
  fold_left
    (fun info_text '(style_key, style_info) =>
       (info_text ++ (Style.name style_info ++ lit "\n"))
       ++ (lit "_" ++ Style.description style_info ++ lit "_\n\n"))
    TRANSLATION_STYLES
    (lit "📖 *CHI TIẾT CÁC PHONG CÁCH DỊCH*\n\n").

Definition button_callback (update : Update) (context : Context) : M unit :=
  let user_id := effective_user_id update in
  data ← query_data update;
  emit (answer None);;
  if startswith (lit "style_") data then
    if decide (data = lit "style_info") then
      emit (edit_message_text style_info_text)
    else
      let style := replace data (lit "style_") (lit "") in
      _ ← get_user_prefs user_id;
      prefs_setitem user_id (set_style style);;
      style_info ← getitem TRANSLATION_STYLES style;
      let style_name := Style.name style_info in
      style_info' ← getitem TRANSLATION_STYLES style;
      emit (edit_message_text
              (lit "✅ Đã chọn phong cách: *" ++ style_name ++ lit "*\n\n"
               ++ lit "_" ++ Style.description style_info' ++ lit "_"))
  else if startswith (lit "lang_") data then
    let lang := replace data (lit "lang_") (lit "") in
    _ ← get_user_prefs user_id;
    prefs_setitem user_id (set_target_language lang);;
    lang_name ← getitem SUPPORTED_LANGUAGES lang;
    emit (edit_message_text (lit "✅ Đã chọn ngôn ngữ đích: *" ++ lang_name ++ lit "*"))
  else if decide (data = lit "toggle_format") then
    prefs ← get_user_prefs user_id;
    prefs_setitem user_id (set_format_preserve (negb (format_preserve prefs)));;
    let status := on_off (negb (format_preserve prefs)) in
    emit (answer (Some (lit "Giữ format: " ++ status)));;
    settings_command update context
  else if decide (data = lit "toggle_notes") then
    prefs ← get_user_prefs user_id;
    prefs_setitem user_id (set_add_notes (negb (add_notes prefs)));;
    let status := on_off (negb (add_notes prefs)) in
    emit (answer (Some (lit "Thêm ghi chú: " ++ status)));;
    settings_command update context
  else if decide (data = lit "toggle_original") then
    prefs ← get_user_prefs user_id;
    prefs_setitem user_id (set_show_original (negb (show_original prefs)));;
    let status := on_off (negb (show_original prefs)) in
    emit (answer (Some (lit "Hiện bản gốc: " ++ status)));;
    settings_command update context
  else if decide (data = lit "menu_style") then
    style_command update context
  else if decide (data = lit "menu_language") then
    language_command update context
  else if decide (data = lit "menu_help") then
    help_command update context
  else if decide (data = lit "reset_settings") then
    with_preferences (insert user_id DEFAULT_PREFERENCES);;
    emit (edit_message_text (lit "🔄 *Đã đặt lại cài đặt mặc định!*"))
  else mret tt.

(** The prompt of [translate_text]: [prompt_parts] as it grows, then
    joined. *)
Definition build_prompt (prefs : Prefs) (target_lang text : str) : str :=
  let prompt_parts :=
    [ lit "Translate the following text to " ++ target_lang ++ lit "." ] in
  let prompt_parts :=
    if format_preserve prefs
    then prompt_parts
         ++ [ lit "Preserve all formatting (bold, italic, line breaks, bullet points, etc.)." ]
    else prompt_parts in
  let prompt_parts :=
    if add_notes prefs
    then prompt_parts
         ++ [ lit "Add brief explanatory notes in parentheses for difficult terms if needed." ]
    else prompt_parts in
  let prompt_parts :=
    prompt_parts
    ++ [ lit "Return only the translation without any additional explanation." ] in
  let prompt_parts :=
    prompt_parts ++ [ lit "\nText to translate:\n" ++ text ] in
  join (lit " ") prompt_parts.

(** The keyword arguments of the [create] call. *)
Definition completion_request
    (style_info : Style.t) (prefs : Prefs) (prompt : str) : CompletionRequest :=
  {| model := lit "glm-4.5-flash";
     system_content := Style.system_prompt style_info;
     user_content := prompt;
     request_temperature := temperature prefs;
     max_tokens := MAX_MESSAGE_LENGTH (config E) |}.

Definition translate_text (text : str) (user_id : Z) : M (str * bool) :=
  match zai_client E with
  | None => mret (lit "❌ Z.AI client chưa được khởi tạo. Kiểm tra API key!", false)
  | Some client =>
      prefs ← get_user_prefs user_id;
      style_info ← getitem TRANSLATION_STYLES (style prefs);
      let target_lang :=
        default (lit "Tiếng Việt")
                (dict_get SUPPORTED_LANGUAGES (target_language prefs)) in
      let prompt := build_prompt prefs target_lang text in
      let request := completion_request style_info prefs prompt in
      emit (completions_create request);;
      match client request with
      | inl translated_text => mret (translated_text, true)
      | inr e => mret (lit "❌ Lỗi khi dịch: " ++ e, false)
      end
  end.

(** The reply of the length check. *)
Definition too_long_text (user_text : str) : str :=
  lit "⚠️ Văn bản quá dài! Tối đa "
  ++ str_of_int (MAX_MESSAGE_LENGTH (config E)) ++ lit " ký tự.\n"
  ++ lit "Văn bản của bạn: "
  ++ str_of_int (Z.of_nat (length user_text)) ++ lit " ký tự.".

(** The lines of [handle_message] between the call of [translate_text]
    and the sending of [response]. *)
Definition format_response
    (user_id : Z) (user_text translated : str) (success : bool) : M str :=
  prefs ← get_user_prefs user_id;
  style_info ← getitem TRANSLATION_STYLES (style prefs);
  style_emoji ← first (split (Style.name style_info));
  lang_name ← getitem SUPPORTED_LANGUAGES (target_language prefs);
  lang_emoji ← first (split lang_name);
  if success then
    style_info' ← getitem TRANSLATION_STYLES (style prefs);
    lang_name' ← getitem SUPPORTED_LANGUAGES (target_language prefs);
    let response_parts :=
      [ style_emoji ++ lit " *Phong cách:* " ++ Style.name style_info';
        lang_emoji ++ lit " *Ngôn ngữ:* " ++ lang_name';
        lit "━━━━━━━━━━━━━━━━━━━━";
        translated ] in
    let response_parts :=
      if show_original prefs
      then response_parts
           ++ [ lit "\n━━━━━━━━━━━━━━━━━━━━";
                lit "📄 *Bản gốc:*";
                lit "_" ++ user_text ++ lit "_" ]
      else response_parts in
    mret (join (lit "\n") response_parts)
  else
    mret translated.

(** [handle_message] from the sending of the processing message to
    the sending of the result. *)
Definition translate_and_reply (update : Update) (user_text : str) : M unit :=
  let user_id := effective_user_id update in
  message_reply_text update (lit "🔄 *Đang dịch...*") None;;
  emit send_chat_action;;
  '(translated, success) ← translate_text user_text user_id;
  response ← format_response user_id user_text translated success;
  emit delete_processing_msg;;
  message_reply_text update response None.

Definition handle_message (update : Update) (context : Context) : M unit :=
  match message_text update with
  | None => raise AttributeError
  | Some user_text =>
      let user_id := effective_user_id update in
      if (MAX_MESSAGE_LENGTH (config E) <? Z.of_nat (length user_text))%Z then
        message_reply_text update (too_long_text user_text) None
      else
        update_user_stats user_id (lit "translation");;
        translate_and_reply update user_text
  end.

End Handlers.

(** ** The remaining handlers and the start-up check *)

(** The two required settings of [Config]: [None] when the environment
    variable is not set. *)
Record Secrets := {
  TELEGRAM_TOKEN : option str;
  ZAI_API_KEY : option str
}.

(** The truth value of an optional string: [None] and [""] are false. *)
Definition truthy (s : option str) : bool :=
  match s with
  | Some (_ :: _) => true
  | _ => false
  end.

(** [x in s] for a character [x]. *)
Definition contains (x : char) (s : str) : bool := existsb (N.eqb x) s.

(** [Config.validate]. *)
Definition validate (c : Secrets) : bool * str :=
  let errors := [] in
  let errors :=
    if negb (truthy (TELEGRAM_TOKEN c))
    then errors ++ [ lit "❌ TELEGRAM_TOKEN not found in .env file" ]
    else
      let token := default [] (TELEGRAM_TOKEN c) in
      if negb (startswith (lit "bot") token || startswith (lit "") token)
         || negb (contains 58%N token)
      then errors ++ [ lit "❌ TELEGRAM_TOKEN format appears invalid" ]
      else errors in
  let errors :=
    if negb (truthy (ZAI_API_KEY c))
    then errors ++ [ lit "❌ ZAI_API_KEY not found in .env file" ]
    else errors in
  match errors with
  | _ :: _ => (false, join (lit "\n") errors)
  | [] => (true, lit "✅ Configuration validated successfully")
  end.

Section MoreHandlers.

Context (E : Env).

(** [start]; [first_name] is [update.effective_user.first_name]. *)
Definition start (first_name : str) (update : Update) (context : Context) : M unit :=
  update_user_stats E (effective_user_id update) (lit "command");;
  let welcome_text :=
    lit "🌐 *Xin chào " ++ first_name ++ lit "! Chào mừng đến với Bot Dịch Thuật*\n\n"
    ++ lit "🤖 *Tôi có thể:*\n"
    ++ lit "• Dịch văn bản sang nhiều ngôn ngữ\n"
    ++ lit "• Giữ nguyên format văn bản\n"
    ++ lit "• Hỗ trợ nhiều phong cách dịch\n\n"
    ++ lit "📝 *Cách sử dụng:*\n"
    ++ lit "Gửi văn bản → Nhận bản dịch ngay lập tức\n\n"
    ++ lit "⚙️ *Lệnh hữu ích:*\n"
    ++ lit "/style - Chọn phong cách dịch\n"
    ++ lit "/language - Chọn ngôn ngữ đích\n"
    ++ lit "/settings - Tùy chỉnh cài đặt\n"
    ++ lit "/stats - Xem thống kê sử dụng\n"
    ++ lit "/help - Hướng dẫn chi tiết\n\n"
    ++ lit "💡 _Gửi văn bản bất kỳ để bắt đầu dịch!_" in
  let keyboard :=
    [ [ (lit "🎨 Chọn phong cách", lit "menu_style") ];
      [ (lit "🌍 Chọn ngôn ngữ", lit "menu_language") ];
      [ (lit "📚 Hướng dẫn", lit "menu_help") ] ] in
  message_reply_text update welcome_text (Some keyboard).

Definition about_text : str :=
  lit "🤖 *TELEGRAM TRANSLATOR BOT*\n"
  ++ lit "━━━━━━━━━━━━━━━━━━━━\n\n"
  ++ lit "📌 *Version:* 2.0 Open Source\n"
  ++ lit "🧠 *AI Model:* GLM-4.5-Flash (Z.AI)\n"
  ++ lit "⚡ *Framework:* Python + python-telegram-bot\n"
  ++ lit "📄 *License:* MIT\n\n"
  ++ lit "✨ *Features:*\n"
  ++ lit "• Multi-language translation\n"
  ++ lit "• Format preservation\n"
  ++ lit "• Multiple translation styles\n"
  ++ lit "• User preferences\n"
  ++ lit "• Usage statistics\n\n"
  ++ lit "🛠️ *Tech Stack:*\n"
  ++ lit "• Python 3.8+\n"
  ++ lit "• Z.AI SDK\n"
  ++ lit "• Telegram Bot API\n"
  ++ lit "• Async/await architecture\n\n"
  ++ lit "👨‍💻 *Developer:* Bo\n"
  ++ lit "📧 *Contact:* @your_username\n"
  ++ lit "🌟 *GitHub:* [Source Code](https://github.com/...)\n\n"
  ++ lit "_Open source translation bot for everyone_".

Definition about_command (update : Update) (context : Context) : M unit :=
  update_user_stats E (effective_user_id update) (lit "command");;
  message_reply_text update about_text None.

(** [user_statistics[user_id]]. *)
Definition statistics_getitem (user_id : Z) : M Stats := fun w =>
  match user_statistics w !! user_id with
  | Some stats => (Return stats, w)
  | None => (Raise (KeyError (str_of_int user_id)), w)
  end.

(** The text [stats_command] sends for a caller's counters and
    preferences; [s[:10]] is [take 10 s]. *)
Definition stats_text (stats : Stats) (style_name lang_name : str) : str :=
  lit "📊 *THỐNG KÊ SỬ DỤNG CỦA BẠN*\n"
  ++ lit "━━━━━━━━━━━━━━━━━━━━\n\n"
  ++ lit "📝 *Số lần dịch:* " ++ str_of_int (translations stats) ++ lit "\n"
  ++ lit "⚡ *Lệnh đã dùng:* " ++ str_of_int (commands stats) ++ lit "\n"
  ++ lit "🎨 *Phong cách hiện tại:* " ++ style_name ++ lit "\n"
  ++ lit "🌍 *Ngôn ngữ đích:* " ++ lang_name ++ lit "\n"
  ++ lit "📅 *Lần đầu sử dụng:* " ++ take 10 (first_use stats) ++ lit "\n"
  ++ lit "🕒 *Lần cuối sử dụng:* " ++ take 10 (last_use stats) ++ lit "\n\n"
  ++ lit "_Cảm ơn bạn đã sử dụng bot!_".

Definition stats_command (update : Update) (context : Context) : M unit :=
  let user_id := effective_user_id update in
  update_user_stats E user_id (lit "command");;
  if negb (ENABLE_STATS (config E)) then
    message_reply_text update (lit "📊 Thống kê đã bị tắt bởi admin.") None
  else
    known ← in_user_statistics user_id;
    if negb known then
      message_reply_text update (lit "📊 Bạn chưa có thống kê nào. Hãy bắt đầu dịch!") None
    else
      stats ← statistics_getitem user_id;
      prefs ← get_user_prefs user_id;
      style_info ← getitem TRANSLATION_STYLES (style prefs);
      let lang_name :=
        default (lit "Unknown") (dict_get SUPPORTED_LANGUAGES (target_language prefs)) in
      message_reply_text update (stats_text stats (Style.name style_info) lang_name) None.

(** [error_handler]: the generic reply, when the update carries a
    message; a failure of the reply itself is swallowed. *)
Definition error_handler (update : Update) : M unit :=
  match message_text update with
  | Some _ =>
      emit (reply_text
              (lit "❌ *Đã xảy ra lỗi!*\n\n"
               ++ lit "Vui lòng thử lại sau hoặc liên hệ admin.\n"
               ++ lit "Sử dụng /help để xem hướng dẫn.")
              None)
  | None => mret tt
  end.

(** The handlers [main] registers, by name. *)
Inductive handler :=
| on_start (first_name : str)
| on_help
| on_about
| on_style
| on_language
| on_settings
| on_temp
| on_stats
| on_reset
| on_button
| on_message.

Definition run_handler (h : handler) : Update -> Context -> M unit :=
  match h with
  | on_start first_name => start first_name
  | on_help => help_command E
  | on_about => about_command
  | on_style => style_command E
  | on_language => language_command E
  | on_settings => settings_command E
  | on_temp => temp_command E
  | on_stats => stats_command
  | on_reset => reset_command E
  | on_button => button_callback E
  | on_message => handle_message E
  end.

(** The world after a run of updates, each given to its handler; an
    exception ends one handler and the world it leaves is the one the next
    handler starts from. *)
Fixpoint serve (updates : list (handler * Update * Context)) (w : World) : World :=
  match updates with
  | [] => w
  | (h, update, context) :: rest => serve rest (snd (run_handler h update context w))
  end.

End MoreHandlers.

(** ** Reading a world *)

(** The record [get_user_prefs] returns for a caller: the stored one, or
    the defaults on first reference. *)
Definition current_prefs (w : World) (user_id : Z) : Prefs :=
  default DEFAULT_PREFERENCES (user_preferences w !! user_id).

(** The world [get_user_prefs] leaves: the record it returns is stored. *)
Definition prefs_stored (w : World) (user_id : Z) : World :=
  {| user_preferences := <[user_id := current_prefs w user_id]> (user_preferences w);
     user_statistics := user_statistics w;
     ticks := ticks w;
     sent := sent w |}.

(** The calls of the completion service among the effects. *)
Definition calls_made (es : list effect) : list CompletionRequest :=
  omap (fun e => match e with completions_create r => Some r | _ => None end) es.

(** The translations counted so far for a caller: none before the first
    recorded action. *)
Definition translations_of (w : World) (user_id : Z) : Z :=
  from_option translations 0%Z (user_statistics w !! user_id).

(** A computation that leaves the statistics and the clock alone, whether
    it returns or raises. *)
Definition keeps_statistics {A : Type} (m : M A) : Prop :=
  forall w, user_statistics (snd (m w)) = user_statistics w
            /\ ticks (snd (m w)) = ticks w.

(** The handlers registered for a command, as opposed to buttons and
    plain texts. *)
Definition is_command (h : handler) : bool :=
  match h with
  | on_button | on_message => false
  | _ => true
  end.

(** ** Relations between the world before and after a handler *)

(** [m] takes every world to one related to it by [R], whether it returns
    or raises. *)
Definition steps (R : World -> World -> Prop) {A : Type} (m : M A) : Prop :=
  forall w, R w (snd (m w)).

(** Both stores and the clock are as they were. *)
Definition same_stores (w w' : World) : Prop :=
  user_preferences w' = user_preferences w
  /\ user_statistics w' = user_statistics w
  /\ ticks w' = ticks w.

(** No caller other than [user_id] has a record changed, created or
    removed, in either store. *)
Definition others_untouched (user_id : Z) (w w' : World) : Prop :=
  forall other : Z,
    other <> user_id ->
    user_preferences w' !! other = user_preferences w !! other
    /\ user_statistics w' !! other = user_statistics w !! other.

(** Every statistics record is still there, with counters no smaller and
    the same first use. *)
Definition statistics_grow (w w' : World) : Prop :=
  forall (u : Z) (s : Stats),
    user_statistics w !! u = Some s ->
    exists s',
      user_statistics w' !! u = Some s'
      /\ (translations s <= translations s')%Z
      /\ (commands s <= commands s')%Z
      /\ first_use s' = first_use s.

(** Every preference record is still there. *)
Definition preferences_kept (w w' : World) : Prop :=
  forall u : Z, is_Some (user_preferences w !! u) -> is_Some (user_preferences w' !! u).

(** Every stored temperature passes the test of [temp_command]. *)
Definition temperatures_in_range (w : World) : Prop :=
  forall (u : Z) (prefs : Prefs),
    user_preferences w !! u = Some prefs -> temp_in_range (temperature prefs) = true.

Definition keeps_temperatures (w w' : World) : Prop :=
  temperatures_in_range w -> temperatures_in_range w'.

(** The statistics store and the clock are as they were. *)
Definition same_statistics (w w' : World) : Prop :=
  user_statistics w' = user_statistics w /\ ticks w' = ticks w.

(** A relation on worlds that does not look at the effects: it holds
    between two worlds with the same stores and clock, and it chains. *)
Class Passes (R : World -> World -> Prop) : Prop := {
  passes_same : forall w w', same_stores w w' -> R w w';
  passes_trans : forall w1 w2 w3, R w1 w2 -> R w2 w3 -> R w1 w3
}.

(** A setter that leaves the temperature alone. *)
Definition keeps_temperature (set : Prefs -> Prefs) : Prop :=
  forall prefs, temperature (set prefs) = temperature prefs.

(** No record leaves either store, and no counter goes down. *)
Definition records_grow (w w' : World) : Prop :=
  statistics_grow w w' /\ preferences_kept w w'.

(** The three toggle buttons, and what each does to a record. *)
Definition toggles : list (str * (Prefs -> Prefs)) :=
  [ (lit "toggle_format",
     fun prefs => set_format_preserve (negb (format_preserve prefs)) prefs);
    (lit "toggle_notes",
     fun prefs => set_add_notes (negb (add_notes prefs)) prefs);
    (lit "toggle_original",
     fun prefs => set_show_original (negb (show_original prefs)) prefs) ].

(** The buttons that open a menu. *)
Definition menu_buttons : list str :=
  [ lit "menu_style"; lit "menu_language"; lit "menu_help" ].

(** The commands counted so far for a caller. *)
Definition commands_of (w : World) (user_id : Z) : Z :=
  from_option commands 0%Z (user_statistics w !! user_id).

(** The replies and edits among the effects: what the caller gets to
    read. *)
Definition texts_sent (es : list effect) : list str :=
  omap (fun e => match e with
                 | reply_text text _ => Some text
                 | edit_message_text text => Some text
                 | _ => None
                 end) es.

(** ** Sample surroundings, for running the handlers *)

Module Sample.

(** A few readings of [float(s)]. *)
Definition float_table : list (str * float) :=
  [ (lit "0.1", 0.1%float); (lit "0.25", 0.25%float); (lit "0.5", 0.5%float);
    (lit "0.95", 0.95%float); (lit "1.0", 1.0%float); (lit "1.5", 1.5%float);
    (lit "0.05", 0.05%float); (lit "nan", PrimFloat.nan);
    (lit "0.75", 0.75%float); (lit "0.26", 0.26%float) ].

Definition clock (n : nat) : str :=
  lit "2025-01-01T00:00:0" ++ str_of_int (Z.of_nat n).

(** A completion service that answers every request alike. *)
Definition answering (content : str) : CompletionRequest -> str + str :=
  fun _ => inl content.
(** One whose every call raises. *)
Definition failing (cause : str) : CompletionRequest -> str + str :=
  fun _ => inr cause.

Definition env (client : option (CompletionRequest -> str + str)) : Env :=
  {| config := Config_defaults;
     now := clock;
     float_of_str := dict_get float_table;
     str_of_float := fun _ => lit "<float>";
     zai_client := client |}.

(** The world of a freshly started process. *)
Definition start : World :=
  {| user_preferences := ∅; user_statistics := ∅; ticks := 0; sent := [] |}.

(** A world in which caller 7 has changed every preference and has
    already translated three texts. *)
Definition busy : World :=
  {| user_preferences :=
       {[ 7%Z := {| style := lit "creative"; temperature := 0.7;
                    format_preserve := false; add_notes := true;
                    target_language := lit "ja"; show_original := true |} ]};
     user_statistics :=
       {[ 7%Z := {| translations := 3; commands := 5;
                    first_use := lit "2024-12-31T10:00:00";
                    last_use := lit "2024-12-31T11:00:00" |} ]};
     ticks := 0;
     sent := [] |}.

(** A world in which caller 7 holds a language code the catalog lacks. *)
Definition stale : World :=
  {| user_preferences :=
       {[ 7%Z := set_target_language (lit "xx") DEFAULT_PREFERENCES ]};
     user_statistics := ∅; ticks := 0; sent := [] |}.

Definition text_message (user_id : Z) (text : str) : Update :=
  {| effective_user_id := user_id;
     message_text := Some text;
     callback_query_data := None |}.

Definition button_press (user_id : Z) (data : str) : Update :=
  {| effective_user_id := user_id;
     message_text := None;
     callback_query_data := Some data |}.

End Sample.

(** ** More sample surroundings: whole runs of updates *)

Module Runs.

(** The sample surroundings with statistics switched off. *)
Definition env_without_statistics
    (client : option (CompletionRequest -> str + str)) : Env :=
  {| config :=
       {| MAX_MESSAGE_LENGTH := 4000;
          DEFAULT_LANGUAGE := lit "vi";
          ENABLE_STATS := false |};
     now := Sample.clock;
     float_of_str := dict_get Sample.float_table;
     str_of_float := fun _ => lit "<float>";
     zai_client := client |}.

Definition no_args : Context := {| args := [] |}.

(** Callers 7, 8 and 9 at work: a temperature set, a toggle, a text, a
    reset, and a button with a style the catalog lacks. *)
Definition evening : list (handler * Update * Context) :=
  [ (on_temp, Sample.text_message 7 (lit "/temp 0.95"), {| args := [lit "0.95"] |});
    (on_button, Sample.button_press 7 (lit "toggle_notes"), no_args);
    (on_message, Sample.text_message 8 (lit "Hello"), no_args);
    (on_reset, Sample.text_message 9 (lit "/reset"), no_args);
    (on_button, Sample.button_press 8 (lit "style_xyz"), no_args);
    (on_stats, Sample.text_message 8 (lit "/stats"), no_args) ].

(** The updates of [evening] that do not come from caller 7. *)
Definition others_evening : list (handler * Update * Context) :=
  filter (fun hu => effective_user_id (snd (fst hu)) <> 7%Z) evening.

End Runs.

(** ** The built-ins, checked against Python on a few values *)

Example round1_as_python :
  map PyFloat.round1 [0.25; 0.35; 0.45; 0.75; 0.95; 0.15; 0.1; 1.0]%float
  = [0.2; 0.3; 0.5; 0.8; 0.9; 0.1; 0.1; 1.0]%float.
Proof. vm_compute. reflexivity. Qed.

Example len_counts_code_points : length (lit "Tiếng Việt") = 10.
Proof. vm_compute. reflexivity. Qed.

Example replace_as_python :
  replace (lit "style_casual") (lit "style_") (lit "") = lit "casual"
  /\ replace (lit "lang_lang_en") (lit "lang_") (lit "") = lit "en".
Proof. split; vm_compute; reflexivity. Qed.

Example split_as_python :
  split (lit "💼 Chuyên nghiệp") = [lit "💼"; lit "Chuyên"; lit "nghiệp"]
  /\ split (lit "  ") = [].
Proof. split; vm_compute; reflexivity. Qed.

Example join_as_python :
  join (lit ", ") [lit "a"; lit "b"; lit "c"] = lit "a, b, c".
Proof. vm_compute. reflexivity. Qed.

Example str_of_int_as_python :
  str_of_int 4001 = lit "4001" /\ str_of_int (-12) = lit "-12".
Proof. split; vm_compute; reflexivity. Qed.

(** ** Deleting a prefix with [replace] *)

Lemma startswith_app (p s : str) : startswith p (p ++ s) = true.
Proof.
  induction p as [|c p IH]; [reflexivity|].
  cbn [app startswith]. now rewrite N.eqb_refl.
Qed.

Lemma replace_go_skip (old new t s : str) :
  replace_go old new (length t) (t ++ s) = replace_go old new 0 s.
Proof. induction t as [|c t IH]; [reflexivity|]. exact IH. Qed.

Lemma replace_go_absent (old new s : str) :
  occurs old s = false -> replace_go old new 0 s = s.
Proof.
  induction s as [|c s IH]; [reflexivity|].
  cbn [occurs]. intros H. apply orb_false_elim in H as [Hhere Hlater].
  cbn [replace_go]. rewrite Hhere. f_equal. now apply IH.
Qed.

(** [(old + key).replace(old, "")] is [key] when [old] does not occur in
    [key]; when it does, those occurrences go as well. *)
Lemma replace_prefix (old key : str) :
  old <> [] -> occurs old key = false -> replace (old ++ key) old [] = key.
Proof.
  destruct old as [|c old']; [congruence|]. intros _ Habsent.
  unfold replace. cbn [app replace_go].
  rewrite (startswith_app (c :: old') key : startswith (c :: old') (c :: old' ++ key) = true).
  replace (length (c :: old') - 1) with (length old') by (cbn [length]; lia).
  rewrite replace_go_skip. now apply replace_go_absent.
Qed.

(** ** Running the monad *)

Create HintDb frame.

Lemma bind_Return {A B : Type} (m : M A) (f : A -> M B) w a w' :
  m w = (Return a, w') -> (m ≫= f) w = f a w'.
Proof. intros H. unfold mbind, M_bind. now rewrite H. Qed.

Lemma bind_Raise {A B : Type} (m : M A) (f : A -> M B) w e w' :
  m w = (Raise e, w') -> (m ≫= f) w = (Raise e, w').
Proof. intros H. unfold mbind, M_bind. now rewrite H. Qed.

Lemma World_eta w :
  {| user_preferences := user_preferences w;
     user_statistics := user_statistics w;
     ticks := ticks w;
     sent := sent w |} = w.
Proof. now destruct w. Qed.

Lemma getitem_Some {V : Type} (d : dict V) k v w :
  dict_get d k = Some v -> getitem d k w = (Return v, w).
Proof. intros H. unfold getitem. now rewrite H. Qed.

Lemma getitem_None {V : Type} (d : dict V) k w :
  dict_get d k = None -> getitem d k w = (Raise (KeyError k), w).
Proof. intros H. unfold getitem. now rewrite H. Qed.

Lemma dict_get_In {V : Type} (d : dict V) k v :
  dict_get d k = Some v -> In (k, v) d.
Proof.
  induction d as [|[k' v'] d IH]; simpl; [discriminate|].
  destruct (decide (k = k')) as [->|_].
  - intros [= ->]. now left.
  - intros H. right. now apply IH.
Qed.

(** [join] over a list built the way [prompt_parts] is. *)
Lemma join_prompt_parts (sep a b c d e : str) (with_b with_c : bool) :
  join sep
    (let parts := [a] in
     let parts := if with_b then parts ++ [b] else parts in
     let parts := if with_c then parts ++ [c] else parts in
     let parts := parts ++ [d] in
     let parts := parts ++ [e] in
     parts)
  = a ++ sep
    ++ (if with_b then b ++ sep else [])
    ++ (if with_c then c ++ sep else [])
    ++ d ++ sep ++ e.
Proof.
  destruct with_b, with_c; cbn [join app]; rewrite <- ?app_assoc; reflexivity.
Qed.

(** [join] over a list built the way [response_parts] is. *)
Lemma join_response_parts (sep a b c d e f g : str) (with_tail : bool) :
  join sep
    (let parts := [a; b; c; d] in
     let parts := if with_tail then parts ++ [e; f; g] else parts in
     parts)
  = a ++ sep ++ b ++ sep ++ c ++ sep ++ d
    ++ (if with_tail then sep ++ e ++ sep ++ f ++ sep ++ g else []).
Proof.
  destruct with_tail; cbn [join app]; rewrite <- ?app_assoc, ?app_nil_r; reflexivity.
Qed.

Lemma calls_made_app es es' : calls_made (es ++ es') = calls_made es ++ calls_made es'.
Proof. unfold calls_made. apply omap_app. Qed.

Section Frames.

Context (E : Env).

(** [get_user_prefs] returns the caller's current record and leaves it
    stored. *)
Lemma get_user_prefs_run user_id w :
  get_user_prefs user_id w =
    (Return (current_prefs w user_id),
     {| user_preferences := <[user_id := current_prefs w user_id]> (user_preferences w);
        user_statistics := user_statistics w;
        ticks := ticks w;
        sent := sent w |}).
Proof.
  unfold get_user_prefs, current_prefs.
  destruct (user_preferences w !! user_id) as [p|] eqn:Hp; simpl; [|reflexivity].
  rewrite (insert_id _ _ _ Hp). now rewrite World_eta.
Qed.

(** [update_user_stats] always returns, and touches nothing but the
    statistics and the clock. *)
Lemma update_user_stats_frame user_id action w :
  exists st tk,
    update_user_stats E user_id action w =
      (Return tt,
       {| user_preferences := user_preferences w;
          user_statistics := st;
          ticks := tk;
          sent := sent w |}).
Proof.
  unfold update_user_stats.
  destruct (ENABLE_STATS (config E)); simpl.
  2:{ exists (user_statistics w), (ticks w). now rewrite World_eta. }
  unfold mbind, M_bind, in_user_statistics, datetime_now, with_statistics, mret, M_ret.
  simpl.
  destruct (bool_decide _); simpl;
    repeat (match goal with |- context [decide ?P] => destruct (decide P) end; simpl);
    eauto.
Qed.

End Frames.

(** ** [round(x, 1)] on the accepted range *)

Lemma digits2_pos_bounds (p : positive) :
  (2 ^ (Zpos (digits2_pos p) - 1) <= Zpos p < 2 ^ Zpos (digits2_pos p))%Z.
Proof.
  induction p as [p IH|p IH|]; cbn [digits2_pos].
  - rewrite Pos2Z.inj_succ.
    replace (Z.succ (Zpos (digits2_pos p)) - 1)%Z
      with (Z.succ (Zpos (digits2_pos p) - 1)) by lia.
    rewrite !Z.pow_succ_r by lia. lia.
  - rewrite Pos2Z.inj_succ.
    replace (Z.succ (Zpos (digits2_pos p)) - 1)%Z
      with (Z.succ (Zpos (digits2_pos p) - 1)) by lia.
    rewrite !Z.pow_succ_r by lia. lia.
  - simpl. lia.
Qed.

(** [<=] on two finite binary64 values, the left one positive. *)
Lemma SFleb_finite_l (m1 : positive) (e1 : Z) (s : bool) (m : positive) (e : Z) :
  SFleb (S754_finite false m1 e1) (S754_finite s m e) = true ->
  s = false /\ (e1 < e \/ e1 = e /\ Zpos m1 <= Zpos m)%Z.
Proof.
  unfold SFleb, SFcompare. destruct s; [discriminate|].
  change (PosDef.Pos.compare_cont Eq m1 m) with (Pos.compare m1 m).
  destruct (Z.compare_spec e1 e); [|intros _; split; [reflexivity|lia]|discriminate].
  destruct (Pos.compare_spec m1 m); try discriminate;
    intros _; split; try reflexivity; right; lia.
Qed.

(** The same, the right one positive. *)
Lemma SFleb_finite_r (s : bool) (m : positive) (e : Z) (m2 : positive) (e2 : Z) :
  SFleb (S754_finite s m e) (S754_finite false m2 e2) = true ->
  s = true \/ (e < e2 \/ e = e2 /\ Zpos m <= Zpos m2)%Z.
Proof.
  unfold SFleb, SFcompare. destruct s; [now left|]. right.
  change (PosDef.Pos.compare_cont Eq m m2) with (Pos.compare m m2) in H.
  destruct (Z.compare_spec e e2); [|lia|discriminate].
  destruct (Pos.compare_spec m m2); try discriminate; lia.
Qed.

(** A normal binary64 has a mantissa of 53 bits. *)
Lemma valid_binary_digits (s : bool) (m : positive) (e : Z) :
  valid_binary (S754_finite s m e) = true ->
  (-1074 < e)%Z -> Zpos (digits2_pos m) = 53%Z.
Proof.
  cbn [SpecFloat.valid_binary]. unfold bounded, canonical_mantissa, fexp.
  intros H He. apply andb_prop in H as [H _]. apply Z.eqb_eq in H.
  change (SpecFloat.emin prec emax) with (-1074)%Z in H. change prec with 53%Z in H.
  change IntDef.Z.max with Z.max in H. lia.
Qed.

Lemma Prim2SF_tenth : Prim2SF 0.1 = S754_finite false 7205759403792794 (-56).
Proof. vm_compute. reflexivity. Qed.

Lemma Prim2SF_one : Prim2SF 1 = S754_finite false 4503599627370496 (-52).
Proof. vm_compute. reflexivity. Qed.

(** What a float that passes [0.1 <= temp <= 1.0] looks like. *)
Lemma temp_in_range_shape (temp : float) :
  temp_in_range temp = true ->
  exists m e,
    Prim2SF temp = S754_finite false m e
    /\ (-56 <= e <= -52)%Z
    /\ (4503599627370496 <= Zpos m < 9007199254740992)%Z
    /\ (e = (-56)%Z -> (7205759403792794 <= Zpos m)%Z)
    /\ (e = (-52)%Z -> (Zpos m <= 4503599627370496)%Z).
Proof.
  unfold temp_in_range. rewrite !leb_spec, Prim2SF_tenth, Prim2SF_one. intros H.
  apply andb_prop in H as [H1 H2].
  pose proof (Prim2SF_valid temp) as Hv.
  destruct (Prim2SF temp) as [s|s| |s m e] eqn:Hsf.
  - destruct s; discriminate.
  - destruct s; discriminate.
  - discriminate.
  - exists m, e.
    apply SFleb_finite_l in H1 as [-> H1].
    apply SFleb_finite_r in H2 as [H2|H2]; [discriminate|].
    assert (He : (-56 <= e <= -52)%Z) by lia.
    pose proof (valid_binary_digits _ _ _ Hv ltac:(lia)) as Hdig.
    pose proof (digits2_pos_bounds m) as Hd.
    rewrite Hdig in Hd. change (2 ^ (53 - 1))%Z with 4503599627370496%Z in Hd.
    change (2 ^ 53)%Z with 9007199254740992%Z in Hd.
    repeat split; try lia.
Qed.

Lemma half_even_bounds (num den lo hi : Z) :
  (0 < den)%Z -> (lo * den <= num)%Z -> (num <= hi * den)%Z ->
  (lo <= PyFloat.half_even num den <= hi)%Z.
Proof.
  intros Hden Hlo Hhi. unfold PyFloat.half_even.
  pose proof (Z.div_mod num den ltac:(lia)) as Hdm.
  pose proof (Z.mod_pos_bound num den Hden) as Hr.
  set (q := (num / den)%Z) in *. set (r := (num mod den)%Z) in *.
  assert (lo <= q)%Z by nia.
  assert (q <= hi)%Z by nia.
  destruct (Z.compare_spec (2 * r) den).
  - destruct (Z.even q); [lia|]. assert (q <> hi) by nia. lia.
  - lia.
  - assert (q <> hi) by nia. lia.
Qed.

Lemma tenths_in_range (k : Z) :
  (1 <= k <= 10)%Z -> temp_in_range (PyFloat.of_Z k / PyFloat.of_Z 10) = true.
Proof.
  intros Hk.
  assert (k = 1 \/ k = 2 \/ k = 3 \/ k = 4 \/ k = 5
          \/ k = 6 \/ k = 7 \/ k = 8 \/ k = 9 \/ k = 10)%Z as Hcases by lia.
  repeat (destruct Hcases as [->|Hcases]; [vm_compute; reflexivity|]).
  subst k. vm_compute. reflexivity.
Qed.

(** Rounding an accepted temperature gives an accepted temperature. *)
Lemma round1_in_range (temp : float) :
  temp_in_range temp = true -> temp_in_range (PyFloat.round1 temp) = true.
Proof.
  intros H. destruct (temp_in_range_shape temp H) as (m & e & Hsf & He & Hm & Hlo & Hhi).
  unfold PyFloat.round1. rewrite Hsf.
  replace (0 <=? e)%Z with false by (symmetry; apply Z.leb_gt; lia).
  apply tenths_in_range.
  assert (e = -56 \/ e = -55 \/ e = -54 \/ e = -53 \/ e = -52)%Z
    as [->|[->|[->|[->| ->]]]] by lia.
  - change (2 ^ (- -56))%Z with 72057594037927936%Z. apply half_even_bounds; lia.
  - change (2 ^ (- -55))%Z with 36028797018963968%Z. apply half_even_bounds; lia.
  - change (2 ^ (- -54))%Z with 18014398509481984%Z. apply half_even_bounds; lia.
  - change (2 ^ (- -53))%Z with 9007199254740992%Z. apply half_even_bounds; lia.
  - change (2 ^ (- -52))%Z with 4503599627370496%Z. apply half_even_bounds; lia.
Qed.

(** [half_even] picks an integer nearest to [num / den], the even one of
    two. *)
Lemma half_even_nearest (num den : Z) :
  (0 < den)%Z ->
  (Z.abs (2 * num - 2 * PyFloat.half_even num den * den) <= den)%Z
  /\ (Z.abs (2 * num - 2 * PyFloat.half_even num den * den) = den ->
      Z.even (PyFloat.half_even num den) = true).
Proof.
  intros Hden. unfold PyFloat.half_even.
  pose proof (Z.div_mod num den ltac:(lia)) as Hdm.
  pose proof (Z.mod_pos_bound num den Hden) as Hr.
  set (q := (num / den)%Z) in *. set (r := (num mod den)%Z) in *.
  destruct (Z.compare_spec (2 * r) den) as [Heq|Hlt|Hgt].
  - destruct (Z.even q) eqn:Hq.
    + split; [nia|]. intros _. exact Hq.
    + split; [nia|]. intros _. rewrite Z.even_add, Hq. reflexivity.
  - split; [nia|]. intros H. exfalso. nia.
  - split; [nia|]. intros H. exfalso. nia.
Qed.

(** The distance of [10 * n / d] to [k], said in whole numbers. *)
Lemma Qabs_tenths (n : Z) (d : positive) (k : Z) :
  (Qabs (10 * (n # d) - inject_Z k) <= 1 # 2)%Q
  <-> (Z.abs (2 * (n * 10) - 2 * k * Zpos d) <= Zpos d)%Z.
Proof.
  unfold Qle, Qabs, Qminus, Qplus, Qmult, Qopp, inject_Z. cbn [Qnum Qden].
  rewrite ?Pos2Z.inj_mul. lia.
Qed.

Lemma Qabs_tenths_eq (n : Z) (d : positive) (k : Z) :
  (Qabs (10 * (n # d) - inject_Z k) == 1 # 2)%Q
  <-> (Z.abs (2 * (n * 10) - 2 * k * Zpos d) = Zpos d)%Z.
Proof.
  unfold Qeq, Qabs, Qminus, Qplus, Qmult, Qopp, inject_Z. cbn [Qnum Qden].
  rewrite ?Pos2Z.inj_mul. lia.
Qed.

(** The quotient [k / 10] of binary64 is the float the decimal [k/10]
    reads as. *)
Lemma tenths_listed (k : Z) :
  (1 <= k <= 10)%Z -> In (k, (PyFloat.of_Z k / PyFloat.of_Z 10)%float) Decimal.tenths.
Proof.
  intros Hk.
  assert (k = 1 \/ k = 2 \/ k = 3 \/ k = 4 \/ k = 5
          \/ k = 6 \/ k = 7 \/ k = 8 \/ k = 9 \/ k = 10)%Z as Hcases by lia.
  repeat (destruct Hcases as [->|Hcases]; [vm_compute; auto 12|]).
  subst k. vm_compute. auto 12.
Qed.

(** The tenth that [round1] picks for an accepted temperature lies between
    one and ten. *)
Lemma accepted_tenth_bounds (m p : positive) :
  (-56 <= Zneg p <= -52)%Z ->
  (4503599627370496 <= Zpos m < 9007199254740992)%Z ->
  (Zneg p = (-56)%Z -> (7205759403792794 <= Zpos m)%Z) ->
  (Zneg p = (-52)%Z -> (Zpos m <= 4503599627370496)%Z) ->
  (1 <= PyFloat.half_even (Zpos m * 10) (2 ^ Zpos p) <= 10)%Z.
Proof.
  intros He Hm Hlo Hhi.
  assert (p = 56 \/ p = 55 \/ p = 54 \/ p = 53 \/ p = 52)%positive
    as [->|[->|[->|[->| ->]]]] by lia.
  - change (2 ^ 56)%Z with 72057594037927936%Z. apply half_even_bounds; lia.
  - change (2 ^ 55)%Z with 36028797018963968%Z. apply half_even_bounds; lia.
  - change (2 ^ 54)%Z with 18014398509481984%Z. apply half_even_bounds; lia.
  - change (2 ^ 53)%Z with 9007199254740992%Z. apply half_even_bounds; lia.
  - change (2 ^ 52)%Z with 4503599627370496%Z. apply half_even_bounds; lia.
Qed.

(** [round(temp, 1)] of an accepted temperature is the float of the
    decimal [k/10], for a tenth [k] nearest to the exact value of [temp],
    ties going to the even tenth. *)
Lemma round1_tenths (temp : float) :
  temp_in_range temp = true ->
  exists k : Z,
    In (k, PyFloat.round1 temp) Decimal.tenths /\ Decimal.rounds_to_tenths temp k.
Proof.
  intros H. destruct (temp_in_range_shape temp H) as (m & e & Hsf & He & Hm & Hlo & Hhi).
  destruct e as [|p|p]; [lia|lia|].
  exists (PyFloat.half_even (Zpos m * 10) (2 ^ Zpos p)).
  split.
  - unfold PyFloat.round1. rewrite Hsf.
    change (0 <=? Zneg p)%Z with false. change (- Zneg p)%Z with (Zpos p). cbv iota zeta.
    apply tenths_listed. now apply accepted_tenth_bounds.
  - assert (Hden : (0 < 2 ^ Zpos p)%Z) by (apply Z.pow_pos_nonneg; lia).
    destruct (half_even_nearest (Zpos m * 10) (2 ^ Zpos p) Hden) as [Hle Heq].
    set (k := PyFloat.half_even (Zpos m * 10) (2 ^ Zpos p)) in *. clearbody k.
    assert (Hpow : Zpos (2 ^ p) = (2 ^ Zpos p)%Z) by apply Pos2Z.inj_pow.
    rewrite <- Hpow in Hle, Heq.
    unfold Decimal.rounds_to_tenths, Decimal.exact. rewrite Hsf. cbv iota zeta.
    split.
    + apply Qabs_tenths. exact Hle.
    + intros Hq. apply Heq. apply Qabs_tenths_eq. exact Hq.
Qed.

(** ** Preference store *)

Section PreferenceStore.

Context (E : Env).

(** C7. From any world whatever, that is after any history of preference
    changes, [reset_command] followed by [get_user_prefs] for the same
    caller returns the default record: style "professional", target
    language "vi", temperature 0.3, formatting kept, no notes, no
    original text. *)
Theorem reset_then_get_is_default (update : Update) (context : Context) (w : World) :
  let user_id := effective_user_id update in
  let w1 := snd (reset_command E update context w) in
  fst (get_user_prefs user_id w1) = Return DEFAULT_PREFERENCES
  /\ DEFAULT_PREFERENCES =
       {| style := lit "professional";
          temperature := 0.3;
          format_preserve := true;
          add_notes := false;
          target_language := lit "vi";
          show_original := false |}.
Proof.
  cbv zeta. split; [|reflexivity].
  assert (Hstore : user_preferences (snd (reset_command E update context w))
                   !! effective_user_id update = Some DEFAULT_PREFERENCES).
  { unfold reset_command.
    destruct (update_user_stats_frame E (effective_user_id update) (lit "command") w)
      as (st & tk & Hs).
    rewrite (bind_Return _ _ _ _ _ Hs).
    unfold with_preferences at 1.
    erewrite bind_Return by reflexivity.
    unfold message_reply_text, emit, raise.
    destruct (message_text update); simpl; apply lookup_insert_eq. }
  unfold get_user_prefs. now rewrite Hstore.
Qed.

(** C1. [temp_command] with a numeric argument: when the number passes
    the test [0.1 <= temp <= 1.0] the caller's stored temperature becomes
    [round(temp, 1)], which is the input rounded to one decimal place:
    the float of the decimal [k/10], for a tenth [k] from 1 to 10 that is
    nearest to the exact value of the input, the even one when the input
    lies midway between two tenths.  Every other field of the record and
    every other caller's record stay as they were, and the acceptance is
    sent.  When the number fails the test the preference store is left
    exactly as it was and the out-of-range warning is sent. *)
Theorem temp_command_sets_or_rejects
    (update : Update) (context : Context) (w : World)
    (arg0 : str) (rest : list str) (user_text : str) (temp : float) :
  args context = arg0 :: rest ->
  float_of_str E arg0 = Some temp ->
  message_text update = Some user_text ->
  let user_id := effective_user_id update in
  let w' := snd (temp_command E update context w) in
  fst (temp_command E update context w) = Return tt
  /\ if temp_in_range temp then
       user_preferences w' =
         <[user_id := set_temperature (PyFloat.round1 temp) (current_prefs w user_id)]>
           (user_preferences w)
       /\ temperature (current_prefs w' user_id) = PyFloat.round1 temp
       /\ (exists k : Z,
             In (k, temperature (current_prefs w' user_id)) Decimal.tenths
             /\ Decimal.rounds_to_tenths temp k)
       /\ sent w' =
            sent w
            ++ [ reply_text
                   (lit "✅ Đã điều chỉnh độ sáng tạo: *" ++ str_of_float E temp
                    ++ lit "*\n\n" ++ lit "_Áp dụng cho các bản dịch tiếp theo_")
                   None ]
     else
       user_preferences w' = user_preferences w
       /\ sent w' = sent w ++ [ reply_text (lit "⚠️ Giá trị phải từ 0.1 đến 1.0") None ].
Proof.
  intros Hargs Hfloat Hmsg. cbv zeta.
  unfold temp_command.
  destruct (update_user_stats_frame E (effective_user_id update) (lit "command") w)
    as (st & tk & Hs).
  rewrite (bind_Return _ _ _ _ _ Hs), Hargs, Hfloat.
  unfold message_reply_text. rewrite Hmsg.
  destruct (temp_in_range temp) eqn:Hrange.
  - rewrite (bind_Return _ _ _ _ _ (get_user_prefs_run _ _)).
    unfold prefs_setitem, with_preferences at 1.
    erewrite bind_Return by reflexivity.
    unfold emit, current_prefs.
    with_strategy opaque [Decimal.tenths Decimal.rounds_to_tenths] simpl.
    rewrite alter_insert_eq, lookup_insert_eq.
    split; [reflexivity|]. split; [reflexivity|]. split; [reflexivity|].
    split; [|reflexivity].
    now apply round1_tenths.
  - unfold emit; simpl. auto.
Qed.

End PreferenceStore.

(** ** Style selection *)

Section StyleSelection.

Context (E : Env).

(** C2, as the code has it.  The branch takes as key the callback data
    with every occurrence of [style_] deleted; for data [style_<key>]
    with no [style_] inside the key, that is the key.  When this key is
    not a key of [TRANSLATION_STYLES] (and the data is not [style_info]),
    the branch first stores it as the caller's style, creating the
    default record when the caller has none and leaving the five other
    fields and all other callers alone, and then stops with [KeyError] on
    the catalog lookup: no confirmation is sent, and the statistics and
    the clock are as before.  The preference store is the one before the
    press only when the caller already had a record with this very
    style. *)
Theorem button_callback_unknown_style
    (update : Update) (context : Context) (w : World) (data : str) :
  callback_query_data update = Some data ->
  startswith (lit "style_") data = true ->
  data <> lit "style_info" ->
  let style_key := replace data (lit "style_") (lit "") in
  let user_id := effective_user_id update in
  dict_get TRANSLATION_STYLES style_key = None ->
  let w' := snd (button_callback E update context w) in
  button_callback E update context w =
    (Raise (KeyError style_key),
     {| user_preferences :=
          <[user_id := set_style style_key (current_prefs w user_id)]> (user_preferences w);
        user_statistics := user_statistics w;
        ticks := ticks w;
        sent := sent w ++ [answer None] |})
  /\ (forall key : str,
        data = lit "style_" ++ key -> occurs (lit "style_") key = false ->
        style_key = key)
  /\ style (current_prefs w' user_id) = style_key
  /\ (user_preferences w' = user_preferences w
      <-> exists prefs : Prefs,
            user_preferences w !! user_id = Some prefs /\ style prefs = style_key).
Proof.
  intros Hdata Hprefix Hinfo style_key user_id Hkey w'.
  assert (Hrun :
            button_callback E update context w =
              (Raise (KeyError style_key),
               {| user_preferences :=
                    <[user_id := set_style style_key (current_prefs w user_id)]>
                      (user_preferences w);
                  user_statistics := user_statistics w;
                  ticks := ticks w;
                  sent := sent w ++ [answer None] |})).
  { unfold button_callback, query_data. rewrite Hdata.
    erewrite bind_Return by reflexivity.
    erewrite bind_Return by reflexivity.
    rewrite Hprefix.
    destruct (decide (data = lit "style_info")) as [Heq|_]; [contradiction|].
    rewrite (bind_Return _ _ _ _ _ (get_user_prefs_run _ _)).
    unfold prefs_setitem, with_preferences at 1.
    erewrite bind_Return by reflexivity.
    fold style_key.
    erewrite bind_Raise by (apply getitem_None; exact Hkey).
    simpl. fold user_id. unfold current_prefs; simpl.
    now rewrite alter_insert_eq. }
  split; [exact Hrun|].
  split.
  { intros key -> Habsent. unfold style_key.
    apply replace_prefix; [|exact Habsent]. vm_compute. discriminate. }
  subst w'. rewrite Hrun. cbn [snd user_preferences].
  split.
  { unfold current_prefs at 1. cbn [user_preferences].
    now rewrite lookup_insert_eq. }
  unfold current_prefs. split.
  - intros Hsame.
    assert (Hat : user_preferences w !! user_id
                  = Some (set_style style_key
                            (default DEFAULT_PREFERENCES (user_preferences w !! user_id))))
      by (rewrite <- Hsame at 1; apply lookup_insert_eq).
    exists (set_style style_key
              (default DEFAULT_PREFERENCES (user_preferences w !! user_id))).
    split; [exact Hat|reflexivity].
  - intros (prefs & Hat & Hstyle).
    rewrite Hat. cbn [default from_option id].
    apply insert_id. rewrite Hat. f_equal.
    destruct prefs. cbn [style] in Hstyle. subst. reflexivity.
Qed.

End StyleSelection.

(** ** Length guard and statistics *)

Section Statistics.

Context (E : Env).

Lemma keeps_ret {A : Type} (a : A) : keeps_statistics (mret a).
Proof. now intros w. Qed.

Lemma keeps_raise {A : Type} (e : exn) : keeps_statistics (@raise A e).
Proof. now intros w. Qed.

Lemma keeps_emit (e : effect) : keeps_statistics (emit e).
Proof. now intros w. Qed.

Lemma keeps_with_preferences f : keeps_statistics (with_preferences f).
Proof. now intros w. Qed.

Lemma keeps_bind {A B : Type} (m : M A) (f : A -> M B) :
  keeps_statistics m -> (forall a, keeps_statistics (f a)) ->
  keeps_statistics (m ≫= f).
Proof.
  intros Hm Hf w. unfold mbind, M_bind.
  destruct (Hm w) as [Hs Ht].
  destruct (m w) as [[a|e] w1]; simpl in *.
  - destruct (Hf a w1) as [Hs' Ht']. split; congruence.
  - now split.
Qed.

Lemma keeps_get_user_prefs user_id : keeps_statistics (get_user_prefs user_id).
Proof. intros w. unfold get_user_prefs. now destruct (_ !! _). Qed.

Lemma keeps_getitem {V : Type} (d : dict V) k : keeps_statistics (getitem d k).
Proof. intros w. unfold getitem. now destruct (dict_get d k). Qed.

Lemma keeps_first {A : Type} (l : list A) : keeps_statistics (first l).
Proof. intros w. now destruct l. Qed.

Lemma keeps_message_reply_text update text markup :
  keeps_statistics (message_reply_text update text markup).
Proof. intros w. unfold message_reply_text. now destruct (message_text update). Qed.

#[local] Hint Resolve keeps_ret keeps_raise keeps_emit keeps_with_preferences
  keeps_get_user_prefs keeps_getitem keeps_first keeps_message_reply_text : frame.

(** Splits a chain of binds into its steps and closes those that are
    primitives. *)
Ltac keeps :=
  repeat (apply keeps_bind; [solve [eauto with frame]|intros ?]);
  try solve [eauto with frame].

Lemma keeps_translate_text text user_id :
  keeps_statistics (translate_text E text user_id).
Proof.
  unfold translate_text. destruct (zai_client E) as [client|]; keeps.
  destruct (client _); keeps.
Qed.

Lemma keeps_format_response user_id user_text translated success :
  keeps_statistics (format_response user_id user_text translated success).
Proof. unfold format_response. keeps. destruct success; keeps. Qed.

#[local] Hint Resolve keeps_translate_text keeps_format_response : frame.

Lemma keeps_translate_and_reply update user_text :
  keeps_statistics (translate_and_reply E update user_text).
Proof.
  unfold translate_and_reply. keeps.
  match goal with p : (str * bool)%type |- _ => destruct p end. keeps.
Qed.

(** What [update_user_stats(user_id, 'translation')] does when
    statistics are on. *)
Lemma update_user_stats_translation user_id w :
  ENABLE_STATS (config E) = true ->
  exists w1 s1,
    update_user_stats E user_id (lit "translation") w = (Return tt, w1)
    /\ user_preferences w1 = user_preferences w
    /\ sent w1 = sent w
    /\ user_statistics w1 !! user_id = Some s1
    /\ translations s1 = (translations_of w user_id + 1)%Z
    /\ last_use s1 = now E (ticks w1 - 1)
    /\ ticks w < ticks w1.
Proof.
  intros Hon. unfold update_user_stats, translations_of. rewrite Hon. simpl.
  unfold mbind, M_bind, in_user_statistics, datetime_now, with_statistics, mret, M_ret.
  simpl.
  destruct (user_statistics w !! user_id) as [s|] eqn:Hs.
  - rewrite bool_decide_eq_true_2 by eauto. simpl.
    eexists _, _. split; [reflexivity|]. simpl.
    split; [reflexivity|]. split; [reflexivity|].
    split; [rewrite !lookup_alter_eq, Hs; reflexivity|].
    split; [reflexivity|]. split; [simpl; f_equal; lia|lia].
  - rewrite bool_decide_eq_false_2 by (intros [? ?]; discriminate). simpl.
    eexists _, _. split; [reflexivity|]. simpl.
    split; [reflexivity|]. split; [reflexivity|].
    split; [rewrite !lookup_alter_eq, lookup_insert_eq; reflexivity|].
    split; [reflexivity|]. split; [simpl; f_equal; lia|lia].
Qed.

(** C3. A text longer than [MAX_MESSAGE_LENGTH] is answered with the one
    warning that spells out the configured maximum and the text's own
    length, and nothing else happens: both stores and the clock are as
    before and no call of the completion service is made. *)
Theorem handle_message_too_long
    (update : Update) (context : Context) (w : World) (user_text : str) :
  message_text update = Some user_text ->
  (MAX_MESSAGE_LENGTH (config E) < Z.of_nat (length user_text))%Z ->
  handle_message E update context w =
    (Return tt,
     {| user_preferences := user_preferences w;
        user_statistics := user_statistics w;
        ticks := ticks w;
        sent :=
          sent w
          ++ [ reply_text
                 (lit "⚠️ Văn bản quá dài! Tối đa "
                  ++ str_of_int (MAX_MESSAGE_LENGTH (config E))
                  ++ lit " ký tự.\n" ++ lit "Văn bản của bạn: "
                  ++ str_of_int (Z.of_nat (length user_text))
                  ++ lit " ký tự.")
                 None ] |})
  /\ calls_made (sent (snd (handle_message E update context w))) = calls_made (sent w).
Proof.
  intros Hmsg Hlong.
  assert (Hrun : handle_message E update context w =
                 emit (reply_text (too_long_text E user_text) None) w).
  { unfold handle_message, message_reply_text. rewrite Hmsg.
    now rewrite (proj2 (Z.ltb_lt _ _) Hlong). }
  rewrite Hrun. split; [reflexivity|].
  simpl. rewrite calls_made_app. simpl. apply app_nil_r.
Qed.

(** C9. With statistics on, a text that passes the length check is
    counted first and translated afterwards: [handle_message] is
    [update_user_stats] followed by the rest of the handler, the world
    the rest starts from already holds the caller's translation count
    one higher and the latest clock reading as [last_use] while no call
    of the completion service has been made yet, and nothing that
    follows (a failing call and an escaping exception included) touches
    the statistics again.  A text that fails the length check changes no
    statistic. *)
Theorem handle_message_counts_before_translating
    (update : Update) (context : Context) (w : World) (user_text : str) :
  ENABLE_STATS (config E) = true ->
  message_text update = Some user_text ->
  let user_id := effective_user_id update in
  let w' := snd (handle_message E update context w) in
  if (MAX_MESSAGE_LENGTH (config E) <? Z.of_nat (length user_text))%Z then
    user_statistics w' = user_statistics w
  else
    exists w1 s1,
      update_user_stats E user_id (lit "translation") w = (Return tt, w1)
      /\ handle_message E update context w = translate_and_reply E update user_text w1
      /\ calls_made (sent w1) = calls_made (sent w)
      /\ user_statistics w1 !! user_id = Some s1
      /\ translations s1 = (translations_of w user_id + 1)%Z
      /\ last_use s1 = now E (ticks w1 - 1)
      /\ ticks w < ticks w1
      /\ user_statistics w' = user_statistics w1.
Proof.
  intros Hon Hmsg. cbv zeta.
  destruct (MAX_MESSAGE_LENGTH (config E) <? Z.of_nat (length user_text))%Z eqn:Hlen.
  - apply Z.ltb_lt in Hlen.
    destruct (handle_message_too_long update context w user_text Hmsg Hlen) as [-> _].
    reflexivity.
  - destruct (update_user_stats_translation (effective_user_id update) w Hon)
      as (w1 & s1 & Hrun & _ & Hsent & Hs1 & Htr & Hlast & Htk).
    assert (Hsplit : handle_message E update context w
                     = translate_and_reply E update user_text w1).
    { unfold handle_message. rewrite Hmsg, Hlen.
      now rewrite (bind_Return _ _ _ _ _ Hrun). }
    exists w1, s1. repeat split; try assumption.
    + now rewrite Hsent.
    + rewrite Hsplit. apply keeps_translate_and_reply.
Qed.

End Statistics.

(** ** Request builder and completion gateway *)

Section RequestBuilder.

Context (E : Env).

(** [current_prefs] after [get_user_prefs] has stored the record. *)
Lemma current_prefs_stored w user_id st tk es :
  current_prefs
    {| user_preferences := <[user_id := current_prefs w user_id]> (user_preferences w);
       user_statistics := st; ticks := tk; sent := es |} user_id
  = current_prefs w user_id.
Proof. unfold current_prefs at 1. simpl. now rewrite lookup_insert_eq. Qed.

(** The prompt, written out. *)
Lemma build_prompt_written_out (prefs : Prefs) (target_lang text : str) :
  build_prompt prefs target_lang text =
    (lit "Translate the following text to " ++ target_lang ++ lit ".") ++ lit " "
    ++ (if format_preserve prefs
        then lit "Preserve all formatting (bold, italic, line breaks, bullet points, etc.)."
             ++ lit " "
        else [])
    ++ (if add_notes prefs
        then lit "Add brief explanatory notes in parentheses for difficult terms if needed."
             ++ lit " "
        else [])
    ++ lit "Return only the translation without any additional explanation." ++ lit " "
    ++ lit "\nText to translate:\n" ++ text.
Proof. unfold build_prompt. apply join_prompt_parts. Qed.

(** The prompt and the request do not read the stored language code. *)
Lemma build_prompt_ignores_code (prefs : Prefs) (code target_lang text : str) :
  build_prompt (set_target_language code prefs) target_lang text
  = build_prompt prefs target_lang text.
Proof. reflexivity. Qed.

Lemma completion_request_ignores_code
    (style_info : Style.t) (prefs : Prefs) (code prompt : str) :
  completion_request E style_info (set_target_language code prefs) prompt
  = completion_request E style_info prefs prompt.
Proof. reflexivity. Qed.

(** One run of [translate_text] with an initialised client and a stored
    style the catalog knows: one call, and its answer or its failure
    turned into the returned pair. *)
Lemma translate_text_run client (text : str) (user_id : Z) (w : World) style_info :
  zai_client E = Some client ->
  dict_get TRANSLATION_STYLES (style (current_prefs w user_id)) = Some style_info ->
  let prefs := current_prefs w user_id in
  let target_lang :=
    default (lit "Tiếng Việt") (dict_get SUPPORTED_LANGUAGES (target_language prefs)) in
  let request := completion_request E style_info prefs (build_prompt prefs target_lang text) in
  translate_text E text user_id w =
    (Return match client request with
            | inl translated_text => (translated_text, true)
            | inr e => (lit "❌ Lỗi khi dịch: " ++ e, false)
            end,
     {| user_preferences := <[user_id := prefs]> (user_preferences w);
        user_statistics := user_statistics w;
        ticks := ticks w;
        sent := sent w ++ [completions_create request] |}).
Proof.
  intros Hclient Hstyle prefs target_lang request.
  unfold translate_text. rewrite Hclient.
  rewrite (bind_Return _ _ _ _ _ (get_user_prefs_run _ _)).
  erewrite bind_Return by (apply getitem_Some; exact Hstyle).
  erewrite bind_Return by reflexivity.
  fold prefs target_lang request.
  now destruct (client request).
Qed.

(** C4. With an initialised client and a stored style the catalog
    knows, [translate_text] makes exactly one call.  Its system message
    is the style's [system_prompt] as it stands; its user message is,
    with single spaces between them, the translation directive naming
    the resolved target language, the formatting directive exactly when
    [format_preserve] is set, the notes directive exactly when
    [add_notes] is set, the translation-only directive, and the text
    after a newline and the header line; its temperature is the stored
    one and its [max_tokens] is [MAX_MESSAGE_LENGTH], 4000 unless
    configured otherwise. *)
Theorem translate_text_builds_request
    (client : CompletionRequest -> str + str)
    (text : str) (user_id : Z) (w : World) (style_info : Style.t) :
  zai_client E = Some client ->
  let prefs := current_prefs w user_id in
  dict_get TRANSLATION_STYLES (style prefs) = Some style_info ->
  let target_lang :=
    default (lit "Tiếng Việt") (dict_get SUPPORTED_LANGUAGES (target_language prefs)) in
  calls_made (sent (snd (translate_text E text user_id w))) =
    calls_made (sent w)
    ++ [ {| model := lit "glm-4.5-flash";
            system_content := Style.system_prompt style_info;
            user_content :=
              (lit "Translate the following text to " ++ target_lang ++ lit ".") ++ lit " "
              ++ (if format_preserve prefs
                  then lit "Preserve all formatting (bold, italic, line breaks, bullet points, etc.)."
                       ++ lit " "
                  else [])
              ++ (if add_notes prefs
                  then lit "Add brief explanatory notes in parentheses for difficult terms if needed."
                       ++ lit " "
                  else [])
              ++ lit "Return only the translation without any additional explanation."
              ++ lit " "
              ++ lit "\nText to translate:\n" ++ text;
            request_temperature := temperature prefs;
            max_tokens := MAX_MESSAGE_LENGTH (config E) |} ]
  /\ MAX_MESSAGE_LENGTH Config_defaults = 4000%Z.
Proof.
  intros Hclient prefs Hstyle target_lang. split; [|reflexivity].
  rewrite (translate_text_run client text user_id w style_info Hclient Hstyle).
  cbn [snd sent]. rewrite calls_made_app. cbn [calls_made omap].
  unfold completion_request. now rewrite build_prompt_written_out.
Qed.

(** C8. A stored language code the catalog lacks does not stop
    [translate_text]: it returns, having made its one call, and the
    request of that call is the one built with the display name
    "Tiếng Việt"; the request is the same whatever the missing code is. *)
Theorem translate_text_stale_language
    (client : CompletionRequest -> str + str)
    (text : str) (user_id : Z) (w : World) (style_info : Style.t) :
  zai_client E = Some client ->
  let prefs := current_prefs w user_id in
  dict_get TRANSLATION_STYLES (style prefs) = Some style_info ->
  dict_get SUPPORTED_LANGUAGES (target_language prefs) = None ->
  let request :=
    completion_request E style_info prefs (build_prompt prefs (lit "Tiếng Việt") text) in
  (exists result, fst (translate_text E text user_id w) = Return result)
  /\ calls_made (sent (snd (translate_text E text user_id w))) = calls_made (sent w) ++ [request]
  /\ system_content request = Style.system_prompt style_info
  /\ request_temperature request = temperature prefs
  /\ max_tokens request = MAX_MESSAGE_LENGTH (config E)
  /\ forall code : str,
       completion_request E style_info (set_target_language code prefs)
         (build_prompt (set_target_language code prefs) (lit "Tiếng Việt") text)
       = request.
Proof.
  intros Hclient prefs Hstyle Hlang request.
  rewrite (translate_text_run client text user_id w style_info Hclient Hstyle).
  fold prefs. rewrite Hlang. cbn [default from_option fst snd sent].
  fold request.
  split; [eauto|]. split.
  - rewrite calls_made_app. reflexivity.
  - repeat split.
Qed.

End RequestBuilder.

(** ** Response formatter *)

Section ResponseFormatter.

Context (E : Env).

(** Every display name of the two catalogs has a first word. *)
Lemma style_names_have_words :
  forallb (fun kv : str * Style.t =>
             match split (Style.name (snd kv)) with [] => false | _ :: _ => true end)
          TRANSLATION_STYLES = true.
Proof. vm_compute. reflexivity. Qed.

Lemma language_names_have_words :
  forallb (fun kv : str * str =>
             match split (snd kv) with [] => false | _ :: _ => true end)
          SUPPORTED_LANGUAGES = true.
Proof. vm_compute. reflexivity. Qed.

Lemma style_name_split key style_info :
  dict_get TRANSLATION_STYLES key = Some style_info ->
  exists emoji rest, split (Style.name style_info) = emoji :: rest.
Proof.
  intros H. apply dict_get_In in H.
  pose proof (proj1 (forallb_forall _ _) style_names_have_words _ H) as Hw.
  simpl in Hw. destruct (split (Style.name style_info)); [discriminate|eauto].
Qed.

Lemma language_name_split code lang_name :
  dict_get SUPPORTED_LANGUAGES code = Some lang_name ->
  exists emoji rest, split lang_name = emoji :: rest.
Proof.
  intros H. apply dict_get_In in H.
  pose proof (proj1 (forallb_forall _ _) language_names_have_words _ H) as Hw.
  simpl in Hw. destruct (split lang_name); [discriminate|eauto].
Qed.

(** [format_response] when both stored keys are in the catalogs. *)
Lemma format_response_run
    (user_id : Z) (user_text translated : str) (success : bool) (w : World)
    style_info lang_name style_emoji rest1 lang_emoji rest2 :
  let prefs := current_prefs w user_id in
  dict_get TRANSLATION_STYLES (style prefs) = Some style_info ->
  dict_get SUPPORTED_LANGUAGES (target_language prefs) = Some lang_name ->
  split (Style.name style_info) = style_emoji :: rest1 ->
  split lang_name = lang_emoji :: rest2 ->
  format_response user_id user_text translated success w =
    (Return
       (if success
        then (style_emoji ++ lit " *Phong cách:* " ++ Style.name style_info) ++ lit "\n"
             ++ (lang_emoji ++ lit " *Ngôn ngữ:* " ++ lang_name) ++ lit "\n"
             ++ lit "━━━━━━━━━━━━━━━━━━━━" ++ lit "\n"
             ++ translated
             ++ (if show_original prefs
                 then lit "\n" ++ lit "\n━━━━━━━━━━━━━━━━━━━━" ++ lit "\n"
                      ++ lit "📄 *Bản gốc:*" ++ lit "\n"
                      ++ (lit "_" ++ user_text ++ lit "_")
                 else [])
        else translated),
     prefs_stored w user_id).
Proof.
  intros prefs Hstyle Hlang Hs Hl. unfold format_response.
  rewrite (bind_Return _ _ _ _ _ (get_user_prefs_run _ _)). fold prefs.
  erewrite bind_Return by (apply getitem_Some; exact Hstyle).
  rewrite Hs. erewrite bind_Return by reflexivity.
  erewrite bind_Return by (apply getitem_Some; exact Hlang).
  rewrite Hl. erewrite bind_Return by reflexivity.
  destruct success; [|reflexivity].
  erewrite bind_Return by (apply getitem_Some; exact Hstyle).
  erewrite bind_Return by (apply getitem_Some; exact Hlang).
  unfold mret, M_ret, prefs_stored. fold prefs.
  f_equal. f_equal. apply join_response_parts.
Qed.

(** [format_response] when the stored style is in the catalog and the
    stored language code is not. *)
Lemma format_response_stale
    (user_id : Z) (user_text translated : str) (success : bool) (w : World) style_info :
  let prefs := current_prefs w user_id in
  dict_get TRANSLATION_STYLES (style prefs) = Some style_info ->
  dict_get SUPPORTED_LANGUAGES (target_language prefs) = None ->
  format_response user_id user_text translated success w =
    (Raise (KeyError (target_language prefs)), prefs_stored w user_id).
Proof.
  intros prefs Hstyle Hlang. unfold format_response.
  rewrite (bind_Return _ _ _ _ _ (get_user_prefs_run _ _)). fold prefs.
  erewrite bind_Return by (apply getitem_Some; exact Hstyle).
  destruct (style_name_split _ _ Hstyle) as (emoji & rest & ->).
  erewrite bind_Return by reflexivity.
  erewrite bind_Raise by (apply getitem_None; exact Hlang).
  reflexivity.
Qed.

(** [format_response] when the stored style is not in the catalog. *)
Lemma format_response_unknown_style
    (user_id : Z) (user_text translated : str) (success : bool) (w : World) :
  let prefs := current_prefs w user_id in
  dict_get TRANSLATION_STYLES (style prefs) = None ->
  format_response user_id user_text translated success w =
    (Raise (KeyError (style prefs)), prefs_stored w user_id).
Proof.
  intros prefs Hstyle. unfold format_response.
  rewrite (bind_Return _ _ _ _ _ (get_user_prefs_run _ _)). fold prefs.
  erewrite bind_Raise by (apply getitem_None; exact Hstyle).
  reflexivity.
Qed.

(** C5. For a translation that succeeded, with the stored style and
    language in the catalogs, [format_response] returns, one per line and
    in this order: the style line (the first word of the style's name,
    the label, the name), the language line (likewise), the divider and
    the translated text as it came.  The section with the original text (an
    empty line, the divider, the header line and the text between
    underscores) follows these four exactly when [show_original] is set;
    when it is not set nothing follows them, and the output does not
    depend on the original text. *)
Theorem format_response_success
    (user_id : Z) (user_text translated : str) (w : World)
    (style_info : Style.t) (lang_name : str) :
  let prefs := current_prefs w user_id in
  dict_get TRANSLATION_STYLES (style prefs) = Some style_info ->
  dict_get SUPPORTED_LANGUAGES (target_language prefs) = Some lang_name ->
  exists style_emoji rest1 lang_emoji rest2,
    split (Style.name style_info) = style_emoji :: rest1
    /\ split lang_name = lang_emoji :: rest2
    /\ let head :=
         (style_emoji ++ lit " *Phong cách:* " ++ Style.name style_info) ++ lit "\n"
         ++ (lang_emoji ++ lit " *Ngôn ngữ:* " ++ lang_name) ++ lit "\n"
         ++ lit "━━━━━━━━━━━━━━━━━━━━" ++ lit "\n"
         ++ translated in
       let original_section :=
         lit "\n" ++ lit "\n━━━━━━━━━━━━━━━━━━━━" ++ lit "\n"
         ++ lit "📄 *Bản gốc:*" ++ lit "\n"
         ++ (lit "_" ++ user_text ++ lit "_") in
       fst (format_response user_id user_text translated true w)
         = Return (head ++ (if show_original prefs then original_section else []))
       /\ (fst (format_response user_id user_text translated true w)
             = Return (head ++ original_section)
           <-> show_original prefs = true)
       /\ (show_original prefs = false ->
           forall other_text : str,
             fst (format_response user_id other_text translated true w)
             = fst (format_response user_id user_text translated true w)).
Proof.
  intros prefs Hstyle Hlang.
  destruct (style_name_split _ _ Hstyle) as (style_emoji & rest1 & Hs).
  destruct (language_name_split _ _ Hlang) as (lang_emoji & rest2 & Hl).
  exists style_emoji, rest1, lang_emoji, rest2.
  split; [exact Hs|]. split; [exact Hl|].
  intros head original_section.
  assert (Hrun : forall text : str,
             fst (format_response user_id text translated true w)
             = Return (head ++ (if show_original prefs
                                then lit "\n" ++ lit "\n━━━━━━━━━━━━━━━━━━━━" ++ lit "\n"
                                     ++ lit "📄 *Bản gốc:*" ++ lit "\n"
                                     ++ (lit "_" ++ text ++ lit "_")
                                else []))).
  { intros text.
    rewrite (format_response_run user_id text translated true w
               _ _ _ _ _ _ Hstyle Hlang Hs Hl).
    fold prefs. unfold head. cbn [fst]. now rewrite <- !app_assoc. }
  split; [apply Hrun|]. split.
  - rewrite Hrun. split.
    + destruct (show_original prefs); [reflexivity|].
      intros [= H]. apply app_inv_head in H.
      unfold original_section in H. change (lit "\n") with [10%N] in H.
      discriminate H.
    + now intros ->.
  - intros Hshow other_text. rewrite !Hrun, Hshow. reflexivity.
Qed.

End ResponseFormatter.

(** ** The message handler, end to end *)

Section MessageHandler.

Context (E : Env).

(** A text within the length limit: the statistics step returns, and
    the rest of the handler runs from a world with the same preferences
    and the same effects. *)
Lemma handle_message_accepted
    (update : Update) (context : Context) (w : World) (user_text : str) :
  message_text update = Some user_text ->
  (Z.of_nat (length user_text) <= MAX_MESSAGE_LENGTH (config E))%Z ->
  exists st tk,
    handle_message E update context w =
      translate_and_reply E update user_text
        {| user_preferences := user_preferences w;
           user_statistics := st;
           ticks := tk;
           sent := sent w |}.
Proof.
  intros Hmsg Hlen. unfold handle_message. rewrite Hmsg.
  rewrite (proj2 (Z.ltb_ge _ _) Hlen).
  destruct (update_user_stats_frame E (effective_user_id update) (lit "translation") w)
    as (st & tk & Hs).
  exists st, tk. now rewrite (bind_Return _ _ _ _ _ Hs).
Qed.

(** The rest of the handler up to the formatting: the processing
    message, the typing action and the one call. *)
Lemma translate_and_reply_steps
    client (update : Update) (user_text : str) (w : World) style_info :
  zai_client E = Some client ->
  message_text update = Some user_text ->
  let user_id := effective_user_id update in
  let prefs := current_prefs w user_id in
  dict_get TRANSLATION_STYLES (style prefs) = Some style_info ->
  let target_lang :=
    default (lit "Tiếng Việt") (dict_get SUPPORTED_LANGUAGES (target_language prefs)) in
  let request := completion_request E style_info prefs (build_prompt prefs target_lang user_text) in
  let w2 :=
    {| user_preferences := <[user_id := prefs]> (user_preferences w);
       user_statistics := user_statistics w;
       ticks := ticks w;
       sent := sent w ++ [ reply_text (lit "🔄 *Đang dịch...*") None;
                           send_chat_action;
                           completions_create request ] |} in
  translate_and_reply E update user_text w =
    ('(translated, success) ←
       mret match client request with
            | inl translated_text => (translated_text, true)
            | inr e => (lit "❌ Lỗi khi dịch: " ++ e, false)
            end;
     response ← format_response user_id user_text translated success;
     emit delete_processing_msg;;
     message_reply_text update response None) w2.
Proof.
  intros Hclient Hmsg user_id prefs Hstyle target_lang request w2.
  unfold translate_and_reply.
  erewrite bind_Return by (unfold message_reply_text; rewrite Hmsg; reflexivity).
  erewrite bind_Return by reflexivity.
  erewrite (bind_Return (translate_text E user_text _)).
  2:{ apply (translate_text_run E client) with (style_info := style_info);
      [exact Hclient|exact Hstyle]. }
  unfold emit; cbn [user_preferences user_statistics ticks sent].
  fold user_id.
  erewrite (bind_Return (mret _)) by reflexivity.
  unfold w2, request, target_lang, prefs, current_prefs;
    cbn [user_preferences user_statistics ticks sent].
  now rewrite <- !app_assoc.
Qed.

(** C6. A call of the completion service that raises is caught inside
    [translate_text], which returns the one-line failure text made of
    the fixed prefix and the exception's own message, flagged as not
    successful.  [handle_message] then sends that text, and only that
    text, as its result: after the processing message, the typing action
    and the call come the deletion of the processing message and the
    failure reply, and the handler returns normally (the stored language
    being one the catalog knows). *)
Theorem gateway_failure_is_reported
    (client : CompletionRequest -> str + str)
    (update : Update) (context : Context) (w : World)
    (user_text cause : str) (style_info : Style.t) :
  zai_client E = Some client ->
  message_text update = Some user_text ->
  (Z.of_nat (length user_text) <= MAX_MESSAGE_LENGTH (config E))%Z ->
  let user_id := effective_user_id update in
  let prefs := current_prefs w user_id in
  dict_get TRANSLATION_STYLES (style prefs) = Some style_info ->
  let target_lang :=
    default (lit "Tiếng Việt") (dict_get SUPPORTED_LANGUAGES (target_language prefs)) in
  let request := completion_request E style_info prefs (build_prompt prefs target_lang user_text) in
  client request = inr cause ->
  fst (translate_text E user_text user_id w)
    = Return (lit "❌ Lỗi khi dịch: " ++ cause, false)
  /\ (is_Some (dict_get SUPPORTED_LANGUAGES (target_language prefs)) ->
      exists w',
        handle_message E update context w = (Return tt, w')
        /\ sent w' =
             sent w
             ++ [ reply_text (lit "🔄 *Đang dịch...*") None;
                  send_chat_action;
                  completions_create request;
                  delete_processing_msg;
                  reply_text (lit "❌ Lỗi khi dịch: " ++ cause) None ]).
Proof.
  intros Hclient Hmsg Hlen user_id prefs Hstyle target_lang request Hfail.
  split.
  - rewrite (translate_text_run E client user_text user_id w style_info Hclient Hstyle).
    fold prefs target_lang request. now rewrite Hfail.
  - intros [lang_name Hlang].
    destruct (handle_message_accepted update context w user_text Hmsg Hlen)
      as (st & tk & ->).
    set (w1 := {| user_preferences := user_preferences w; user_statistics := st;
                  ticks := tk; sent := sent w |}).
    rewrite (translate_and_reply_steps client update user_text w1 style_info
               Hclient Hmsg Hstyle).
    change (current_prefs w1 (effective_user_id update)) with prefs.
    fold user_id target_lang request. subst w1.
    cbn [user_preferences user_statistics ticks sent].
    rewrite Hfail.
    erewrite bind_Return by reflexivity.
    destruct (style_name_split _ _ Hstyle) as (style_emoji & rest1 & Hs).
    destruct (language_name_split _ _ Hlang) as (lang_emoji & rest2 & Hl).
    erewrite (bind_Return (format_response _ _ _ _)).
    2:{ apply format_response_run
          with (style_info := style_info) (lang_name := lang_name)
               (style_emoji := style_emoji) (rest1 := rest1)
               (lang_emoji := lang_emoji) (rest2 := rest2);
          try assumption;
          unfold current_prefs; cbn [user_preferences]; rewrite lookup_insert_eq;
          assumption. }
    erewrite bind_Return by reflexivity.
    unfold message_reply_text. rewrite Hmsg.
    eexists. split; [reflexivity|].
    cbn [sent prefs_stored emit snd]. now rewrite <- !app_assoc.
Qed.

(** C10. [format_response] looks both stored keys up in the catalogs
    with no default: for a successful translation it returns a text
    exactly when the stored style and the stored language code are both
    catalog keys.  So with a language code the catalog lacks, the
    translation itself goes through (the request is built with the
    default display name and answered), and then the language lookup
    raises [KeyError]: [handle_message] ends with that exception after
    the processing message, the typing action and the call, and sends no
    formatted reply. *)
Theorem handle_message_stale_language
    (client : CompletionRequest -> str + str)
    (update : Update) (context : Context) (w : World)
    (user_text translated : str) (style_info : Style.t) :
  zai_client E = Some client ->
  message_text update = Some user_text ->
  (Z.of_nat (length user_text) <= MAX_MESSAGE_LENGTH (config E))%Z ->
  let user_id := effective_user_id update in
  let prefs := current_prefs w user_id in
  dict_get TRANSLATION_STYLES (style prefs) = Some style_info ->
  dict_get SUPPORTED_LANGUAGES (target_language prefs) = None ->
  let request :=
    completion_request E style_info prefs (build_prompt prefs (lit "Tiếng Việt") user_text) in
  client request = inl translated ->
  (forall (w0 : World) (uid : Z) (text body : str),
      (exists response, fst (format_response uid text body true w0) = Return response)
      <-> is_Some (dict_get TRANSLATION_STYLES (style (current_prefs w0 uid)))
          /\ is_Some (dict_get SUPPORTED_LANGUAGES (target_language (current_prefs w0 uid))))
  /\ fst (translate_text E user_text user_id w) = Return (translated, true)
  /\ fst (format_response user_id user_text translated true w)
     = Raise (KeyError (target_language prefs))
  /\ exists w',
       handle_message E update context w = (Raise (KeyError (target_language prefs)), w')
       /\ sent w' =
            sent w
            ++ [ reply_text (lit "🔄 *Đang dịch...*") None;
                 send_chat_action;
                 completions_create request ].
Proof.
  intros Hclient Hmsg Hlen user_id prefs Hstyle Hlang request Hok.
  split; [|split; [|split]].
  - intros w0 uid text body. split.
    + intros [response Hr].
      destruct (dict_get TRANSLATION_STYLES (style (current_prefs w0 uid)))
        as [si|] eqn:Hsi.
      * destruct (dict_get SUPPORTED_LANGUAGES (target_language (current_prefs w0 uid)))
          as [ln|] eqn:Hln; [eauto|].
        rewrite (format_response_stale uid text body true w0 si Hsi Hln) in Hr.
        discriminate.
      * rewrite (format_response_unknown_style uid text body true w0 Hsi) in Hr.
        discriminate.
    + intros [[si Hsi] [ln Hln]].
      destruct (style_name_split _ _ Hsi) as (style_emoji & rest1 & Hs).
      destruct (language_name_split _ _ Hln) as (lang_emoji & rest2 & Hl).
      rewrite (format_response_run uid text body true w0
                 _ _ _ _ _ _ Hsi Hln Hs Hl).
      eauto.
  - rewrite (translate_text_run E client user_text user_id w style_info Hclient Hstyle).
    fold prefs. rewrite Hlang. cbn [default from_option]. fold request.
    now rewrite Hok.
  - now rewrite (format_response_stale user_id user_text translated true w
                   style_info Hstyle Hlang).
  - destruct (handle_message_accepted update context w user_text Hmsg Hlen)
      as (st & tk & ->).
    set (w1 := {| user_preferences := user_preferences w; user_statistics := st;
                  ticks := tk; sent := sent w |}).
    rewrite (translate_and_reply_steps client update user_text w1 style_info
               Hclient Hmsg Hstyle).
    change (current_prefs w1 (effective_user_id update)) with prefs.
    fold user_id. subst w1.
    cbn [user_preferences user_statistics ticks sent].
    rewrite Hlang. cbn [default from_option]. fold request.
    rewrite Hok.
    erewrite bind_Return by reflexivity. cbv beta iota.
    erewrite (bind_Raise (format_response _ _ _ _)).
    2:{ apply format_response_stale with (style_info := style_info);
          unfold current_prefs; cbn [user_preferences]; rewrite lookup_insert_eq;
          assumption. }
    eexists. split.
    + unfold current_prefs at 1; cbn [user_preferences]. rewrite lookup_insert_eq.
      reflexivity.
    + reflexivity.
Qed.

End MessageHandler.

(** ** The theorems at work on the sample worlds *)

(** Caller 7 sends [/temp 0.26] and then [/temp 0.75]: the stored
    temperature becomes 0.3, the nearest tenth above, and then 0.8, the
    even one of the two tenths at equal distance. *)
Lemma temp_command_sets_or_rejects_witness :
  temperature
    (current_prefs
       (snd (temp_command (Sample.env None) (Sample.text_message 7 (lit "/temp 0.26"))
               {| args := [lit "0.26"] |} Sample.busy)) 7)
  = 0.3%float
  /\ temperature
       (current_prefs
          (snd (temp_command (Sample.env None) (Sample.text_message 7 (lit "/temp 0.75"))
                  {| args := [lit "0.75"] |} Sample.busy)) 7)
     = 0.8%float.
Proof.
  split.
  - pose proof (temp_command_sets_or_rejects (Sample.env None)
                  (Sample.text_message 7 (lit "/temp 0.26")) {| args := [lit "0.26"] |}
                  Sample.busy (lit "0.26") [] (lit "/temp 0.26") 0.26%float
                  eq_refl eq_refl eq_refl) as [_ H].
    change (temp_in_range 0.26) with true in H. cbv iota zeta in H.
    destruct H as (_ & H & _).
    etransitivity; [exact H|]. vm_compute. reflexivity.
  - pose proof (temp_command_sets_or_rejects (Sample.env None)
                  (Sample.text_message 7 (lit "/temp 0.75")) {| args := [lit "0.75"] |}
                  Sample.busy (lit "0.75") [] (lit "/temp 0.75") 0.75%float
                  eq_refl eq_refl eq_refl) as [_ H].
    change (temp_in_range 0.75) with true in H. cbv iota zeta in H.
    destruct H as (_ & H & _).
    etransitivity; [exact H|]. vm_compute. reflexivity.
Defined.

(** The press of a button [style_xyz] by caller 7, whose stored style was
    "creative". *)
Lemma button_callback_unknown_style_witness :
  button_callback (Sample.env None) (Sample.button_press 7 (lit "style_xyz"))
    {| args := [] |} Sample.busy
  = (Raise (KeyError (lit "xyz")),
     {| user_preferences :=
          <[7%Z := set_style (lit "xyz") (current_prefs Sample.busy 7)]>
            (user_preferences Sample.busy);
        user_statistics := user_statistics Sample.busy;
        ticks := 0;
        sent := [answer None] |}).
Proof.
  assert (Hprefix : startswith (lit "style_") (lit "style_xyz") = true)
    by (vm_compute; reflexivity).
  assert (Hinfo : lit "style_xyz" <> lit "style_info") by (vm_compute; discriminate).
  assert (Hkey : dict_get TRANSLATION_STYLES (replace (lit "style_xyz") (lit "style_") (lit ""))
                 = None) by (vm_compute; reflexivity).
  exact (proj1 (button_callback_unknown_style (Sample.env None)
                  (Sample.button_press 7 (lit "style_xyz")) {| args := [] |} Sample.busy
                  (lit "style_xyz") eq_refl Hprefix Hinfo Hkey)).
Defined.

(** C2, as the specification words it, fails: "xyz" is no catalog key, and
    after the press of [style_xyz] the record of caller 7 is no longer the
    one stored before. *)
Lemma button_callback_unknown_style_changes_record :
  dict_get TRANSLATION_STYLES (lit "xyz") = None
  /\ user_preferences
       (snd (button_callback (Sample.env None) (Sample.button_press 7 (lit "style_xyz"))
               {| args := [] |} Sample.busy)) !! 7%Z
     <> user_preferences Sample.busy !! 7%Z.
Proof.
  split; [vm_compute; reflexivity|].
  vm_compute. intros H. discriminate H.
Qed.

(** A text of 4001 characters against the default limit of 4000. *)
Lemma handle_message_too_long_witness :
  handle_message (Sample.env (Some (Sample.answering (lit "ok"))))
    (Sample.text_message 7 (repeat 97%N 4001)) {| args := [] |} Sample.start
  = (Return tt,
     {| user_preferences := ∅;
        user_statistics := ∅;
        ticks := 0;
        sent :=
          [ reply_text
              (lit "⚠️ Văn bản quá dài! Tối đa 4000 ký tự.\nVăn bản của bạn: 4001 ký tự.")
              None ] |}).
Proof.
  assert (Hlong : (MAX_MESSAGE_LENGTH (config (Sample.env (Some (Sample.answering (lit "ok")))))
                   < Z.of_nat (length (repeat 97%N 4001)))%Z)
    by (vm_compute; reflexivity).
  destruct (handle_message_too_long (Sample.env (Some (Sample.answering (lit "ok"))))
              (Sample.text_message 7 (repeat 97%N 4001)) {| args := [] |} Sample.start
              (repeat 97%N 4001) eq_refl Hlong) as [H _].
  etransitivity; [exact H|]. vm_compute. reflexivity.
Defined.

(** A caller with the default preferences sends "Hello world". *)
Lemma translate_text_builds_request_witness :
  calls_made
    (sent (snd (translate_text (Sample.env (Some (Sample.answering (lit "Xin chào thế giới"))))
                  (lit "Hello world") 7 Sample.start)))
  = [ {| model := lit "glm-4.5-flash";
         system_content :=
           lit "Bạn là một dịch giả chuyên nghiệp với kinh nghiệm cao. Dịch văn bản với phong cách trang trọng, chính xác về mặt thuật ngữ chuyên môn.";
         user_content :=
           lit "Translate the following text to 🇻🇳 Tiếng Việt. Preserve all formatting (bold, italic, line breaks, bullet points, etc.). Return only the translation without any additional explanation. \nText to translate:\nHello world";
         request_temperature := 0.3;
         max_tokens := 4000 |} ].
Proof.
  destruct (dict_get TRANSLATION_STYLES (style (current_prefs Sample.start 7)))
    as [style_info|] eqn:Hstyle; [|vm_compute in Hstyle; discriminate Hstyle].
  destruct (translate_text_builds_request
              (Sample.env (Some (Sample.answering (lit "Xin chào thế giới"))))
              (Sample.answering (lit "Xin chào thế giới"))
              (lit "Hello world") 7 Sample.start style_info eq_refl Hstyle) as [H _].
  etransitivity; [exact H|].
  vm_compute in Hstyle. injection Hstyle as <-.
  vm_compute. reflexivity.
Defined.

(** Caller 7 of the busy world (style "creative", language "ja", original
    text shown) receives a translation. *)
Lemma format_response_success_witness :
  fst (format_response 7 (lit "Hello") (lit "こんにちは") true Sample.busy)
  = Return
      (lit "🎨 *Phong cách:* 🎨 Sáng tạo\n🇯🇵 *Ngôn ngữ:* 🇯🇵 日本語\n━━━━━━━━━━━━━━━━━━━━\nこんにちは\n\n━━━━━━━━━━━━━━━━━━━━\n📄 *Bản gốc:*\n_Hello_").
Proof.
  destruct (dict_get TRANSLATION_STYLES (style (current_prefs Sample.busy 7)))
    as [style_info|] eqn:Hstyle; [|vm_compute in Hstyle; discriminate Hstyle].
  destruct (dict_get SUPPORTED_LANGUAGES (target_language (current_prefs Sample.busy 7)))
    as [lang_name|] eqn:Hlang; [|vm_compute in Hlang; discriminate Hlang].
  destruct (format_response_success 7 (lit "Hello") (lit "こんにちは") Sample.busy
              style_info lang_name Hstyle Hlang)
    as (style_emoji & rest1 & lang_emoji & rest2 & Hs & Hl & H & _).
  cbv zeta in H.
  etransitivity; [exact H|].
  vm_compute in Hstyle. injection Hstyle as <-.
  vm_compute in Hlang. injection Hlang as <-.
  vm_compute in Hs. injection Hs as <- _.
  vm_compute in Hl. injection Hl as <- _.
  vm_compute. reflexivity.
Defined.

(** A completion service whose calls raise "timeout". *)
Lemma gateway_failure_is_reported_witness :
  fst (handle_message (Sample.env (Some (Sample.failing (lit "timeout"))))
         (Sample.text_message 7 (lit "Hello world")) {| args := [] |} Sample.start)
  = Return tt
  /\ last (sent (snd (handle_message (Sample.env (Some (Sample.failing (lit "timeout"))))
                        (Sample.text_message 7 (lit "Hello world")) {| args := [] |}
                        Sample.start)))
     = Some (reply_text (lit "❌ Lỗi khi dịch: timeout") None).
Proof.
  destruct (dict_get TRANSLATION_STYLES (style (current_prefs Sample.start 7)))
    as [style_info|] eqn:Hstyle; [|vm_compute in Hstyle; discriminate Hstyle].
  assert (Hlen : (Z.of_nat (length (lit "Hello world"))
                  <= MAX_MESSAGE_LENGTH
                       (config (Sample.env (Some (Sample.failing (lit "timeout"))))))%Z)
    by (vm_compute; discriminate).
  assert (Hlang : is_Some (dict_get SUPPORTED_LANGUAGES
                             (target_language (current_prefs Sample.start 7))))
    by (vm_compute; eauto).
  destruct (gateway_failure_is_reported
              (Sample.env (Some (Sample.failing (lit "timeout"))))
              (Sample.failing (lit "timeout"))
              (Sample.text_message 7 (lit "Hello world")) {| args := [] |} Sample.start
              (lit "Hello world") (lit "timeout") style_info
              eq_refl eq_refl Hlen Hstyle eq_refl) as [_ H].
  destruct (H Hlang) as (w' & Hrun & Hsent).
  rewrite Hrun. split; [reflexivity|].
  cbn [snd]. rewrite Hsent. reflexivity.
Defined.

(** Caller 7 of the stale world holds the language code "xx". *)
Lemma translate_text_stale_language_witness :
  map user_content
    (calls_made
       (sent (snd (translate_text (Sample.env (Some (Sample.answering (lit "ok"))))
                     (lit "Hello world") 7 Sample.stale))))
  = [ lit "Translate the following text to Tiếng Việt. Preserve all formatting (bold, italic, line breaks, bullet points, etc.). Return only the translation without any additional explanation. \nText to translate:\nHello world" ].
Proof.
  destruct (dict_get TRANSLATION_STYLES (style (current_prefs Sample.stale 7)))
    as [style_info|] eqn:Hstyle; [|vm_compute in Hstyle; discriminate Hstyle].
  assert (Hlang : dict_get SUPPORTED_LANGUAGES (target_language (current_prefs Sample.stale 7))
                  = None) by (vm_compute; reflexivity).
  destruct (translate_text_stale_language
              (Sample.env (Some (Sample.answering (lit "ok"))))
              (Sample.answering (lit "ok"))
              (lit "Hello world") 7 Sample.stale style_info eq_refl Hstyle Hlang)
    as (_ & H & _).
  rewrite H. vm_compute. reflexivity.
Defined.

(** Caller 7 of the busy world, three translations so far, sends a text
    to a completion service whose calls raise: the count is four. *)
Lemma handle_message_counts_before_translating_witness :
  translations
  <$> user_statistics
        (snd (handle_message (Sample.env (Some (Sample.failing (lit "timeout"))))
                (Sample.text_message 7 (lit "Hello world")) {| args := [] |} Sample.busy))
      !! 7%Z
  = Some 4%Z.
Proof.
  pose proof (handle_message_counts_before_translating
                (Sample.env (Some (Sample.failing (lit "timeout"))))
                (Sample.text_message 7 (lit "Hello world")) {| args := [] |} Sample.busy
                (lit "Hello world") eq_refl eq_refl) as H.
  cbv zeta in H.
  change (MAX_MESSAGE_LENGTH (config (Sample.env (Some (Sample.failing (lit "timeout")))))
          <? Z.of_nat (length (lit "Hello world")))%Z with false in H.
  cbv iota in H.
  destruct H as (w1 & s1 & _ & _ & _ & Hs1 & Htr & _ & _ & Hstats).
  rewrite Hstats. change (effective_user_id _) with 7%Z in Hs1. rewrite Hs1.
  cbn [fmap option_fmap option_map]. rewrite Htr. reflexivity.
Defined.

(** Caller 7 of the stale world sends a text to a completion service that
    answers: the handler ends in [KeyError] on the code "xx". *)
Lemma handle_message_stale_language_witness :
  fst (handle_message (Sample.env (Some (Sample.answering (lit "ok"))))
         (Sample.text_message 7 (lit "Hello world")) {| args := [] |} Sample.stale)
  = Raise (KeyError (lit "xx")).
Proof.
  destruct (dict_get TRANSLATION_STYLES (style (current_prefs Sample.stale 7)))
    as [style_info|] eqn:Hstyle; [|vm_compute in Hstyle; discriminate Hstyle].
  assert (Hlen : (Z.of_nat (length (lit "Hello world"))
                  <= MAX_MESSAGE_LENGTH
                       (config (Sample.env (Some (Sample.answering (lit "ok"))))))%Z)
    by (vm_compute; discriminate).
  assert (Hlang : dict_get SUPPORTED_LANGUAGES (target_language (current_prefs Sample.stale 7))
                  = None) by (vm_compute; reflexivity).
  destruct (handle_message_stale_language
              (Sample.env (Some (Sample.answering (lit "ok"))))
              (Sample.answering (lit "ok"))
              (Sample.text_message 7 (lit "Hello world")) {| args := [] |} Sample.stale
              (lit "Hello world") (lit "ok") style_info
              eq_refl eq_refl Hlen Hstyle Hlang eq_refl)
    as (_ & _ & _ & w' & Hrun & _).
  rewrite Hrun. reflexivity.
Defined.

(** * Further properties of the handlers *)

(** ** What every handler is made of *)

Lemma passes_refl R `{Passes R} w : R w w.
Proof. apply passes_same. now repeat split. Qed.

Lemma steps_bind R `{Passes R} {A B : Type} (m : M A) (f : A -> M B) :
  steps R m -> (forall a, steps R (f a)) -> steps R (m ≫= f).
Proof.
  intros Hm Hf w. unfold mbind, M_bind.
  specialize (Hm w). destruct (m w) as [[a|e] w1]; simpl in *.
  - eapply passes_trans; [exact Hm|apply Hf].
  - exact Hm.
Qed.

Lemma steps_same R `{Passes R} {A : Type} (m : M A) :
  steps same_stores m -> steps R m.
Proof. intros Hm w. apply passes_same, Hm. Qed.

Lemma same_ret {A : Type} (a : A) : steps same_stores (mret a).
Proof. now intros w. Qed.

Lemma same_raise {A : Type} (e : exn) : steps same_stores (@raise A e).
Proof. now intros w. Qed.

Lemma same_emit (e : effect) : steps same_stores (emit e).
Proof. now intros w. Qed.

Lemma same_getitem {V : Type} (d : dict V) (k : str) : steps same_stores (getitem d k).
Proof. intros w. unfold getitem. now destruct (dict_get d k). Qed.

Lemma same_first {A : Type} (l : list A) : steps same_stores (first l).
Proof. intros w. now destruct l. Qed.

Lemma same_query_data (update : Update) : steps same_stores (query_data update).
Proof. intros w. unfold query_data. now destruct (callback_query_data update). Qed.

Lemma same_message_reply_text (update : Update) (text : str) (markup : option keyboard) :
  steps same_stores (message_reply_text update text markup).
Proof. intros w. unfold message_reply_text. now destruct (message_text update). Qed.

Lemma same_in_user_statistics (user_id : Z) : steps same_stores (in_user_statistics user_id).
Proof. now intros w. Qed.

Lemma same_statistics_getitem (user_id : Z) : steps same_stores (statistics_getitem user_id).
Proof. intros w. unfold statistics_getitem. now destruct (_ !! _). Qed.

Lemma same_error_handler (update : Update) : steps same_stores (error_handler update).
Proof. intros w. unfold error_handler. now destruct (message_text update). Qed.

Create HintDb steps.

#[export] Hint Resolve same_ret same_raise same_emit same_getitem same_first
  same_query_data same_message_reply_text same_in_user_statistics
  same_statistics_getitem : steps.

Section AnyHandler.

Context (E : Env) (R : Z -> World -> World -> Prop) (HR : forall user_id, Passes (R user_id)).

(** The five ways a handler changes a store. *)
Hypothesis R_update_user_stats :
  forall user_id action, steps (R user_id) (update_user_stats E user_id action).
Hypothesis R_get_user_prefs :
  forall user_id, steps (R user_id) (get_user_prefs user_id).
Hypothesis R_setitem :
  forall user_id set, keeps_temperature set -> steps (R user_id) (prefs_setitem user_id set).
Hypothesis R_set_temperature :
  forall user_id temp,
    temp_in_range temp = true ->
    steps (R user_id) (prefs_setitem user_id (set_temperature (PyFloat.round1 temp))).
Hypothesis R_reset :
  forall user_id, steps (R user_id) (with_preferences (insert user_id DEFAULT_PREFERENCES)).

#[local] Existing Instance HR.

#[local] Hint Resolve R_update_user_stats R_get_user_prefs R_reset : steps.
#[local] Hint Extern 1 (steps (R _) _) => (apply steps_same; [apply HR|]) : steps.
#[local] Hint Extern 1 (steps (R _) (prefs_setitem _ (set_temperature _))) =>
  (apply R_set_temperature; assumption) : steps.
#[local] Hint Extern 2 (steps (R _) (prefs_setitem _ _)) =>
  (apply R_setitem; intros ?; reflexivity) : steps.

(** Takes a handler apart: bind by bind, branch by branch. *)
Ltac take_apart :=
  repeat first
    [ solve [eauto with steps]
    | apply (steps_bind (R _)); [|intros ?]
    | match goal with
      | |- steps _ (let '(_, _) := ?p in _) => destruct p
      | |- steps _ (match ?x with _ => _ end) => destruct x eqn:?
      | |- steps _ (if ?b then _ else _) => destruct b eqn:?
      end ].

Lemma help_command_steps update context :
  steps (R (effective_user_id update)) (help_command E update context).
Proof. unfold help_command. take_apart. Qed.

Lemma reset_command_steps update context :
  steps (R (effective_user_id update)) (reset_command E update context).
Proof. unfold reset_command. cbv zeta. take_apart. Qed.

Lemma language_command_steps update context :
  steps (R (effective_user_id update)) (language_command E update context).
Proof. unfold language_command. cbv zeta. take_apart. Qed.

Lemma style_command_steps update context :
  steps (R (effective_user_id update)) (style_command E update context).
Proof. unfold style_command. cbv zeta. take_apart. Qed.

Lemma settings_command_steps update context :
  steps (R (effective_user_id update)) (settings_command E update context).
Proof. unfold settings_command. cbv zeta. take_apart. Qed.

Lemma temp_command_steps update context :
  steps (R (effective_user_id update)) (temp_command E update context).
Proof. unfold temp_command. cbv zeta. take_apart. Qed.

Lemma translate_text_steps text user_id :
  steps (R user_id) (translate_text E text user_id).
Proof. unfold translate_text. cbv zeta. take_apart. Qed.

Lemma format_response_steps user_id user_text translated success :
  steps (R user_id) (format_response user_id user_text translated success).
Proof. unfold format_response. cbv zeta. take_apart. Qed.

#[local] Hint Resolve help_command_steps language_command_steps style_command_steps
  settings_command_steps translate_text_steps format_response_steps : steps.

Lemma handle_message_steps update context :
  steps (R (effective_user_id update)) (handle_message E update context).
Proof. unfold handle_message, translate_and_reply. cbv zeta. take_apart. Qed.

Lemma button_callback_steps update context :
  steps (R (effective_user_id update)) (button_callback E update context).
Proof. unfold button_callback. cbv zeta. take_apart. Qed.

Lemma start_steps first_name update context :
  steps (R (effective_user_id update)) (start E first_name update context).
Proof. unfold start. cbv zeta. take_apart. Qed.

Lemma about_command_steps update context :
  steps (R (effective_user_id update)) (about_command E update context).
Proof. unfold about_command. take_apart. Qed.

Lemma stats_command_steps update context :
  steps (R (effective_user_id update)) (stats_command E update context).
Proof. unfold stats_command. cbv zeta. take_apart. Qed.

(** Whatever holds of the five store changes and chains holds of every
    handler. *)
Lemma run_handler_steps (h : handler) (update : Update) (context : Context) :
  steps (R (effective_user_id update)) (run_handler E h update context).
Proof.
  destruct h; cbn [run_handler];
    auto using help_command_steps, reset_command_steps, language_command_steps,
      style_command_steps, settings_command_steps, temp_command_steps,
      handle_message_steps, button_callback_steps, start_steps, about_command_steps,
      stats_command_steps.
Qed.

End AnyHandler.

(** ** The store changes, relation by relation *)

Section StoreChanges.

Context (E : Env).

(** Runs [update_user_stats] through its cases. *)
Ltac stats_cases user_id w :=
  unfold update_user_stats;
  destruct (ENABLE_STATS (config E)); cbn [negb];
  [ unfold mbind, M_bind, in_user_statistics, datetime_now, with_statistics, mret, M_ret;
    cbn [fst snd user_preferences user_statistics ticks sent];
    destruct (user_statistics w !! user_id) eqn:?;
    [ rewrite bool_decide_eq_true_2 by eauto
    | rewrite bool_decide_eq_false_2 by (intros [? ?]; discriminate) ];
    repeat (match goal with |- context [decide ?P] => destruct (decide P) end);
    cbn [fst snd user_preferences user_statistics ticks sent]
  | cbn [fst snd mret M_ret] ].

Lemma update_user_stats_preferences user_id action w :
  user_preferences (snd (update_user_stats E user_id action w)) = user_preferences w.
Proof.
  destruct (update_user_stats_frame E user_id action w) as (st & tk & ->). reflexivity.
Qed.

Lemma update_user_stats_sent user_id action w :
  sent (snd (update_user_stats E user_id action w)) = sent w.
Proof.
  destruct (update_user_stats_frame E user_id action w) as (st & tk & ->). reflexivity.
Qed.

Lemma update_user_stats_others user_id action w other :
  other <> user_id ->
  user_statistics (snd (update_user_stats E user_id action w)) !! other
  = user_statistics w !! other.
Proof.
  intros Hne. stats_cases user_id w;
    rewrite ?lookup_alter_ne, ?lookup_insert_ne by congruence; reflexivity.
Qed.

Lemma update_user_stats_grow user_id action w :
  statistics_grow w (snd (update_user_stats E user_id action w)).
Proof.
  intros u s Hs.
  destruct (decide (u = user_id)) as [->|Hne].
  - stats_cases user_id w; try congruence;
      rewrite ?lookup_alter_eq; simplify_eq;
      repeat match goal with H : _ !! _ = Some _ |- _ => rewrite H end;
      cbn [fmap option_fmap option_map];
      eexists; (split; [reflexivity|]); cbn; repeat split; lia.
  - rewrite update_user_stats_others by exact Hne. exists s. repeat split; [exact Hs|lia|lia].
Qed.

Lemma update_user_stats_disabled user_id action w :
  ENABLE_STATS (config E) = false ->
  update_user_stats E user_id action w = (Return tt, w).
Proof. intros H. unfold update_user_stats. now rewrite H. Qed.

(** *** No other caller is touched *)

#[export] Instance others_untouched_passes user_id : Passes (others_untouched user_id).
Proof.
  split.
  - intros w w' (Hp & Hs & _) other _. now rewrite Hp, Hs.
  - intros w1 w2 w3 H12 H23 other Hne.
    destruct (H12 other Hne) as [<- <-]. exact (H23 other Hne).
Qed.

Lemma others_update_user_stats user_id action :
  steps (others_untouched user_id) (update_user_stats E user_id action).
Proof.
  intros w other Hne. split.
  - now rewrite update_user_stats_preferences.
  - now apply update_user_stats_others.
Qed.

Lemma others_get_user_prefs user_id :
  steps (others_untouched user_id) (get_user_prefs user_id).
Proof.
  intros w other Hne. rewrite get_user_prefs_run. cbn.
  now rewrite lookup_insert_ne by congruence.
Qed.

Lemma others_setitem user_id set :
  steps (others_untouched user_id) (prefs_setitem user_id set).
Proof. intros w other Hne. cbn. now rewrite lookup_alter_ne by congruence. Qed.

Lemma others_reset user_id :
  steps (others_untouched user_id) (with_preferences (insert user_id DEFAULT_PREFERENCES)).
Proof. intros w other Hne. cbn. now rewrite lookup_insert_ne by congruence. Qed.

Lemma run_handler_others (h : handler) (update : Update) (context : Context) :
  steps (others_untouched (effective_user_id update)) (run_handler E h update context).
Proof.
  apply (run_handler_steps E others_untouched);
    auto using others_untouched_passes, others_update_user_stats, others_get_user_prefs,
      others_setitem, others_reset.
Qed.

(** *** Records stay and counters grow *)

#[export] Instance records_grow_passes : Passes records_grow.
Proof.
  split.
  - intros w w' (Hp & Hs & _). split.
    + intros u s H. exists s. rewrite Hs. repeat split; [exact H|lia|lia].
    + intros u. now rewrite Hp.
  - intros w1 w2 w3 [G12 K12] [G23 K23]. split.
    + intros u s H. destruct (G12 u s H) as (s2 & H2 & ? & ? & E2).
      destruct (G23 u s2 H2) as (s3 & H3 & ? & ? & E3).
      exists s3. repeat split; [exact H3|lia|lia|congruence].
    + intros u H. apply K23, K12, H.
Qed.

Lemma grow_of_same_statistics {A : Type} (m : M A) :
  (forall w, user_statistics (snd (m w)) = user_statistics w) ->
  (forall w, preferences_kept w (snd (m w))) ->
  steps records_grow m.
Proof.
  intros Hs Hp w. split; [|apply Hp].
  intros u s H. exists s. rewrite Hs. repeat split; [exact H|lia|lia].
Qed.

Lemma grow_update_user_stats user_id action :
  steps records_grow (update_user_stats E user_id action).
Proof.
  intros w. split; [apply update_user_stats_grow|].
  intros u. now rewrite update_user_stats_preferences.
Qed.

Lemma grow_get_user_prefs user_id : steps records_grow (get_user_prefs user_id).
Proof.
  apply grow_of_same_statistics; intros w; rewrite get_user_prefs_run; [reflexivity|].
  intros u Hu. cbn. destruct (decide (u = user_id)) as [->|Hne].
  - rewrite lookup_insert_eq. eauto.
  - now rewrite lookup_insert_ne by congruence.
Qed.

Lemma grow_setitem user_id set : steps records_grow (prefs_setitem user_id set).
Proof.
  apply grow_of_same_statistics; intros w; [reflexivity|].
  intros u Hu. cbn. now apply lookup_alter_is_Some.
Qed.

Lemma grow_reset user_id :
  steps records_grow (with_preferences (insert user_id DEFAULT_PREFERENCES)).
Proof.
  apply grow_of_same_statistics; intros w; [reflexivity|].
  intros u Hu. cbn. destruct (decide (u = user_id)) as [->|Hne].
  - rewrite lookup_insert_eq. eauto.
  - now rewrite lookup_insert_ne by congruence.
Qed.

Lemma run_handler_grow (h : handler) (update : Update) (context : Context) :
  steps records_grow (run_handler E h update context).
Proof.
  apply (run_handler_steps E (fun _ => records_grow));
    auto using records_grow_passes, grow_update_user_stats, grow_get_user_prefs,
      grow_setitem, grow_reset.
Qed.

(** *** Temperatures stay in range *)

#[export] Instance keeps_temperatures_passes : Passes keeps_temperatures.
Proof.
  split.
  - intros w w' (Hp & _ & _) H u prefs. rewrite Hp. apply H.
  - intros w1 w2 w3 H12 H23 H. apply H23, H12, H.
Qed.

Lemma temps_update_user_stats user_id action :
  steps keeps_temperatures (update_user_stats E user_id action).
Proof. intros w H u prefs. rewrite update_user_stats_preferences. apply H. Qed.

Lemma default_temperature_in_range :
  temp_in_range (temperature DEFAULT_PREFERENCES) = true.
Proof. vm_compute. reflexivity. Qed.

Lemma temps_insert user_id prefs0 (w : World) st tk es :
  temp_in_range (temperature prefs0) = true ->
  temperatures_in_range w ->
  temperatures_in_range
    {| user_preferences := <[user_id := prefs0]> (user_preferences w);
       user_statistics := st; ticks := tk; sent := es |}.
Proof.
  intros H0 H u prefs. cbn. destruct (decide (u = user_id)) as [->|Hne].
  - rewrite lookup_insert_eq. now intros [= <-].
  - rewrite lookup_insert_ne by congruence. apply H.
Qed.

Lemma temps_get_user_prefs user_id : steps keeps_temperatures (get_user_prefs user_id).
Proof.
  intros w H. rewrite get_user_prefs_run. apply temps_insert; [|exact H].
  unfold current_prefs. destruct (user_preferences w !! user_id) as [p|] eqn:Hp; cbn.
  - exact (H _ _ Hp).
  - exact default_temperature_in_range.
Qed.

Lemma temps_alter user_id set :
  (forall prefs, temp_in_range (temperature prefs) = true ->
                 temp_in_range (temperature (set prefs)) = true) ->
  steps keeps_temperatures (prefs_setitem user_id set).
Proof.
  intros Hset w H u prefs. cbn. destruct (decide (u = user_id)) as [->|Hne].
  - rewrite lookup_alter_eq. destruct (user_preferences w !! user_id) as [p|] eqn:Hp; cbn.
    + intros [= <-]. apply Hset. exact (H _ _ Hp).
    + discriminate.
  - rewrite lookup_alter_ne by congruence. apply H.
Qed.

Lemma temps_setitem user_id set :
  keeps_temperature set -> steps keeps_temperatures (prefs_setitem user_id set).
Proof. intros Hset. apply temps_alter. intros prefs. now rewrite Hset. Qed.

Lemma temps_set_temperature user_id temp :
  temp_in_range temp = true ->
  steps keeps_temperatures (prefs_setitem user_id (set_temperature (PyFloat.round1 temp))).
Proof. intros Ht. apply temps_alter. intros prefs _. cbn. now apply round1_in_range. Qed.

Lemma temps_reset user_id :
  steps keeps_temperatures (with_preferences (insert user_id DEFAULT_PREFERENCES)).
Proof. intros w H. apply temps_insert; [exact default_temperature_in_range|exact H]. Qed.

Lemma run_handler_temperatures (h : handler) (update : Update) (context : Context) :
  steps keeps_temperatures (run_handler E h update context).
Proof.
  apply (run_handler_steps E (fun _ => keeps_temperatures));
    auto using keeps_temperatures_passes, temps_update_user_stats, temps_get_user_prefs,
      temps_setitem, temps_set_temperature, temps_reset.
Qed.

(** *** With statistics off, the statistics stay as they are *)

#[export] Instance same_statistics_passes : Passes same_statistics.
Proof.
  split.
  - intros w w' (_ & Hs & Ht). now split.
  - intros w1 w2 w3 [S12 T12] [S23 T23]. split; congruence.
Qed.

Lemma run_handler_statistics_off (h : handler) (update : Update) (context : Context) :
  ENABLE_STATS (config E) = false ->
  steps same_statistics (run_handler E h update context).
Proof.
  intros Hoff.
  apply (run_handler_steps E (fun _ => same_statistics)).
  - intros _. apply same_statistics_passes.
  - intros user_id action w. now rewrite update_user_stats_disabled.
  - intros user_id w. rewrite get_user_prefs_run. now split.
  - intros user_id set _ w. now split.
  - intros user_id temp _ w. now split.
  - intros user_id w. now split.
Qed.

End StoreChanges.

(** ** Invariants of the running bot *)

Section Invariants.

Context (E : Env).

Lemma serve_steps (R : World -> World -> Prop) `{Passes R}
    (updates : list (handler * Update * Context)) :
  Forall (fun hu => steps R (run_handler E (fst (fst hu)) (snd (fst hu)) (snd hu))) updates ->
  forall w, R w (serve E updates w).
Proof.
  induction 1 as [|[[h update] context] rest Hstep _ IH]; intros w; cbn [serve].
  - now apply passes_refl.
  - eapply passes_trans; [apply Hstep|apply IH].
Qed.

(** X1. Every temperature in the preference store passes the test
    [0.1 <= temp <= 1.0] after any run of updates, if every one did
    before: the only assignments to a temperature are the rounded
    accepted value of [temp_command] and the default 0.3. *)
Theorem stored_temperatures_stay_in_range
    (updates : list (handler * Update * Context)) (w : World) :
  temperatures_in_range w -> temperatures_in_range (serve E updates w).
Proof.
  apply (serve_steps keeps_temperatures).
  apply Forall_forall. intros [[h update] context] _. apply run_handler_temperatures.
Qed.

(** X2. Updates that come from other callers never change, create or
    remove the preference record or the statistics record of a caller. *)
Theorem other_callers_change_nothing
    (updates : list (handler * Update * Context)) (w : World) (user_id : Z) :
  Forall (fun hu => effective_user_id (snd (fst hu)) <> user_id) updates ->
  user_preferences (serve E updates w) !! user_id = user_preferences w !! user_id
  /\ user_statistics (serve E updates w) !! user_id = user_statistics w !! user_id.
Proof.
  intros Hothers. revert w.
  induction Hothers as [|[[h update] context] rest Hne _ IH]; intros w; cbn [serve].
  - now split.
  - destruct (IH (snd (run_handler E h update context w))) as [-> ->].
    cbn [fst snd] in Hne.
    exact (run_handler_others E h update context w user_id (not_eq_sym Hne)).
Qed.

(** X3. No run of updates removes a record from either store, lowers a
    translation or command counter, or changes a caller's first use. *)
Theorem records_stay_and_counters_grow
    (updates : list (handler * Update * Context)) (w : World) :
  statistics_grow w (serve E updates w) /\ preferences_kept w (serve E updates w).
Proof.
  apply (serve_steps records_grow).
  apply Forall_forall. intros [[h update] context] _. apply run_handler_grow.
Qed.

(** X4. With [ENABLE_STATS] off no run of updates creates or changes a
    statistics record, and the clock is never read. *)
Theorem statistics_off_records_nothing
    (updates : list (handler * Update * Context)) (w : World) :
  ENABLE_STATS (config E) = false ->
  user_statistics (serve E updates w) = user_statistics w
  /\ ticks (serve E updates w) = ticks w.
Proof.
  intros Hoff. apply (serve_steps same_statistics).
  apply Forall_forall. intros [[h update] context] _.
  now apply run_handler_statistics_off.
Qed.

End Invariants.

(** ** Start-up check *)

Lemma join_nonempty (sep : str) (p : str) (ps : list str) :
  p <> [] -> join sep (p :: ps) <> [].
Proof. destruct ps, p; cbn; congruence. Qed.

(** X5. [Config.validate] accepts exactly when the token contains a
    colon and the API key is a non-empty string: the prefix test on the
    token lets every token through, since every string starts with the
    empty string.  When it refuses, the message is not empty. *)
Theorem validate_accepts_iff (c : Secrets) :
  fst (validate c)
  = contains 58%N (default [] (TELEGRAM_TOKEN c)) && truthy (ZAI_API_KEY c)
  /\ (fst (validate c) = false -> snd (validate c) <> []).
Proof.
  unfold validate.
  destruct (TELEGRAM_TOKEN c) as [[|t0 token]|], (ZAI_API_KEY c) as [[|k0 key]|];
    cbv beta iota zeta delta [truthy negb default from_option id].
  all: try change (startswith (lit "") (t0 :: token)) with true.
  all: rewrite ?orb_true_r.
  all: try destruct (contains 58%N (t0 :: token)).
  all: cbv beta iota zeta delta [negb orb andb app fst snd].
  all: try change (contains 58%N []) with false.
  all: cbv beta iota zeta delta [negb orb andb app fst snd].
  all: split; [reflexivity|]; try discriminate; intros _; vm_compute; discriminate.
Qed.

(** ** Buttons *)

Section Buttons.

Context (E : Env).

(** The branch [style_<key>] of [button_callback] on a catalog key. *)
Lemma button_callback_style_run
    (update : Update) (context : Context) (w : World) (data : str)
    (style_info : Style.t) :
  callback_query_data update = Some data ->
  startswith (lit "style_") data = true ->
  data <> lit "style_info" ->
  let style_key := replace data (lit "style_") (lit "") in
  let user_id := effective_user_id update in
  dict_get TRANSLATION_STYLES style_key = Some style_info ->
  button_callback E update context w =
    (Return tt,
     {| user_preferences :=
          <[user_id := set_style style_key (current_prefs w user_id)]> (user_preferences w);
        user_statistics := user_statistics w;
        ticks := ticks w;
        sent :=
          sent w
          ++ [ answer None;
               edit_message_text
                 (lit "✅ Đã chọn phong cách: *" ++ Style.name style_info ++ lit "*\n\n"
                  ++ lit "_" ++ Style.description style_info ++ lit "_") ] |}).
Proof.
  intros Hdata Hprefix Hinfo style_key user_id Hkey.
  unfold button_callback, query_data. rewrite Hdata.
  erewrite bind_Return by reflexivity.
  erewrite bind_Return by reflexivity.
  rewrite Hprefix.
  destruct (decide (data = lit "style_info")) as [Heq|_]; [contradiction|].
  rewrite (bind_Return _ _ _ _ _ (get_user_prefs_run _ _)).
  unfold prefs_setitem, with_preferences at 1.
  erewrite bind_Return by reflexivity.
  fold style_key.
  erewrite bind_Return by (apply getitem_Some; exact Hkey).
  erewrite bind_Return by (apply getitem_Some; exact Hkey).
  unfold emit, current_prefs; cbn [user_preferences user_statistics ticks sent].
  fold user_id. rewrite alter_insert_eq, <- app_assoc. reflexivity.
Qed.

(** X6. A button [style_<key>] with a catalog key stores the key as the
    caller's style and confirms with the style's name and description;
    nothing else in the record changes, and in particular the stored
    temperature stays as it was, whatever temperature the catalog lists
    for the style. *)
Theorem button_callback_selects_style
    (update : Update) (context : Context) (w : World) (data : str)
    (style_info : Style.t) :
  callback_query_data update = Some data ->
  startswith (lit "style_") data = true ->
  data <> lit "style_info" ->
  let style_key := replace data (lit "style_") (lit "") in
  let user_id := effective_user_id update in
  dict_get TRANSLATION_STYLES style_key = Some style_info ->
  button_callback E update context w =
    (Return tt,
     {| user_preferences :=
          <[user_id := set_style style_key (current_prefs w user_id)]> (user_preferences w);
        user_statistics := user_statistics w;
        ticks := ticks w;
        sent :=
          sent w
          ++ [ answer None;
               edit_message_text
                 (lit "✅ Đã chọn phong cách: *" ++ Style.name style_info ++ lit "*\n\n"
                  ++ lit "_" ++ Style.description style_info ++ lit "_") ] |})
  /\ temperature (set_style style_key (current_prefs w user_id))
     = temperature (current_prefs w user_id).
Proof.
  intros Hdata Hprefix Hinfo style_key user_id Hkey. split; [|reflexivity].
  now apply button_callback_style_run.
Qed.

(** The branch [lang_<code>] of [button_callback]. *)
Lemma button_callback_language_run
    (update : Update) (context : Context) (w : World) (data : str) :
  callback_query_data update = Some data ->
  startswith (lit "style_") data = false ->
  startswith (lit "lang_") data = true ->
  let lang := replace data (lit "lang_") (lit "") in
  let user_id := effective_user_id update in
  button_callback E update context w =
    (match dict_get SUPPORTED_LANGUAGES lang with
     | Some _ => Return tt
     | None => Raise (KeyError lang)
     end,
     {| user_preferences :=
          <[user_id := set_target_language lang (current_prefs w user_id)]>
            (user_preferences w);
        user_statistics := user_statistics w;
        ticks := ticks w;
        sent :=
          sent w
          ++ answer None
             :: match dict_get SUPPORTED_LANGUAGES lang with
                | Some lang_name =>
                    [ edit_message_text
                        (lit "✅ Đã chọn ngôn ngữ đích: *" ++ lang_name ++ lit "*") ]
                | None => []
                end |}).
Proof.
  intros Hdata Hstyle Hlang lang user_id.
  unfold button_callback, query_data. rewrite Hdata.
  erewrite bind_Return by reflexivity.
  erewrite bind_Return by reflexivity.
  rewrite Hstyle, Hlang.
  rewrite (bind_Return _ _ _ _ _ (get_user_prefs_run _ _)).
  unfold prefs_setitem, with_preferences at 1.
  erewrite bind_Return by reflexivity.
  fold lang.
  destruct (dict_get SUPPORTED_LANGUAGES lang) as [lang_name|] eqn:Hl.
  - erewrite bind_Return by (apply getitem_Some; exact Hl).
    unfold emit, current_prefs; cbn [user_preferences user_statistics ticks sent].
    fold user_id. rewrite alter_insert_eq, <- app_assoc. reflexivity.
  - erewrite bind_Raise by (apply getitem_None; exact Hl).
    unfold current_prefs; cbn [user_preferences user_statistics ticks sent].
    fold user_id. rewrite alter_insert_eq. reflexivity.
Qed.

(** X7. The branch [lang_] takes as code the callback data with every
    occurrence of [lang_] deleted; for data [lang_<code>] with no [lang_]
    inside the code, that is the code.  It stores this code as the
    caller's target language before looking it up: when it is a catalog
    code the confirmation naming the language follows, when it is not
    the handler stops with [KeyError] and the code stays stored. *)
Theorem button_callback_selects_language
    (update : Update) (context : Context) (w : World) (data : str) :
  callback_query_data update = Some data ->
  startswith (lit "style_") data = false ->
  startswith (lit "lang_") data = true ->
  let lang := replace data (lit "lang_") (lit "") in
  let user_id := effective_user_id update in
  button_callback E update context w =
    (match dict_get SUPPORTED_LANGUAGES lang with
     | Some _ => Return tt
     | None => Raise (KeyError lang)
     end,
     {| user_preferences :=
          <[user_id := set_target_language lang (current_prefs w user_id)]>
            (user_preferences w);
        user_statistics := user_statistics w;
        ticks := ticks w;
        sent :=
          sent w
          ++ answer None
             :: match dict_get SUPPORTED_LANGUAGES lang with
                | Some lang_name =>
                    [ edit_message_text
                        (lit "✅ Đã chọn ngôn ngữ đích: *" ++ lang_name ++ lit "*") ]
                | None => []
                end |})
  /\ (forall code : str,
        data = lit "lang_" ++ code -> occurs (lit "lang_") code = false ->
        lang = code).
Proof.
  intros Hdata Hstyle Hlang lang user_id.
  split; [now apply button_callback_language_run|].
  intros code -> Habsent. unfold lang.
  apply replace_prefix; [|exact Habsent]. vm_compute. discriminate.
Qed.

(** X8. The button [reset_settings] puts the default record in place of
    the caller's and confirms; unlike the command [/reset] it records
    nothing in the statistics. *)
Theorem button_callback_resets
    (update : Update) (context : Context) (w : World) :
  callback_query_data update = Some (lit "reset_settings") ->
  let user_id := effective_user_id update in
  button_callback E update context w =
    (Return tt,
     {| user_preferences := <[user_id := DEFAULT_PREFERENCES]> (user_preferences w);
        user_statistics := user_statistics w;
        ticks := ticks w;
        sent :=
          sent w
          ++ [ answer None; edit_message_text (lit "🔄 *Đã đặt lại cài đặt mặc định!*") ] |}).
Proof.
  intros Hdata user_id.
  unfold button_callback, query_data. rewrite Hdata.
  erewrite bind_Return by reflexivity.
  erewrite bind_Return by reflexivity.
  replace (startswith (lit "style_") (lit "reset_settings")) with false
    by (vm_compute; reflexivity).
  replace (startswith (lit "lang_") (lit "reset_settings")) with false
    by (vm_compute; reflexivity).
  rewrite !decide_False by (vm_compute; discriminate).
  rewrite decide_True by reflexivity.
  unfold with_preferences at 1.
  erewrite bind_Return by reflexivity.
  unfold emit; cbn [user_preferences user_statistics ticks sent].
  now rewrite <- app_assoc.
Qed.

End Buttons.

(** ** Toggles and menus *)

Section Toggles.

Context (E : Env).

Lemma message_reply_text_None (update : Update) text markup w :
  message_text update = None ->
  message_reply_text update text markup w = (Raise AttributeError, w).
Proof. intros H. unfold message_reply_text. now rewrite H. Qed.

Lemma message_reply_text_Some (update : Update) text markup w user_text :
  message_text update = Some user_text ->
  message_reply_text update text markup w = emit (reply_text text markup) w.
Proof. intros H. unfold message_reply_text. now rewrite H. Qed.

(** [settings_command] leaves the caller's record as [get_user_prefs]
    finds it. *)
Lemma settings_command_preferences (update : Update) (context : Context) (w : World) :
  user_preferences (snd (settings_command E update context w))
  = <[effective_user_id update := current_prefs w (effective_user_id update)]>
      (user_preferences w).
Proof.
  unfold settings_command. cbv zeta.
  destruct (update_user_stats_frame E (effective_user_id update) (lit "command") w)
    as (st & tk & Hs).
  rewrite (bind_Return _ _ _ _ _ Hs).
  rewrite (bind_Return _ _ _ _ _ (get_user_prefs_run _ _)).
  unfold getitem. destruct (dict_get TRANSLATION_STYLES _) as [style_info|].
  - erewrite bind_Return by reflexivity.
    unfold message_reply_text. destruct (message_text update); reflexivity.
  - reflexivity.
Qed.

(** A toggle button: the flag is flipped, the toast is sent, and
    [settings_command] takes over. *)
Lemma button_callback_toggle (update : Update) (context : Context) (w : World)
    (data : str) (flip : Prefs -> Prefs) :
  In (data, flip) toggles ->
  callback_query_data update = Some data ->
  exists toast,
    button_callback E update context w =
      settings_command E update context
        {| user_preferences :=
             <[effective_user_id update := flip (current_prefs w (effective_user_id update))]>
               (user_preferences w);
           user_statistics := user_statistics w;
           ticks := ticks w;
           sent := sent w ++ [answer None; answer (Some toast)] |}.
Proof.
  intros Hin Hdata.
  unfold button_callback, query_data. rewrite Hdata.
  erewrite bind_Return by reflexivity.
  erewrite bind_Return by reflexivity.
  cbn [toggles In] in Hin.
  destruct Hin as [[= <- <-]|[[= <- <-]|[[= <- <-]|[]]]].
  - replace (startswith (lit "style_") (lit "toggle_format")) with false
      by (vm_compute; reflexivity).
    replace (startswith (lit "lang_") (lit "toggle_format")) with false
      by (vm_compute; reflexivity).
    rewrite decide_True by reflexivity.
    rewrite (bind_Return _ _ _ _ _ (get_user_prefs_run _ _)).
    unfold prefs_setitem, with_preferences at 1.
    erewrite bind_Return by reflexivity.
    erewrite bind_Return by reflexivity.
    eexists. unfold emit; cbn [user_preferences user_statistics ticks sent].
    rewrite alter_insert_eq, <- app_assoc. reflexivity.
  - replace (startswith (lit "style_") (lit "toggle_notes")) with false
      by (vm_compute; reflexivity).
    replace (startswith (lit "lang_") (lit "toggle_notes")) with false
      by (vm_compute; reflexivity).
    rewrite decide_False by (vm_compute; discriminate).
    rewrite decide_True by reflexivity.
    rewrite (bind_Return _ _ _ _ _ (get_user_prefs_run _ _)).
    unfold prefs_setitem, with_preferences at 1.
    erewrite bind_Return by reflexivity.
    erewrite bind_Return by reflexivity.
    eexists. unfold emit; cbn [user_preferences user_statistics ticks sent].
    rewrite alter_insert_eq, <- app_assoc. reflexivity.
  - replace (startswith (lit "style_") (lit "toggle_original")) with false
      by (vm_compute; reflexivity).
    replace (startswith (lit "lang_") (lit "toggle_original")) with false
      by (vm_compute; reflexivity).
    rewrite !decide_False by (vm_compute; discriminate).
    rewrite decide_True by reflexivity.
    rewrite (bind_Return _ _ _ _ _ (get_user_prefs_run _ _)).
    unfold prefs_setitem, with_preferences at 1.
    erewrite bind_Return by reflexivity.
    erewrite bind_Return by reflexivity.
    eexists. unfold emit; cbn [user_preferences user_statistics ticks sent].
    rewrite alter_insert_eq, <- app_assoc. reflexivity.
Qed.

Lemma toggles_involutive (data : str) (flip : Prefs -> Prefs) (prefs : Prefs) :
  In (data, flip) toggles -> flip (flip prefs) = prefs.
Proof.
  cbn [toggles In].
  intros [[= <- <-]|[[= <- <-]|[[= <- <-]|[]]]]; destruct prefs as [? ? [] [] ? []]; reflexivity.
Qed.

(** X9. Each of the three toggle buttons flips its one flag in the
    caller's record and changes nothing else in the preference store,
    however the handler ends; pressed twice, it leaves the record as it
    was. *)
Theorem button_callback_toggles
    (update : Update) (context : Context) (w : World)
    (data : str) (flip : Prefs -> Prefs) :
  In (data, flip) toggles ->
  callback_query_data update = Some data ->
  let user_id := effective_user_id update in
  let w1 := snd (button_callback E update context w) in
  let w2 := snd (button_callback E update context w1) in
  user_preferences w1 = <[user_id := flip (current_prefs w user_id)]> (user_preferences w)
  /\ user_preferences w2 = <[user_id := current_prefs w user_id]> (user_preferences w).
Proof.
  intros Hin Hdata user_id.
  assert (Hone : forall w0,
             user_preferences (snd (button_callback E update context w0))
             = <[user_id := flip (current_prefs w0 user_id)]> (user_preferences w0)).
  { intros w0. destruct (button_callback_toggle update context w0 data flip Hin Hdata)
      as (toast & ->).
    rewrite settings_command_preferences. fold user_id.
    unfold current_prefs at 1; cbn [user_preferences].
    rewrite lookup_insert_eq. cbn. now rewrite insert_insert_eq. }
  cbv zeta. split; [apply Hone|].
  rewrite Hone. unfold current_prefs at 1. rewrite Hone, lookup_insert_eq. cbn.
  rewrite (toggles_involutive data flip _ Hin). now rewrite insert_insert_eq.
Qed.

(** Runs a command up to its reply on an update without message. *)
Ltac ends_without_message :=
  match goal with
  | Hmsg : message_text ?update = None
    |- context [mbind ?k (update_user_stats ?E0 ?u ?a) ?w0] =>
      let st := fresh "st" in
      let tk := fresh "tk" in
      let Hs := fresh "Hs" in
      destruct (update_user_stats_frame E0 u a w0) as (st & tk & Hs);
      rewrite (bind_Return _ _ _ _ _ Hs);
      try rewrite (bind_Return _ _ _ _ _ (get_user_prefs_run _ _));
      rewrite (message_reply_text_None update) by exact Hmsg;
      split; [reflexivity|];
      cbn [snd sent]; unfold texts_sent; rewrite omap_app; cbn; now rewrite app_nil_r
  end.

(** X10. On an update that carries no message, as a button press does,
    the toggle buttons and the menu buttons end in [AttributeError] at the
    reply of the command they hand over to: no menu and no settings text
    is sent.  (For the toggles the flag has been flipped by then, see
    X9; the stored style is taken to be a catalog key.) *)
Theorem button_callback_menus_do_not_arrive
    (update : Update) (context : Context) (w : World) (data : str) :
  message_text update = None ->
  callback_query_data update = Some data ->
  In data (map fst toggles ++ menu_buttons) ->
  is_Some (dict_get TRANSLATION_STYLES
             (style (current_prefs w (effective_user_id update)))) ->
  fst (button_callback E update context w) = Raise AttributeError
  /\ texts_sent (sent (snd (button_callback E update context w))) = texts_sent (sent w).
Proof.
  intros Hmsg Hdata Hin [style_info Hstyle].
  assert (Hsettings : forall w0,
             dict_get TRANSLATION_STYLES (style (current_prefs w0 (effective_user_id update)))
             = Some style_info ->
             fst (settings_command E update context w0) = Raise AttributeError
             /\ sent (snd (settings_command E update context w0)) = sent w0).
  { intros w0 Hst. unfold settings_command. cbv zeta.
    destruct (update_user_stats_frame E (effective_user_id update) (lit "command") w0)
      as (st & tk & Hs).
    rewrite (bind_Return _ _ _ _ _ Hs).
    rewrite (bind_Return _ _ _ _ _ (get_user_prefs_run _ _)).
    erewrite bind_Return by (apply getitem_Some; exact Hst).
    rewrite message_reply_text_None by exact Hmsg. now split. }
  apply in_app_or in Hin as [Hin|Hin].
  - apply in_map_iff in Hin as ([data' flip] & Heq & Hin). cbn in Heq. subst data'.
    destruct (button_callback_toggle update context w data flip Hin Hdata) as (toast & ->).
    match goal with |- context [settings_command E update context ?w0] =>
      destruct (Hsettings w0) as [-> ->] end.
    + unfold current_prefs; cbn [user_preferences]. rewrite lookup_insert_eq.
      cbn [default from_option id].
      cbn [toggles In] in Hin.
      destruct Hin as [[= <- <-]|[[= <- <-]|[[= <- <-]|[]]]]; exact Hstyle.
    + split; [reflexivity|]. cbn [sent].
      unfold texts_sent. rewrite omap_app. cbn. now rewrite app_nil_r.
  - unfold button_callback, query_data. rewrite Hdata.
    erewrite bind_Return by reflexivity.
    erewrite bind_Return by reflexivity.
    cbn [menu_buttons In] in Hin.
    destruct Hin as [<-|[<-|[<-|[]]]].
    + replace (startswith (lit "style_") (lit "menu_style")) with false
        by (vm_compute; reflexivity).
      replace (startswith (lit "lang_") (lit "menu_style")) with false
        by (vm_compute; reflexivity).
      rewrite !decide_False by (vm_compute; discriminate).
      rewrite decide_True by reflexivity.
      unfold style_command. cbv zeta. ends_without_message.
    + replace (startswith (lit "style_") (lit "menu_language")) with false
        by (vm_compute; reflexivity).
      replace (startswith (lit "lang_") (lit "menu_language")) with false
        by (vm_compute; reflexivity).
      rewrite !decide_False by (vm_compute; discriminate).
      rewrite decide_True by reflexivity.
      unfold language_command. cbv zeta. ends_without_message.
    + replace (startswith (lit "style_") (lit "menu_help")) with false
        by (vm_compute; reflexivity).
      replace (startswith (lit "lang_") (lit "menu_help")) with false
        by (vm_compute; reflexivity).
      rewrite !decide_False by (vm_compute; discriminate).
      rewrite decide_True by reflexivity.
      unfold help_command. ends_without_message.
Qed.

End Toggles.

(** ** Text messages, further cases *)

Section Messages.

Context (E : Env).

(** X11. A text within the limit, a stored style and language the
    catalogs know, and a completion service that answers: the handler
    sends the processing message and the typing action, makes its one
    call, deletes the processing message and replies with what
    [format_response] makes of the answer, and returns normally. *)
Theorem handle_message_translates
    (client : CompletionRequest -> str + str)
    (update : Update) (context : Context) (w : World)
    (user_text translated : str) (style_info : Style.t) (lang_name : str) :
  zai_client E = Some client ->
  message_text update = Some user_text ->
  (Z.of_nat (length user_text) <= MAX_MESSAGE_LENGTH (config E))%Z ->
  let user_id := effective_user_id update in
  let prefs := current_prefs w user_id in
  dict_get TRANSLATION_STYLES (style prefs) = Some style_info ->
  dict_get SUPPORTED_LANGUAGES (target_language prefs) = Some lang_name ->
  let request := completion_request E style_info prefs (build_prompt prefs lang_name user_text) in
  client request = inl translated ->
  exists response w',
    fst (format_response user_id user_text translated true w) = Return response
    /\ handle_message E update context w = (Return tt, w')
    /\ sent w' =
         sent w
         ++ [ reply_text (lit "🔄 *Đang dịch...*") None;
              send_chat_action;
              completions_create request;
              delete_processing_msg;
              reply_text response None ]
    /\ user_preferences w' = <[user_id := prefs]> (user_preferences w).
Proof.
  intros Hclient Hmsg Hlen user_id prefs Hstyle Hlang request Hok.
  destruct (style_name_split _ _ Hstyle) as (style_emoji & rest1 & Hs).
  destruct (language_name_split _ _ Hlang) as (lang_emoji & rest2 & Hl).
  destruct (handle_message_accepted E update context w user_text Hmsg Hlen)
    as (st & tk & Haccepted).
  eexists. eexists.
  split.
  { rewrite (format_response_run user_id user_text translated true w
               _ _ _ _ _ _ Hstyle Hlang Hs Hl). reflexivity. }
  rewrite Haccepted.
  set (w1 := {| user_preferences := user_preferences w; user_statistics := st;
                ticks := tk; sent := sent w |}).
  rewrite (translate_and_reply_steps E client update user_text w1 style_info
             Hclient Hmsg Hstyle).
  change (current_prefs w1 (effective_user_id update)) with prefs.
  fold user_id. subst w1.
  cbn [user_preferences user_statistics ticks sent].
  rewrite Hlang. cbn [default from_option id]. fold request. rewrite Hok.
  erewrite bind_Return by reflexivity. cbv beta iota.
  erewrite (bind_Return (format_response _ _ _ _)).
  2:{ apply format_response_run
        with (style_info := style_info) (lang_name := lang_name)
             (style_emoji := style_emoji) (rest1 := rest1)
             (lang_emoji := lang_emoji) (rest2 := rest2);
        try assumption;
        unfold current_prefs; cbn [user_preferences]; rewrite lookup_insert_eq;
        assumption. }
  erewrite bind_Return by reflexivity.
  unfold message_reply_text. rewrite Hmsg.
  pose proof (current_prefs_stored w user_id) as Hstored. fold prefs in Hstored.
  unfold prefs_stored, emit. cbn [user_preferences user_statistics ticks sent snd].
  rewrite !Hstored.
  split; [reflexivity|].
  cbn [sent user_preferences].
  split; [now rewrite <- !app_assoc|].
  now rewrite insert_insert_eq.
Qed.

Lemma texts_sent_app es es' : texts_sent (es ++ es') = texts_sent es ++ texts_sent es'.
Proof. unfold texts_sent. apply omap_app. Qed.

Lemma translate_text_unknown_style
    (client : CompletionRequest -> str + str) (text : str) (user_id : Z) (w : World) :
  zai_client E = Some client ->
  dict_get TRANSLATION_STYLES (style (current_prefs w user_id)) = None ->
  translate_text E text user_id w
  = (Raise (KeyError (style (current_prefs w user_id))), prefs_stored w user_id).
Proof.
  intros Hclient Hstyle. unfold translate_text. rewrite Hclient.
  rewrite (bind_Return _ _ _ _ _ (get_user_prefs_run _ _)).
  erewrite bind_Raise; [reflexivity|].
  apply getitem_None. exact Hstyle.
Qed.

Lemma translate_text_no_client (text : str) (user_id : Z) (w : World) :
  zai_client E = None ->
  translate_text E text user_id w
  = (Return (lit "❌ Z.AI client chưa được khởi tạo. Kiểm tra API key!", false), w).
Proof. intros Hclient. unfold translate_text. now rewrite Hclient. Qed.

(** X12. A caller whose stored style is not a catalog key gets no
    translation and no reply: the handler stops with [KeyError] on that
    style at the first catalog lookup it reaches, which is the one of
    [translate_text] when a client is there and its own otherwise.  All
    it has done by then is to send the processing message and the typing
    action: no call of the completion service, no deletion of the
    processing message, no answer. *)
Theorem handle_message_unknown_style
    (update : Update) (context : Context) (w : World) (user_text : str) :
  message_text update = Some user_text ->
  (Z.of_nat (length user_text) <= MAX_MESSAGE_LENGTH (config E))%Z ->
  let user_id := effective_user_id update in
  let prefs := current_prefs w user_id in
  dict_get TRANSLATION_STYLES (style prefs) = None ->
  let w' := snd (handle_message E update context w) in
  fst (handle_message E update context w) = Raise (KeyError (style prefs))
  /\ sent w' =
       sent w ++ [ reply_text (lit "🔄 *Đang dịch...*") None; send_chat_action ].
Proof.
  intros Hmsg Hlen user_id prefs Hstyle. cbv zeta.
  destruct (handle_message_accepted E update context w user_text Hmsg Hlen)
    as (st & tk & ->).
  unfold translate_and_reply.
  erewrite bind_Return by (unfold message_reply_text; rewrite Hmsg; reflexivity).
  erewrite bind_Return by reflexivity.
  fold user_id.
  destruct (zai_client E) as [client|] eqn:Hclient.
  - erewrite (bind_Raise (translate_text E user_text user_id)).
    2:{ apply (translate_text_unknown_style client); [exact Hclient|exact Hstyle]. }
    cbn [fst snd sent emit prefs_stored].
    split; [reflexivity|]. now rewrite <- !app_assoc.
  - erewrite (bind_Return (translate_text E user_text user_id))
      by (apply translate_text_no_client; exact Hclient).
    cbv beta iota.
    erewrite (bind_Raise (format_response _ _ _ _)).
    2:{ apply format_response_unknown_style. exact Hstyle. }
    cbn [fst snd sent emit prefs_stored].
    split; [reflexivity|]. now rewrite <- !app_assoc.
Qed.

(** X13. Without an initialised client no call is made: the handler
    replies with the fixed notice in place of a translation and returns
    normally (stored style and language being catalog keys). *)
Theorem handle_message_without_client
    (update : Update) (context : Context) (w : World) (user_text : str) :
  zai_client E = None ->
  message_text update = Some user_text ->
  (Z.of_nat (length user_text) <= MAX_MESSAGE_LENGTH (config E))%Z ->
  let user_id := effective_user_id update in
  let prefs := current_prefs w user_id in
  is_Some (dict_get TRANSLATION_STYLES (style prefs)) ->
  is_Some (dict_get SUPPORTED_LANGUAGES (target_language prefs)) ->
  exists w',
    handle_message E update context w = (Return tt, w')
    /\ sent w' =
         sent w
         ++ [ reply_text (lit "🔄 *Đang dịch...*") None;
              send_chat_action;
              delete_processing_msg;
              reply_text (lit "❌ Z.AI client chưa được khởi tạo. Kiểm tra API key!") None ].
Proof.
  intros Hclient Hmsg Hlen user_id prefs [style_info Hstyle] [lang_name Hlang].
  destruct (style_name_split _ _ Hstyle) as (style_emoji & rest1 & Hs).
  destruct (language_name_split _ _ Hlang) as (lang_emoji & rest2 & Hl).
  destruct (handle_message_accepted E update context w user_text Hmsg Hlen)
    as (st & tk & ->).
  unfold translate_and_reply.
  erewrite bind_Return by (unfold message_reply_text; rewrite Hmsg; reflexivity).
  erewrite bind_Return by reflexivity.
  fold user_id.
  erewrite (bind_Return (translate_text E user_text user_id))
    by (apply translate_text_no_client; exact Hclient).
  cbv beta iota.
  erewrite (bind_Return (format_response _ _ _ _)).
  2:{ apply format_response_run
        with (style_info := style_info) (lang_name := lang_name)
             (style_emoji := style_emoji) (rest1 := rest1)
             (lang_emoji := lang_emoji) (rest2 := rest2);
        assumption. }
  erewrite bind_Return by reflexivity.
  unfold message_reply_text. rewrite Hmsg.
  eexists. split; [reflexivity|].
  cbn [sent prefs_stored emit snd]. now rewrite <- !app_assoc.
Qed.

End Messages.

(** ** Commands *)

Section Commands.

Context (E : Env).

(** X14. [temp_command] changes no caller's preferences unless it is
    given a number that passes the range test: without an argument, with
    an argument that is not a number and with a number out of range, every
    caller's record reads as before. *)
Theorem temp_command_changes_only_when_accepted
    (update : Update) (context : Context) (w : World) :
  (forall arg0 rest temp,
      args context = arg0 :: rest ->
      float_of_str E arg0 = Some temp ->
      temp_in_range temp = false) ->
  forall u : Z,
    current_prefs (snd (temp_command E update context w)) u = current_prefs w u.
Proof.
  intros Hrejected u. unfold temp_command. cbv zeta.
  destruct (update_user_stats_frame E (effective_user_id update) (lit "command") w)
    as (st & tk & Hs).
  rewrite (bind_Return _ _ _ _ _ Hs).
  destruct (args context) as [|arg0 rest] eqn:Hargs.
  - rewrite (bind_Return _ _ _ _ _ (get_user_prefs_run _ _)).
    assert (Hsame : current_prefs
                      {| user_preferences :=
                           <[effective_user_id update :=
                               current_prefs w (effective_user_id update)]>
                             (user_preferences w);
                         user_statistics := st; ticks := tk; sent := sent w |} u
                    = current_prefs w u).
    { unfold current_prefs at 1. cbn [user_preferences].
      destruct (decide (u = effective_user_id update)) as [->|Hne].
      - now rewrite lookup_insert_eq.
      - now rewrite lookup_insert_ne by congruence. }
    unfold message_reply_text, current_prefs at 1.
    destruct (message_text update); cbn [snd emit raise user_preferences];
      exact Hsame.
  - destruct (float_of_str E arg0) as [temp|] eqn:Hfloat.
    + rewrite (Hrejected arg0 rest temp eq_refl Hfloat).
      unfold message_reply_text. destruct (message_text update); reflexivity.
    + unfold message_reply_text. destruct (message_text update); reflexivity.
Qed.

(** What [update_user_stats(user_id, 'command')] does when statistics
    are on. *)
Lemma update_user_stats_command user_id w :
  ENABLE_STATS (config E) = true ->
  exists w1 s1,
    update_user_stats E user_id (lit "command") w = (Return tt, w1)
    /\ user_preferences w1 = user_preferences w
    /\ sent w1 = sent w
    /\ user_statistics w1 !! user_id = Some s1
    /\ commands s1 = (commands_of w user_id + 1)%Z
    /\ translations s1 = translations_of w user_id.
Proof.
  intros Hon. unfold update_user_stats, commands_of, translations_of. rewrite Hon.
  cbn [negb].
  rewrite decide_False by (vm_compute; discriminate).
  rewrite decide_True by reflexivity.
  unfold mbind, M_bind, in_user_statistics, datetime_now, with_statistics, mret, M_ret.
  cbn [fst snd user_preferences user_statistics ticks sent].
  destruct (user_statistics w !! user_id) as [s|] eqn:Hs.
  - rewrite bool_decide_eq_true_2 by eauto.
    cbn [fst snd user_preferences user_statistics ticks sent].
    eexists _, _. split; [reflexivity|].
    cbn [user_preferences user_statistics ticks sent].
    split; [reflexivity|]. split; [reflexivity|].
    split; [rewrite !lookup_alter_eq, Hs; reflexivity|].
    split; reflexivity.
  - rewrite bool_decide_eq_false_2 by (intros [? ?]; discriminate).
    cbn [fst snd user_preferences user_statistics ticks sent].
    eexists _, _. split; [reflexivity|].
    cbn [user_preferences user_statistics ticks sent].
    split; [reflexivity|]. split; [reflexivity|].
    split; [rewrite !lookup_alter_eq, lookup_insert_eq; reflexivity|].
    split; reflexivity.
Qed.

(** X15. [stats_command] with statistics on always has a record to
    show, since it counts itself first: what it sends is the statistics
    text, in which the number of commands is one more than the caller had
    before and the number of translations is the caller's own, and never
    the notice that there are no statistics yet.  With statistics off it
    sends the notice that they are disabled and records nothing.  (The
    update carries a message and the stored style is a catalog key.) *)
Theorem stats_command_counts_itself
    (update : Update) (context : Context) (w : World)
    (user_text : str) (style_info : Style.t) :
  message_text update = Some user_text ->
  let user_id := effective_user_id update in
  let prefs := current_prefs w user_id in
  dict_get TRANSLATION_STYLES (style prefs) = Some style_info ->
  let lang_name :=
    default (lit "Unknown") (dict_get SUPPORTED_LANGUAGES (target_language prefs)) in
  if ENABLE_STATS (config E) then
    exists s1 w',
      stats_command E update context w = (Return tt, w')
      /\ user_statistics w' !! user_id = Some s1
      /\ commands s1 = (commands_of w user_id + 1)%Z
      /\ translations s1 = translations_of w user_id
      /\ sent w' =
           sent w
           ++ [ reply_text
                  (lit "📊 *THỐNG KÊ SỬ DỤNG CỦA BẠN*\n"
                   ++ lit "━━━━━━━━━━━━━━━━━━━━\n\n"
                   ++ lit "📝 *Số lần dịch:* "
                   ++ str_of_int (translations_of w user_id) ++ lit "\n"
                   ++ lit "⚡ *Lệnh đã dùng:* "
                   ++ str_of_int (commands_of w user_id + 1) ++ lit "\n"
                   ++ lit "🎨 *Phong cách hiện tại:* " ++ Style.name style_info ++ lit "\n"
                   ++ lit "🌍 *Ngôn ngữ đích:* " ++ lang_name ++ lit "\n"
                   ++ lit "📅 *Lần đầu sử dụng:* " ++ take 10 (first_use s1) ++ lit "\n"
                   ++ lit "🕒 *Lần cuối sử dụng:* " ++ take 10 (last_use s1) ++ lit "\n\n"
                   ++ lit "_Cảm ơn bạn đã sử dụng bot!_")
                  None ]
      /\ last (sent w')
         <> Some (reply_text (lit "📊 Bạn chưa có thống kê nào. Hãy bắt đầu dịch!") None)
  else
    stats_command E update context w =
      (Return tt,
       {| user_preferences := user_preferences w;
          user_statistics := user_statistics w;
          ticks := ticks w;
          sent := sent w ++ [ reply_text (lit "📊 Thống kê đã bị tắt bởi admin.") None ] |}).
Proof.
  intros Hmsg user_id prefs Hstyle lang_name.
  destruct (ENABLE_STATS (config E)) eqn:Hon.
  - destruct (update_user_stats_command user_id w Hon)
      as (w1 & s1 & Hrun & Hprefs & Hsent & Hs1 & Hcmd & Htr).
    exists s1. unfold stats_command. cbv zeta. fold user_id.
    rewrite (bind_Return _ _ _ _ _ Hrun), Hon. cbn [negb].
    unfold in_user_statistics at 1.
    erewrite bind_Return by reflexivity.
    rewrite bool_decide_eq_true_2 by eauto. cbn [negb].
    erewrite bind_Return by (unfold statistics_getitem; rewrite Hs1; reflexivity).
    rewrite (bind_Return _ _ _ _ _ (get_user_prefs_run _ _)).
    assert (Hcp : current_prefs w1 user_id = prefs)
      by (unfold prefs, current_prefs; now rewrite Hprefs).
    rewrite Hcp.
    erewrite bind_Return by (apply getitem_Some; exact Hstyle).
    fold lang_name.
    rewrite (message_reply_text_Some update _ _ _ user_text Hmsg).
    eexists. split; [reflexivity|].
    cbn [user_statistics sent emit snd]. rewrite Hsent.
    split; [exact Hs1|]. split; [exact Hcmd|]. split; [exact Htr|].
    unfold stats_text. rewrite Hcmd, Htr.
    split; [reflexivity|].
    rewrite last_snoc. intros Heq.
    apply (f_equal (fun e => match e with
                             | Some (reply_text text _) => take 3 text
                             | _ => []
                             end)) in Heq.
    vm_compute in Heq. discriminate Heq.
  - unfold stats_command. cbv zeta. fold user_id.
    rewrite (bind_Return _ _ _ _ _ (update_user_stats_disabled E user_id _ w Hon)), Hon.
    cbn [negb].
    now rewrite (message_reply_text_Some update _ _ _ user_text Hmsg).
Qed.

End Commands.

(** ** Counting commands *)

Section CountingCommands.

Context (E : Env).

Lemma statistics_get_user_prefs user_id : steps same_statistics (get_user_prefs user_id).
Proof. intros w. rewrite get_user_prefs_run. now split. Qed.

Lemma statistics_with_preferences f : steps same_statistics (with_preferences f).
Proof. intros w. now split. Qed.

Lemma statistics_prefs_setitem user_id set :
  steps same_statistics (prefs_setitem user_id set).
Proof. intros w. now split. Qed.

#[local] Hint Resolve statistics_get_user_prefs statistics_with_preferences
  statistics_prefs_setitem : steps.
#[local] Hint Extern 1 (steps same_statistics _) =>
  (apply steps_same; [apply same_statistics_passes|]) : steps.

(** What follows the counting in a command leaves the statistics alone. *)
Ltac rest_keeps_statistics :=
  repeat first
    [ solve [eauto with steps]
    | apply (steps_bind same_statistics); [|intros ?]
    | match goal with
      | |- steps _ (match ?x with _ => _ end) => destruct x eqn:?
      | |- steps _ (if ?b then _ else _) => destruct b eqn:?
      end ].

(** X16. With statistics on, every command handler adds exactly one to
    the caller's command count and nothing to the translation count,
    also when it goes on to fail. *)
Theorem every_command_is_counted_once
    (h : handler) (update : Update) (context : Context) (w : World) :
  is_command h = true ->
  ENABLE_STATS (config E) = true ->
  let user_id := effective_user_id update in
  let w' := snd (run_handler E h update context w) in
  commands_of w' user_id = (commands_of w user_id + 1)%Z
  /\ translations_of w' user_id = translations_of w user_id.
Proof.
  intros Hcommand Hon user_id. cbv zeta.
  destruct (update_user_stats_command E user_id w Hon)
    as (w1 & s1 & Hrun & _ & _ & Hs1 & Hcmd & Htr).
  assert (Hcounted : commands_of w1 user_id = (commands_of w user_id + 1)%Z
                     /\ translations_of w1 user_id = translations_of w user_id).
  { unfold commands_of at 1, translations_of at 1. rewrite Hs1. now split. }
  assert (Hrest : forall rest : M unit,
             steps same_statistics rest ->
             commands_of (snd (rest w1)) user_id = commands_of w1 user_id
             /\ translations_of (snd (rest w1)) user_id = translations_of w1 user_id).
  { intros rest Hkeeps. destruct (Hkeeps w1) as [Hst _].
    unfold commands_of, translations_of. now rewrite Hst. }
  destruct Hcounted as [<- <-].
  destruct h; try discriminate Hcommand; cbn [run_handler];
    [ unfold start | unfold help_command | unfold about_command | unfold style_command
    | unfold language_command | unfold settings_command | unfold temp_command
    | unfold stats_command | unfold reset_command ];
    cbv zeta; fold user_id;
    rewrite (bind_Return _ _ _ _ _ Hrun);
    apply Hrest; rest_keeps_statistics.
Qed.

End CountingCommands.

(** ** Menus and the buttons they offer *)

Section Menus.

Context (E : Env).

(** Every button the style menu makes for a catalog entry carries data
    that [button_callback] takes as a style selection of that entry. *)
Lemma style_buttons_are_selections :
  forallb (fun kv : str * Style.t =>
             let data := lit "style_" ++ fst kv in
             startswith (lit "style_") data
             && negb (bool_decide (data = lit "style_info"))
             && bool_decide (replace data (lit "style_") (lit "") = fst kv)
             && bool_decide (is_Some (dict_get TRANSLATION_STYLES (fst kv))))
          TRANSLATION_STYLES = true.
Proof. vm_compute. reflexivity. Qed.

Lemma language_buttons_are_selections :
  forallb (fun kv : str * str =>
             let data := lit "lang_" ++ fst kv in
             negb (startswith (lit "style_") data)
             && startswith (lit "lang_") data
             && bool_decide (replace data (lit "lang_") (lit "") = fst kv)
             && bool_decide (is_Some (dict_get SUPPORTED_LANGUAGES (fst kv))))
          SUPPORTED_LANGUAGES = true.
Proof. vm_compute. reflexivity. Qed.

(** X17. The style menu and its buttons fit together.  [style_command]
    replies with one button per catalog style, in catalog order, carrying
    [style_<key>], and a last button carrying [style_info]; and pressing
    the button of a catalog style is always accepted by
    [button_callback] and stores exactly that style's key. *)
Theorem style_menu_buttons_select
    (update : Update) (context : Context) (w : World) (user_text : str) :
  message_text update = Some user_text ->
  (exists text keyboard w1,
      style_command E update context w = (Return tt, w1)
      /\ sent w1 = sent w ++ [reply_text text (Some keyboard)]
      /\ map (map snd) keyboard
         = map (fun kv => [lit "style_" ++ fst kv]) TRANSLATION_STYLES
           ++ [[lit "style_info"]])
  /\ forall (key : str) (info : Style.t) (press : Update) (ctx : Context) (w0 : World),
       In (key, info) TRANSLATION_STYLES ->
       callback_query_data press = Some (lit "style_" ++ key) ->
       fst (button_callback E press ctx w0) = Return tt
       /\ style (current_prefs (snd (button_callback E press ctx w0))
                   (effective_user_id press))
          = key.
Proof.
  intros Hmsg. split.
  - unfold style_command. cbv zeta.
    destruct (update_user_stats_frame E (effective_user_id update) (lit "command") w)
      as (st & tk & Hs).
    rewrite (bind_Return _ _ _ _ _ Hs).
    rewrite (bind_Return _ _ _ _ _ (get_user_prefs_run _ _)).
    rewrite (message_reply_text_Some update _ _ _ user_text Hmsg).
    eexists _, _, _. split; [reflexivity|]. split; [reflexivity|].
    rewrite map_app, map_map.
    apply (f_equal2 (@app (list str))); [|reflexivity].
    apply map_ext. intros [style_key style_info]. reflexivity.
  - intros key info press ctx w0 Hin Hdata.
    pose proof (proj1 (forallb_forall _ _) style_buttons_are_selections _ Hin) as Hcheck.
    cbv zeta in Hcheck. cbn [fst] in Hcheck.
    apply andb_prop in Hcheck as [Hcheck Hknown].
    apply andb_prop in Hcheck as [Hcheck Hreplace].
    apply andb_prop in Hcheck as [Hprefix Hinfo].
    apply bool_decide_eq_true in Hknown as [style_info Hknown].
    apply bool_decide_eq_true in Hreplace.
    apply negb_true_iff, bool_decide_eq_false in Hinfo.
    rewrite <- Hreplace in Hknown.
    rewrite (button_callback_style_run E press ctx w0 (lit "style_" ++ key) style_info
               Hdata Hprefix Hinfo Hknown).
    split; [reflexivity|].
    unfold current_prefs at 1. cbn [snd user_preferences].
    rewrite lookup_insert_eq. cbn [default from_option id set_style style].
    exact Hreplace.
Qed.

(** X18. The language menu and its buttons fit together.
    [language_command] replies with one button per catalog language, in
    catalog order, carrying [lang_<code>]; and pressing the button of a
    catalog language is always accepted by [button_callback] and stores
    exactly that language's code. *)
Theorem language_menu_buttons_select
    (update : Update) (context : Context) (w : World) (user_text : str) :
  message_text update = Some user_text ->
  (exists text keyboard w1,
      language_command E update context w = (Return tt, w1)
      /\ sent w1 = sent w ++ [reply_text text (Some keyboard)]
      /\ map (map snd) keyboard
         = map (fun kv => [lit "lang_" ++ fst kv]) SUPPORTED_LANGUAGES)
  /\ forall (code lang_name : str) (press : Update) (ctx : Context) (w0 : World),
       In (code, lang_name) SUPPORTED_LANGUAGES ->
       callback_query_data press = Some (lit "lang_" ++ code) ->
       fst (button_callback E press ctx w0) = Return tt
       /\ target_language (current_prefs (snd (button_callback E press ctx w0))
                             (effective_user_id press))
          = code.
Proof.
  intros Hmsg. split.
  - unfold language_command. cbv zeta.
    destruct (update_user_stats_frame E (effective_user_id update) (lit "command") w)
      as (st & tk & Hs).
    rewrite (bind_Return _ _ _ _ _ Hs).
    rewrite (bind_Return _ _ _ _ _ (get_user_prefs_run _ _)).
    rewrite (message_reply_text_Some update _ _ _ user_text Hmsg).
    eexists _, _, _. split; [reflexivity|]. split; [reflexivity|].
    rewrite map_map.
    apply map_ext. intros [lang_code lang_name]. reflexivity.
  - intros code lang_name press ctx w0 Hin Hdata.
    pose proof (proj1 (forallb_forall _ _) language_buttons_are_selections _ Hin) as Hcheck.
    cbv zeta in Hcheck. cbn [fst] in Hcheck.
    apply andb_prop in Hcheck as [Hcheck Hknown].
    apply andb_prop in Hcheck as [Hcheck Hreplace].
    apply andb_prop in Hcheck as [Hstyle Hprefix].
    apply bool_decide_eq_true in Hknown as [name Hknown].
    apply bool_decide_eq_true in Hreplace.
    apply negb_true_iff in Hstyle.
    rewrite (button_callback_language_run E press ctx w0 (lit "lang_" ++ code)
               Hdata Hstyle Hprefix).
    rewrite Hreplace, Hknown.
    split; [reflexivity|].
    unfold current_prefs at 1. cbn [snd user_preferences].
    rewrite lookup_insert_eq. reflexivity.
Qed.

End Menus.

(** ** The further properties at work on the sample worlds *)

Lemma busy_temperatures_in_range : temperatures_in_range Sample.busy.
Proof.
  intros u prefs H. unfold Sample.busy in H. cbn [user_preferences] in H.
  apply lookup_singleton_Some in H as [_ <-].
  vm_compute. reflexivity.
Qed.

(** After the evening's updates, served from the busy world, every stored
    temperature is still in range. *)
Lemma stored_temperatures_stay_in_range_witness :
  temperatures_in_range
    (serve (Sample.env (Some (Sample.answering (lit "ok")))) Runs.evening Sample.busy).
Proof.
  exact (stored_temperatures_stay_in_range
           (Sample.env (Some (Sample.answering (lit "ok")))) Runs.evening Sample.busy
           busy_temperatures_in_range).
Defined.

(** What callers 8 and 9 do in the evening leaves caller 7 as it was. *)
Lemma other_callers_change_nothing_witness :
  user_preferences
    (serve (Sample.env (Some (Sample.answering (lit "ok")))) Runs.others_evening Sample.busy)
    !! 7%Z
  = user_preferences Sample.busy !! 7%Z.
Proof.
  assert (Hothers : Forall (fun hu : handler * Update * Context =>
                              effective_user_id (snd (fst hu)) <> 7%Z)
                           Runs.others_evening).
  { unfold Runs.others_evening. apply Forall_forall. intros hu Hin.
    apply list_elem_of_filter in Hin as [Hne _]. exact Hne. }
  exact (proj1 (other_callers_change_nothing
                  (Sample.env (Some (Sample.answering (lit "ok"))))
                  Runs.others_evening Sample.busy 7%Z Hothers)).
Defined.

(** The evening with statistics off: the statistics of the busy world are
    what they were. *)
Lemma statistics_off_records_nothing_witness :
  user_statistics
    (serve (Runs.env_without_statistics (Some (Sample.answering (lit "ok"))))
       Runs.evening Sample.busy)
  = user_statistics Sample.busy.
Proof.
  exact (proj1 (statistics_off_records_nothing
                  (Runs.env_without_statistics (Some (Sample.answering (lit "ok"))))
                  Runs.evening Sample.busy eq_refl)).
Defined.

(** Caller 7, temperature 0.7, picks the style "academic", listed with
    temperature 0.2. *)
Lemma button_callback_selects_style_witness :
  style (current_prefs
           (snd (button_callback (Sample.env None)
                   (Sample.button_press 7 (lit "style_academic")) Runs.no_args Sample.busy))
           7)
  = lit "academic"
  /\ temperature
       (current_prefs
          (snd (button_callback (Sample.env None)
                  (Sample.button_press 7 (lit "style_academic")) Runs.no_args Sample.busy))
          7)
     = 0.7%float.
Proof.
  destruct (dict_get TRANSLATION_STYLES
              (replace (lit "style_academic") (lit "style_") (lit "")))
    as [style_info|] eqn:Hkey; [|vm_compute in Hkey; discriminate Hkey].
  assert (Hprefix : startswith (lit "style_") (lit "style_academic") = true)
    by (vm_compute; reflexivity).
  assert (Hinfo : lit "style_academic" <> lit "style_info") by (vm_compute; discriminate).
  destruct (button_callback_selects_style (Sample.env None)
              (Sample.button_press 7 (lit "style_academic")) Runs.no_args Sample.busy
              (lit "style_academic") style_info eq_refl Hprefix Hinfo Hkey) as [-> _].
  split; vm_compute; reflexivity.
Defined.

(** Caller 7 picks the language "fr". *)
Lemma button_callback_selects_language_witness :
  fst (button_callback (Sample.env None)
         (Sample.button_press 7 (lit "lang_fr")) Runs.no_args Sample.busy)
  = Return tt
  /\ target_language
       (current_prefs
          (snd (button_callback (Sample.env None)
                  (Sample.button_press 7 (lit "lang_fr")) Runs.no_args Sample.busy))
          7)
     = lit "fr".
Proof.
  assert (Hstyle : startswith (lit "style_") (lit "lang_fr") = false)
    by (vm_compute; reflexivity).
  assert (Hlang : startswith (lit "lang_") (lit "lang_fr") = true)
    by (vm_compute; reflexivity).
  rewrite (proj1 (button_callback_selects_language (Sample.env None)
                    (Sample.button_press 7 (lit "lang_fr")) Runs.no_args Sample.busy
                    (lit "lang_fr") eq_refl Hstyle Hlang)).
  split; vm_compute; reflexivity.
Defined.

(** Caller 7 presses the reset button. *)
Lemma button_callback_resets_witness :
  current_prefs
    (snd (button_callback (Sample.env None)
            (Sample.button_press 7 (lit "reset_settings")) Runs.no_args Sample.busy))
    7
  = DEFAULT_PREFERENCES.
Proof.
  rewrite (button_callback_resets (Sample.env None)
             (Sample.button_press 7 (lit "reset_settings")) Runs.no_args Sample.busy
             eq_refl).
  vm_compute. reflexivity.
Defined.

(** Caller 7, who has notes on, presses the notes toggle once and twice. *)
Lemma button_callback_toggles_witness :
  add_notes
    (current_prefs
       (snd (button_callback (Sample.env None)
               (Sample.button_press 7 (lit "toggle_notes")) Runs.no_args Sample.busy))
       7)
  = false
  /\ user_preferences
       (snd (button_callback (Sample.env None)
               (Sample.button_press 7 (lit "toggle_notes")) Runs.no_args
               (snd (button_callback (Sample.env None)
                       (Sample.button_press 7 (lit "toggle_notes")) Runs.no_args
                       Sample.busy))))
     = <[7%Z := current_prefs Sample.busy 7]> (user_preferences Sample.busy).
Proof.
  assert (Hin : In (lit "toggle_notes",
                    fun prefs => set_add_notes (negb (add_notes prefs)) prefs) toggles)
    by (right; left; reflexivity).
  destruct (button_callback_toggles (Sample.env None)
              (Sample.button_press 7 (lit "toggle_notes")) Runs.no_args Sample.busy
              _ _ Hin eq_refl) as [H1 H2].
  split; [|exact H2].
  unfold current_prefs. rewrite H1.
  change (effective_user_id (Sample.button_press 7 (lit "toggle_notes"))) with 7%Z.
  rewrite lookup_insert_eq. vm_compute. reflexivity.
Defined.

(** Caller 7 presses the menu button for styles. *)
Lemma button_callback_menus_do_not_arrive_witness :
  fst (button_callback (Sample.env None)
         (Sample.button_press 7 (lit "menu_style")) Runs.no_args Sample.busy)
  = Raise AttributeError.
Proof.
  assert (Hin : In (lit "menu_style") (map fst toggles ++ menu_buttons))
    by (apply in_or_app; right; left; reflexivity).
  assert (Hstyle : is_Some (dict_get TRANSLATION_STYLES
                              (style (current_prefs Sample.busy
                                        (effective_user_id
                                           (Sample.button_press 7 (lit "menu_style")))))))
    by (vm_compute; eauto).
  exact (proj1 (button_callback_menus_do_not_arrive (Sample.env None)
                  (Sample.button_press 7 (lit "menu_style")) Runs.no_args Sample.busy
                  (lit "menu_style") eq_refl eq_refl Hin Hstyle)).
Defined.

(** A caller with the default preferences sends "Hello world" and the
    service answers. *)
Lemma handle_message_translates_witness :
  texts_sent
    (sent (snd (handle_message (Sample.env (Some (Sample.answering (lit "Xin chào thế giới"))))
                  (Sample.text_message 7 (lit "Hello world")) Runs.no_args Sample.start)))
  = [ lit "🔄 *Đang dịch...*";
      lit "💼 *Phong cách:* 💼 Chuyên nghiệp\n🇻🇳 *Ngôn ngữ:* 🇻🇳 Tiếng Việt\n━━━━━━━━━━━━━━━━━━━━\nXin chào thế giới" ].
Proof.
  destruct (dict_get TRANSLATION_STYLES (style (current_prefs Sample.start 7)))
    as [style_info|] eqn:Hstyle; [|vm_compute in Hstyle; discriminate Hstyle].
  destruct (dict_get SUPPORTED_LANGUAGES (target_language (current_prefs Sample.start 7)))
    as [lang_name|] eqn:Hlang; [|vm_compute in Hlang; discriminate Hlang].
  assert (Hlen : (Z.of_nat (length (lit "Hello world"))
                  <= MAX_MESSAGE_LENGTH
                       (config (Sample.env
                                  (Some (Sample.answering (lit "Xin chào thế giới"))))))%Z)
    by (vm_compute; discriminate).
  destruct (handle_message_translates
              (Sample.env (Some (Sample.answering (lit "Xin chào thế giới"))))
              (Sample.answering (lit "Xin chào thế giới"))
              (Sample.text_message 7 (lit "Hello world")) Runs.no_args Sample.start
              (lit "Hello world") (lit "Xin chào thế giới") style_info lang_name
              eq_refl eq_refl Hlen Hstyle Hlang eq_refl)
    as (response & w' & Hfmt & Hrun & Hsent & _).
  rewrite Hrun. cbn [snd]. rewrite Hsent, texts_sent_app.
  cbn [texts_sent omap list_omap app sent Sample.start].
  vm_compute in Hfmt. injection Hfmt as <-.
  vm_compute. reflexivity.
Defined.

(** Caller 7 has pressed a button [style_xyz] and now sends a text. *)
Lemma handle_message_unknown_style_witness :
  fst (handle_message (Sample.env (Some (Sample.answering (lit "ok"))))
         (Sample.text_message 7 (lit "Hello")) Runs.no_args
         (snd (button_callback (Sample.env None)
                 (Sample.button_press 7 (lit "style_xyz")) Runs.no_args Sample.busy)))
  = Raise (KeyError (lit "xyz"))
  /\ sent (snd (handle_message (Sample.env (Some (Sample.answering (lit "ok"))))
                  (Sample.text_message 7 (lit "Hello")) Runs.no_args
                  (snd (button_callback (Sample.env None)
                          (Sample.button_press 7 (lit "style_xyz")) Runs.no_args
                          Sample.busy))))
     = [ answer None; reply_text (lit "🔄 *Đang dịch...*") None; send_chat_action ].
Proof.
  assert (Hlen : (Z.of_nat (length (lit "Hello"))
                  <= MAX_MESSAGE_LENGTH
                       (config (Sample.env (Some (Sample.answering (lit "ok"))))))%Z)
    by (vm_compute; discriminate).
  assert (Hstyle :
            dict_get TRANSLATION_STYLES
              (style (current_prefs
                        (snd (button_callback (Sample.env None)
                                (Sample.button_press 7 (lit "style_xyz")) Runs.no_args
                                Sample.busy))
                        (effective_user_id (Sample.text_message 7 (lit "Hello")))))
            = None) by (vm_compute; reflexivity).
  destruct (handle_message_unknown_style
              (Sample.env (Some (Sample.answering (lit "ok"))))
              (Sample.text_message 7 (lit "Hello")) Runs.no_args _
              (lit "Hello") eq_refl Hlen Hstyle) as (Hraise & Hsent).
  split.
  - etransitivity; [exact Hraise|]. vm_compute. reflexivity.
  - etransitivity; [exact Hsent|]. vm_compute. reflexivity.
Defined.

(** A text sent to a bot whose client was never initialised. *)
Lemma handle_message_without_client_witness :
  texts_sent
    (sent (snd (handle_message (Sample.env None)
                  (Sample.text_message 7 (lit "Hello")) Runs.no_args Sample.start)))
  = [ lit "🔄 *Đang dịch...*";
      lit "❌ Z.AI client chưa được khởi tạo. Kiểm tra API key!" ].
Proof.
  assert (Hlen : (Z.of_nat (length (lit "Hello"))
                  <= MAX_MESSAGE_LENGTH (config (Sample.env None)))%Z)
    by (vm_compute; discriminate).
  assert (Hstyle : is_Some (dict_get TRANSLATION_STYLES
                              (style (current_prefs Sample.start
                                        (effective_user_id
                                           (Sample.text_message 7 (lit "Hello")))))))
    by (vm_compute; eauto).
  assert (Hlang : is_Some (dict_get SUPPORTED_LANGUAGES
                             (target_language
                                (current_prefs Sample.start
                                   (effective_user_id
                                      (Sample.text_message 7 (lit "Hello")))))))
    by (vm_compute; eauto).
  destruct (handle_message_without_client (Sample.env None)
              (Sample.text_message 7 (lit "Hello")) Runs.no_args Sample.start
              (lit "Hello") eq_refl eq_refl Hlen Hstyle Hlang) as (w' & Hrun & Hsent).
  rewrite Hrun. cbn [snd]. rewrite Hsent. vm_compute. reflexivity.
Defined.

(** Caller 7 sends [/temp abc]. *)
Lemma temp_command_changes_only_when_accepted_witness :
  current_prefs
    (snd (temp_command (Sample.env None) (Sample.text_message 7 (lit "/temp abc"))
            {| args := [lit "abc"] |} Sample.busy)) 7
  = current_prefs Sample.busy 7.
Proof.
  apply temp_command_changes_only_when_accepted.
  intros arg0 rest temp Hargs Hfloat. cbn [args] in Hargs.
  injection Hargs as <- <-. vm_compute in Hfloat. discriminate Hfloat.
Defined.

(** Caller 7, three translations and five commands so far, asks for the
    statistics: the text shows six commands. *)
Lemma stats_command_counts_itself_witness :
  texts_sent
    (sent (snd (stats_command (Sample.env None) (Sample.text_message 7 (lit "/stats"))
                  Runs.no_args Sample.busy)))
  = [ lit "📊 *THỐNG KÊ SỬ DỤNG CỦA BẠN*\n━━━━━━━━━━━━━━━━━━━━\n\n📝 *Số lần dịch:* 3\n⚡ *Lệnh đã dùng:* 6\n🎨 *Phong cách hiện tại:* 🎨 Sáng tạo\n🌍 *Ngôn ngữ đích:* 🇯🇵 日本語\n📅 *Lần đầu sử dụng:* 2024-12-31\n🕒 *Lần cuối sử dụng:* 2025-01-01\n\n_Cảm ơn bạn đã sử dụng bot!_" ].
Proof.
  destruct (dict_get TRANSLATION_STYLES (style (current_prefs Sample.busy 7)))
    as [style_info|] eqn:Hstyle; [|vm_compute in Hstyle; discriminate Hstyle].
  pose proof (stats_command_counts_itself (Sample.env None)
                (Sample.text_message 7 (lit "/stats")) Runs.no_args Sample.busy
                (lit "/stats") style_info eq_refl Hstyle) as H.
  cbv zeta in H.
  change (ENABLE_STATS (config (Sample.env None))) with true in H. cbv iota in H.
  destruct H as (s1 & w' & Hrun & Hs1 & _ & _ & Hsent & _).
  assert (Hw' : w' = snd (stats_command (Sample.env None)
                            (Sample.text_message 7 (lit "/stats")) Runs.no_args
                            Sample.busy))
    by (rewrite Hrun; reflexivity).
  rewrite Hrun. cbn [snd]. rewrite Hsent.
  rewrite Hw' in Hs1. vm_compute in Hs1. injection Hs1 as <-.
  vm_compute in Hstyle. injection Hstyle as <-.
  vm_compute. reflexivity.
Defined.

(** Caller 7, five commands so far, asks for help. *)
Lemma every_command_is_counted_once_witness :
  commands_of
    (snd (run_handler (Sample.env None) on_help (Sample.text_message 7 (lit "/help"))
            Runs.no_args Sample.busy)) 7
  = 6%Z.
Proof.
  destruct (every_command_is_counted_once (Sample.env None) on_help
              (Sample.text_message 7 (lit "/help")) Runs.no_args Sample.busy
              eq_refl eq_refl) as [H _].
  etransitivity; [exact H|]. vm_compute. reflexivity.
Defined.

(** Caller 3 presses the button the style menu shows for "casual". *)
Lemma style_menu_buttons_select_witness :
  style (current_prefs
           (snd (button_callback (Sample.env None)
                   (Sample.button_press 3 (lit "style_casual")) Runs.no_args Sample.start))
           3)
  = lit "casual".
Proof.
  destruct (style_menu_buttons_select (Sample.env None)
              (Sample.text_message 3 (lit "/style")) Runs.no_args Sample.start
              (lit "/style") eq_refl) as [_ H].
  refine (proj2 (H (lit "casual") _ (Sample.button_press 3 (lit "style_casual"))
                   Runs.no_args Sample.start _ eq_refl)).
  right. left. reflexivity.
Defined.

(** Caller 3 presses the button the language menu shows for "ko". *)
Lemma language_menu_buttons_select_witness :
  target_language
    (current_prefs
       (snd (button_callback (Sample.env None)
               (Sample.button_press 3 (lit "lang_ko")) Runs.no_args Sample.start))
       3)
  = lit "ko".
Proof.
  destruct (language_menu_buttons_select (Sample.env None)
              (Sample.text_message 3 (lit "/language")) Runs.no_args Sample.start
              (lit "/language") eq_refl) as [_ H].
  refine (proj2 (H (lit "ko") _ (Sample.button_press 3 (lit "lang_ko"))
                   Runs.no_args Sample.start _ eq_refl)).
  do 4 right. left. reflexivity.
Defined.
